(** * CHIP-8 emulator (main.cpp): shallow embedding of [struct Chip8]

    The machine state is the record [Chip8]; [decode_instruction],
    [read_program_to_mem], [execute_cycle] and [update_timers] are the
    member functions of the same names.  Fixed-width integers are [Z] with
    the wrap-around of every assignment written out ([u8], [u16], [u64]);
    arrays are lists indexed through [Z].  An index outside the declared
    bounds of an array has no defined behaviour in C++: the embedding stops
    with [Undefined] there.  [assert(0)] of a DEBUG_MODE build stops with
    [Aborted]; the [LOG] lines of that build only print and are left out.
    The SDL front end of [main] (window, texture, key events, pacing) is
    not part of the embedding. *)

From Stdlib Require Import ZArith Lia Bool.
From stdpp Require Import base list.

Local Open Scope Z_scope.

(** ** Fixed-width integers *)

Definition u8 (z : Z) : Z := z mod 256.
Definition u16 (z : Z) : Z := z mod 65536.
Definition u64 (z : Z) : Z := z mod 18446744073709551616.

Definition is_u8 (z : Z) : Prop := 0 <= z < 256.

(** ** Constants *)

Definition WIDTH : Z := 64.
Definition HEIGHT : Z := 32.
Definition MEM_SIZE : Z := 4096.
Definition NUM_KEYS : Z := 16.
Definition STACK_SIZE : Z := 16.
Definition fonts_offset : Z := 5.

Definition fonts : list Z :=
  [ 0xF0;0x90;0x90;0x90;0xF0;
    0x20;0x60;0x20;0x20;0x70;
    0xF0;0x10;0xF0;0x80;0xF0;
    0xF0;0x10;0xF0;0x10;0xF0;
    0x90;0x90;0xF0;0x10;0x10;
    0xF0;0x80;0xF0;0x10;0xF0;
    0xF0;0x80;0xF0;0x90;0xF0;
    0xF0;0x10;0x20;0x40;0x40;
    0xF0;0x90;0xF0;0x90;0xF0;
    0xF0;0x90;0xF0;0x10;0xF0;
    0xF0;0x90;0xF0;0x90;0x90;
    0xE0;0x90;0xE0;0x90;0xE0;
    0xF0;0x80;0x80;0x80;0xF0;
    0xE0;0x90;0x90;0x90;0xE0;
    0xF0;0x80;0xF0;0x80;0xF0;
    0xF0;0x80;0xF0;0x80;0x80 ].

(** ** Outcomes of a member function *)

Inductive outcome (A : Type) : Type :=
| Done (a : A)
| Aborted
| Undefined.

Arguments Done {A} a.
Arguments Aborted {A}.
Arguments Undefined {A}.

Definition obind {A B : Type} (m : outcome A) (k : A -> outcome B) : outcome B :=
  match m with
  | Done a => k a
  | Aborted => Aborted
  | Undefined => Undefined
  end.

Notation "x <- m ;; k" := (obind m (fun x => k))
  (at level 100, m at next level, right associativity).

(** ** Arrays *)

(** [arr[i]] for an index the code keeps inside the array by construction. *)
Definition arr_get (arr : list Z) (i : Z) : Z := arr !!! Z.to_nat i.

Definition arr_set (arr : list Z) (i v : Z) : list Z := <[Z.to_nat i := v]> arr.

(** [arr[i]] for an index computed from machine state, against the declared
    size of the array. *)
Definition arr_read (size : Z) (arr : list Z) (i : Z) : outcome Z :=
  if (0 <=? i) && (i <? size) then Done (arr_get arr i) else Undefined.

Definition arr_write (size : Z) (arr : list Z) (i v : Z) : outcome (list Z) :=
  if (0 <=? i) && (i <? size) then Done (arr_set arr i v) else Undefined.

(** ** The machine *)

Record Chip8 : Type := mkChip8 {
  mem : list Z;            (* u8 mem[4096] *)
  pixels : list Z;         (* u8 pixels[WIDTH][HEIGHT], row-major *)
  v_reg : list Z;          (* u8 v_reg[16] *)
  delay_timer : Z;         (* u8 *)
  sound_timer : Z;         (* u8 *)
  keys : list Z;           (* u8 keys[16] *)
  sp : Z;                  (* u8 *)
  stack : list Z;          (* u16 stack[16] *)
  pc : Z;                  (* u16 *)
  i_addr_reg : Z;          (* u16 *)
  program_size : Z;        (* u16 *)
  cycle_count : Z          (* u64 *)
}.

Definition set_mem (m : list Z) (c : Chip8) : Chip8 :=
  mkChip8 m (pixels c) (v_reg c) (delay_timer c) (sound_timer c) (keys c)
          (sp c) (stack c) (pc c) (i_addr_reg c) (program_size c) (cycle_count c).
Definition set_pixels (p : list Z) (c : Chip8) : Chip8 :=
  mkChip8 (mem c) p (v_reg c) (delay_timer c) (sound_timer c) (keys c)
          (sp c) (stack c) (pc c) (i_addr_reg c) (program_size c) (cycle_count c).
Definition set_v_reg (v : list Z) (c : Chip8) : Chip8 :=
  mkChip8 (mem c) (pixels c) v (delay_timer c) (sound_timer c) (keys c)
          (sp c) (stack c) (pc c) (i_addr_reg c) (program_size c) (cycle_count c).
Definition set_delay_timer (t : Z) (c : Chip8) : Chip8 :=
  mkChip8 (mem c) (pixels c) (v_reg c) t (sound_timer c) (keys c)
          (sp c) (stack c) (pc c) (i_addr_reg c) (program_size c) (cycle_count c).
Definition set_sound_timer (t : Z) (c : Chip8) : Chip8 :=
  mkChip8 (mem c) (pixels c) (v_reg c) (delay_timer c) t (keys c)
          (sp c) (stack c) (pc c) (i_addr_reg c) (program_size c) (cycle_count c).
Definition set_keys (k : list Z) (c : Chip8) : Chip8 :=
  mkChip8 (mem c) (pixels c) (v_reg c) (delay_timer c) (sound_timer c) k
          (sp c) (stack c) (pc c) (i_addr_reg c) (program_size c) (cycle_count c).
Definition set_sp (s : Z) (c : Chip8) : Chip8 :=
  mkChip8 (mem c) (pixels c) (v_reg c) (delay_timer c) (sound_timer c) (keys c)
          s (stack c) (pc c) (i_addr_reg c) (program_size c) (cycle_count c).
Definition set_stack (s : list Z) (c : Chip8) : Chip8 :=
  mkChip8 (mem c) (pixels c) (v_reg c) (delay_timer c) (sound_timer c) (keys c)
          (sp c) s (pc c) (i_addr_reg c) (program_size c) (cycle_count c).
Definition set_pc (p : Z) (c : Chip8) : Chip8 :=
  mkChip8 (mem c) (pixels c) (v_reg c) (delay_timer c) (sound_timer c) (keys c)
          (sp c) (stack c) p (i_addr_reg c) (program_size c) (cycle_count c).
Definition set_i_addr_reg (i : Z) (c : Chip8) : Chip8 :=
  mkChip8 (mem c) (pixels c) (v_reg c) (delay_timer c) (sound_timer c) (keys c)
          (sp c) (stack c) (pc c) i (program_size c) (cycle_count c).
Definition set_program_size (n : Z) (c : Chip8) : Chip8 :=
  mkChip8 (mem c) (pixels c) (v_reg c) (delay_timer c) (sound_timer c) (keys c)
          (sp c) (stack c) (pc c) (i_addr_reg c) n (cycle_count c).
Definition set_cycle_count (n : Z) (c : Chip8) : Chip8 :=
  mkChip8 (mem c) (pixels c) (v_reg c) (delay_timer c) (sound_timer c) (keys c)
          (sp c) (stack c) (pc c) (i_addr_reg c) (program_size c) n.

(** The default member initialisers of [struct Chip8]. *)
Definition fresh : Chip8 :=
  mkChip8 (replicate 4096 0) (replicate 2048 0) (replicate 16 0) 0 0
          (replicate 16 0) 0 (replicate 16 0) 0x200 0 0 0.

(** ** Register file and framebuffer accessors *)

(** [v_reg[x]]: every register index of the decoder is a nibble. *)
Definition reg (c : Chip8) (x : Z) : Z := arr_get (v_reg c) x.
Definition set_reg (x v : Z) (c : Chip8) : Chip8 := set_v_reg (arr_set (v_reg c) x v) c.

(** [pixels[x][y]] in the row-major layout of [u8 pixels[WIDTH][HEIGHT]]. *)
Definition pixel_index (x y : Z) : Z := x * HEIGHT + y.
Definition pixel (c : Chip8) (x y : Z) : Z := arr_get (pixels c) (pixel_index x y).
Definition set_pixel (x y v : Z) (c : Chip8) : Chip8 :=
  set_pixels (arr_set (pixels c) (pixel_index x y) v) c.

(** [pc += 2] *)
Definition advance_pc (c : Chip8) : Chip8 := set_pc (u16 (pc c + 2)) c.

(** [((opcode1 & 0x0F) << 8) | opcode2] *)
Definition nnn (opcode1 opcode2 : Z) : Z :=
  Z.lor (Z.shiftl (Z.land opcode1 0x0F) 8) opcode2.

(** ** The instruction decoder *)

(** The inner loop of DXYN, [for (u8 j = 0; j < 8; ++j)], from column [j]
    on, [n] columns left; [x], [y] are the values Vx, Vy read before the
    loops and [i] is the row. *)
Fixpoint draw_columns (n : nat) (j x y i sprite_bits : Z) (c : Chip8) : Chip8 :=
  match n with
  | O => c
  | S n' =>
      let current_pixel := Z.shiftr sprite_bits 7 in
      let old_pixel := pixel c ((j + x) mod WIDTH) ((i + y) mod HEIGHT) in
      let display_pixel := Z.lxor current_pixel old_pixel in
      let c1 := set_pixel ((j + x) mod WIDTH) ((i + y) mod HEIGHT) display_pixel c in
      let c2 := if (old_pixel =? 1) && (display_pixel =? 0)
                then set_reg 0x0F 1 c1 else c1 in
      draw_columns n' (j + 1) x y i (u8 (Z.shiftl sprite_bits 1)) c2
  end.

(** The outer loop of DXYN, [for (u8 i = 0; i < pixel_height; ++i)], from
    row [i] on, [n] rows left. *)
Fixpoint draw_rows (n : nat) (i x y : Z) (c : Chip8) : outcome Chip8 :=
  match n with
  | O => Done c
  | S n' =>
      sprite_bits <- arr_read MEM_SIZE (mem c) (i_addr_reg c + i) ;;
      draw_rows n' (i + 1) x y (draw_columns 8 0 x y i sprite_bits c)
  end.

(** FX0A, [for (u8 i = 0; i < sizeof(keys); ++i)], leaving at the first
    key that is down. *)
Fixpoint wait_key (n : nat) (i x : Z) (c : Chip8) : Chip8 :=
  match n with
  | O => c
  | S n' =>
      if negb (arr_get (keys c) i =? 0)
      then advance_pc (set_reg x 1 c)
      else wait_key n' (i + 1) x c
  end.

(** FX55, [for (u8 i = 0; i <= x; ++i) mem[i_addr_reg + i] = v_reg[i]]. *)
Fixpoint reg_dump (n : nat) (i : Z) (c : Chip8) : outcome Chip8 :=
  match n with
  | O => Done c
  | S n' =>
      m <- arr_write MEM_SIZE (mem c) (i_addr_reg c + i) (reg c i) ;;
      reg_dump n' (i + 1) (set_mem m c)
  end.

(** FX65, [for (u8 i = 0; i <= x; ++i) v_reg[i] = mem[i_addr_reg + i]]. *)
Fixpoint reg_load (n : nat) (i : Z) (c : Chip8) : outcome Chip8 :=
  match n with
  | O => Done c
  | S n' =>
      b <- arr_read MEM_SIZE (mem c) (i_addr_reg c + i) ;;
      reg_load n' (i + 1) (set_reg i b c)
  end.

Definition skip_if (b : bool) (c : Chip8) : Chip8 :=
  advance_pc (if b then advance_pc c else c).

Section Decode.

(** [DEBUG_MODE] is the build flag that turns [NOT_REACHED()] into
    [assert(0)]; [rand_value] is what the C library's [rand()] returns when
    the instruction calls it. *)
Variable DEBUG_MODE : bool.
Variable rand_value : Z.

Definition NOT_REACHED (c : Chip8) : outcome Chip8 :=
  if DEBUG_MODE then Aborted else Done c.

Definition decode_arith (opcode1 opcode2 : Z) (c : Chip8) : outcome Chip8 :=
  let x := Z.land opcode1 0x0F in
  let y := Z.shiftr opcode2 4 in
  match Z.land opcode2 0x0F with
  | 0x00 => Done (advance_pc (set_reg x (reg c y) c))
  | 0x01 => Done (advance_pc (set_reg x (Z.lor (reg c x) (reg c y)) c))
  | 0x02 => Done (advance_pc (set_reg x (Z.land (reg c x) (reg c y)) c))
  | 0x03 => Done (advance_pc (set_reg x (Z.lxor (reg c x) (reg c y)) c))
  | 0x04 =>
      let res := u16 (reg c x + reg c y) in
      let c1 := set_reg 0x0F (Z.b2z (res >? 0xFF)) c in
      Done (advance_pc (set_reg x (Z.land res 0xFF) c1))
  | 0x05 =>
      let c1 := set_reg 0x0F (Z.b2z (reg c x >? reg c y)) c in
      Done (advance_pc (set_reg x (u8 (reg c1 x - reg c1 y)) c1))
  | 0x06 =>
      let c1 := set_reg 0x0F (Z.land (reg c x) 0x01) c in
      Done (advance_pc (set_reg x (Z.shiftr (reg c1 x) 1) c1))
  | 0x07 =>
      let c1 := set_reg 0x0F (Z.b2z (reg c y >? reg c x)) c in
      Done (advance_pc (set_reg x (u8 (reg c1 y - reg c1 x)) c1))
  | 0x0E =>
      let c1 := set_reg 0x0F (Z.b2z (Z.land (reg c x) 0x80 >? 1)) c in
      Done (advance_pc (set_reg x (u8 (Z.shiftl (reg c1 x) 1)) c1))
  | _ => NOT_REACHED c
  end.

Definition decode_key (opcode1 opcode2 : Z) (c : Chip8) : outcome Chip8 :=
  let x := Z.land opcode1 0x0F in
  match opcode2 with
  | 0x9E =>
      k <- arr_read NUM_KEYS (keys c) (reg c x) ;;
      Done (skip_if (k =? 1) c)
  | 0xA1 =>
      k <- arr_read NUM_KEYS (keys c) (reg c x) ;;
      Done (skip_if (k =? 0) c)
  | _ => NOT_REACHED c
  end.

Definition decode_misc (opcode1 opcode2 : Z) (c : Chip8) : outcome Chip8 :=
  let x := Z.land opcode1 0x0F in
  match opcode2 with
  | 0x07 => Done (advance_pc (set_reg x (delay_timer c) c))
  | 0x0A => Done (wait_key 16 0 x c)
  | 0x15 => Done (advance_pc (set_delay_timer (reg c x) c))
  | 0x18 => Done (advance_pc (set_sound_timer (reg c x) c))
  | 0x1E => Done (advance_pc (set_i_addr_reg (u16 (i_addr_reg c + reg c x)) c))
  | 0x29 => Done (advance_pc (set_i_addr_reg (u16 (reg c x * fonts_offset)) c))
  | 0x33 =>
      let value := reg c x in
      m1 <- arr_write MEM_SIZE (mem c) (i_addr_reg c) (value / 100) ;;
      m2 <- arr_write MEM_SIZE m1 (i_addr_reg c + 1) ((value mod 100) / 10) ;;
      m3 <- arr_write MEM_SIZE m2 (i_addr_reg c + 2) (value mod 10) ;;
      Done (advance_pc (set_mem m3 c))
  | 0x55 =>
      c1 <- reg_dump (S (Z.to_nat x)) 0 c ;;
      Done (advance_pc c1)
  | 0x65 =>
      c1 <- reg_load (S (Z.to_nat x)) 0 c ;;
      Done (advance_pc c1)
  | _ => NOT_REACHED c
  end.

Definition decode_instruction (opcode1 opcode2 : Z) (c : Chip8) : outcome Chip8 :=
  match Z.shiftr opcode1 4 with
  | 0x00 =>
      if (opcode1 =? 0x00) && (opcode2 =? 0xE0)
      then Done (advance_pc (set_pixels (replicate 2048 0) c))
      else if (opcode1 =? 0x00) && (opcode2 =? 0xEE)
      then
        let c1 := set_sp (u8 (sp c - 1)) c in
        ret <- arr_read STACK_SIZE (stack c1) (sp c1) ;;
        Done (set_pc ret c1)
      else NOT_REACHED c
  | 0x01 => Done (set_pc (nnn opcode1 opcode2) c)
  | 0x02 =>
      s <- arr_write STACK_SIZE (stack c) (sp c) (u16 (pc c + 2)) ;;
      Done (set_pc (nnn opcode1 opcode2) (set_sp (u8 (sp c + 1)) (set_stack s c)))
  | 0x03 => Done (skip_if (reg c (Z.land opcode1 0x0F) =? opcode2) c)
  | 0x04 => Done (skip_if (negb (reg c (Z.land opcode1 0x0F) =? opcode2)) c)
  | 0x05 =>
      Done (skip_if (reg c (Z.land opcode1 0x0F) =? reg c (Z.shiftr opcode2 4)) c)
  | 0x06 => Done (advance_pc (set_reg (Z.land opcode1 0x0F) opcode2 c))
  | 0x07 =>
      let x := Z.land opcode1 0x0F in
      Done (advance_pc (set_reg x (u8 (reg c x + opcode2)) c))
  | 0x08 => decode_arith opcode1 opcode2 c
  | 0x09 =>
      Done (skip_if (negb (reg c (Z.land opcode1 0x0F) =? reg c (Z.shiftr opcode2 4))) c)
  | 0x0A => Done (advance_pc (set_i_addr_reg (nnn opcode1 opcode2) c))
  | 0x0B => Done (advance_pc (set_pc (u16 (reg c 0 + nnn opcode1 opcode2)) c))
  | 0x0C =>
      Done (advance_pc
              (set_reg (Z.land opcode1 0x0F) (Z.land (Z.rem rand_value 256) opcode2) c))
  | 0x0D =>
      let x := reg c (Z.land opcode1 0x0F) in
      let y := reg c (Z.shiftr opcode2 4) in
      let pixel_height := Z.land opcode2 0x0F in
      c1 <- draw_rows (Z.to_nat pixel_height) 0 x y (set_reg 0x0F 0 c) ;;
      Done (advance_pc c1)
  | 0x0E => decode_key opcode1 opcode2 c
  | 0x0F => decode_misc opcode1 opcode2 c
  | _ => Done c
  end.

(** [u64 execute_cycle()]: [decode_instruction(&mem[pc])] reads
    [mem[pc]] and [mem[pc + 1]]; the result pairs the machine with the
    returned value [++cycle_count]. *)
Definition fetch (c : Chip8) : outcome (Z * Z) :=
  opcode1 <- arr_read MEM_SIZE (mem c) (pc c) ;;
  opcode2 <- arr_read MEM_SIZE (mem c) (pc c + 1) ;;
  Done (opcode1, opcode2).

Definition execute_cycle (c : Chip8) : outcome (Chip8 * Z) :=
  ops <- fetch c ;;
  c1 <- decode_instruction (fst ops) (snd ops) c ;;
  let n := u64 (cycle_count c1 + 1) in
  Done (set_cycle_count n c1, n).

End Decode.

(** [void update_timers()] *)
Definition update_timers (c : Chip8) : Chip8 :=
  let c1 := if delay_timer c >? 0 then set_delay_timer (delay_timer c - 1) c else c in
  if sound_timer c1 >? 0 then set_sound_timer (sound_timer c1 - 1) c1 else c1.

(** ** The loader *)

(** [memcpy(dst + off, src, length src)] inside the bounds of [dst]. *)
Definition memcpy (dst : list Z) (off : Z) (src : list Z) : list Z :=
  take (Z.to_nat off) dst ++ src ++ drop (Z.to_nat off + length src) dst.

(** [bool read_program_to_mem(const char* file_name)]: [file] is the content
    of the file, [None] when [fopen] fails.  [ftell] at the end of the file
    is its length, stored in the [u16] field [program_size]; [fread] then
    copies that many bytes to [mem + pc]. *)
Definition read_program_to_mem (file : option (list Z)) (c : Chip8)
  : outcome (Chip8 * bool) :=
  match file with
  | None => Done (c, false)
  | Some bytes =>
      let c1 := set_mem (memcpy (mem c) 0 fonts) c in
      let c2 := set_program_size (u16 (Z.of_nat (length bytes))) c1 in
      let c3 := set_pc 0x200 c2 in
      let data := take (Z.to_nat (program_size c3)) bytes in
      if pc c3 + Z.of_nat (length data) <=? MEM_SIZE
      then Done (set_mem (memcpy (mem c3) (pc c3) data) c3, true)
      else Undefined
  end.

(** A freshly constructed machine with a program image read, as [main]
    sets it up. *)
Definition loaded (bytes : list Z) : Chip8 :=
  match read_program_to_mem (Some bytes) fresh with
  | Done (c, _) => c
  | _ => fresh
  end.

(** [n] calls of [execute_cycle] in a row, as the driver loop makes them. *)
Fixpoint run (dbg : bool) (n : nat) (c : Chip8) : outcome Chip8 :=
  match n with
  | O => Done c
  | S n' =>
      r <- execute_cycle dbg 0 c ;;
      run dbg n' (fst r)
  end.


(** ** Vocabulary of the statements *)

(** A run of instructions given by their two opcode bytes, executed one
    after the other by [decode_instruction]. *)
Fixpoint exec_seq (dbg : bool) (rnd : Z) (ops : list (Z * Z)) (c : Chip8)
  : outcome Chip8 :=
  match ops with
  | [] => Done c
  | op :: rest =>
      c1 <- decode_instruction dbg rnd (fst op) (snd op) c ;;
      exec_seq dbg rnd rest c1
  end.

(** The opcode bytes of a subroutine call 2NNN. *)
Definition is_call (op : Z * Z) : Prop := Z.shiftr (fst op) 4 = 0x02.

(** What [execute_cycle] makes of a decoded machine: [++cycle_count],
    returned. *)
Definition counted (c : Chip8) : Chip8 * Z :=
  (set_cycle_count (u64 (cycle_count c + 1)) c, u64 (cycle_count c + 1)).

(** The instruction patterns of the specification's table (section 4.2),
    as a test on the two opcode bytes: 00E0, 00EE, 1NNN .. 4XNN, 5XY0, 6XNN,
    7XNN, 8XY0 .. 8XY7, 8XYE, 9XY0, ANNN .. DXYN, EX9E, EXA1 and the nine
    FX instructions. *)
Definition documented_pattern (opcode1 opcode2 : Z) : bool :=
  match Z.shiftr opcode1 4 with
  | 0x0 => (opcode1 =? 0x00) && ((opcode2 =? 0xE0) || (opcode2 =? 0xEE))
  | 0x1 | 0x2 | 0x3 | 0x4 | 0x6 | 0x7 | 0xA | 0xB | 0xC | 0xD => true
  | 0x5 | 0x9 => Z.land opcode2 0x0F =? 0
  | 0x8 =>
      match Z.land opcode2 0x0F with
      | 0x0 | 0x1 | 0x2 | 0x3 | 0x4 | 0x5 | 0x6 | 0x7 | 0xE => true
      | _ => false
      end
  | 0xE => (opcode2 =? 0x9E) || (opcode2 =? 0xA1)
  | 0xF =>
      existsb (Z.eqb opcode2)
              [0x07; 0x0A; 0x15; 0x18; 0x1E; 0x29; 0x33; 0x55; 0x65]
  | _ => false
  end.

(** *** Sprites *)

(** Row [row] of the sprite at I, and its bit for column [col], the most
    significant bit being column 0. *)
Definition sprite_row (c : Chip8) (row : Z) : Z :=
  arr_get (mem c) (i_addr_reg c + row).

Definition sprite_bit (c : Chip8) (row col : Z) : Z :=
  Z.b2z (Z.testbit (sprite_row c row) (7 - col)).

(** The sprite row and column that a draw at ([x], [y]) puts on the pixel
    ([px], [py]), and whether they lie inside an [n]-row sprite. *)
Definition footprint_col (x px : Z) : Z := (px - x) mod WIDTH.
Definition footprint_row (y py : Z) : Z := (py - y) mod HEIGHT.

Definition in_footprint (x y n px py : Z) : bool :=
  (footprint_col x px <? 8) && (footprint_row y py <? n).

(** Some [k] in [j, j + n) satisfies [f]. *)
Fixpoint any_from (n : nat) (j : Z) (f : Z -> bool) : bool :=
  match n with
  | O => false
  | S n' => f j || any_from n' (j + 1) f
  end.

(** The pixel under sprite position ([row], [col]) is on in [c] and the
    sprite bit there is set, so that drawing turns it off. *)
Definition turns_off (c : Chip8) (x y row col : Z) : bool :=
  let old_pixel := pixel c ((col + x) mod WIDTH) ((row + y) mod HEIGHT) in
  (old_pixel =? 1) && (Z.lxor (sprite_bit c row col) old_pixel =? 0).

(** The same for column [col] of row [i] when the row's byte is [b]. *)
Definition row_turns_off (x y i b : Z) (c : Chip8) (col : Z) : bool :=
  let old_pixel := pixel c ((col + x) mod WIDTH) ((i + y) mod HEIGHT) in
  (old_pixel =? 1) && (Z.lxor (Z.b2z (Z.testbit b (7 - col))) old_pixel =? 0).

Definition collision (c : Chip8) (x y n : Z) : bool :=
  any_from (Z.to_nat n) 0 (fun row => any_from 8 0 (turns_off c x y row)).

(** One pass of the body of the inner loop of DXYN on pixel ([px], [py])
    with sprite bit [bit]. *)
Definition plot (px py bit : Z) (c : Chip8) : Chip8 :=
  let old_pixel := pixel c px py in
  let display_pixel := Z.lxor bit old_pixel in
  let c1 := set_pixel px py display_pixel c in
  if (old_pixel =? 1) && (display_pixel =? 0) then set_reg 0x0F 1 c1 else c1.

(** Everything but the framebuffer and the register file is the same. *)
Definition same_rest (c c' : Chip8) : Prop :=
  mem c' = mem c /\ keys c' = keys c /\ stack c' = stack c /\ sp c' = sp c /\
  pc c' = pc c /\ i_addr_reg c' = i_addr_reg c /\
  delay_timer c' = delay_timer c /\ sound_timer c' = sound_timer c /\
  program_size c' = program_size c /\ cycle_count c' = cycle_count c.

(** The pixel ([px], [py]) is on in [c] and off in [c']. *)
Definition turned_off (c c' : Chip8) (px py : Z) : Prop :=
  pixel c px py <> 0 /\ pixel c' px py = 0.

(** ** The driver's input handling *)

(** [std::map<u16, u8> key_map]: SDL scancodes to the 16 keys. *)
Definition key_map : list (Z * Z) :=
  [ (0x027, 0); (0x062, 0);
    (0x01E, 1); (0x059, 1);
    (0x01F, 2); (0x05A, 2); (0x051, 2);
    (0x020, 3); (0x05B, 3);
    (0x021, 4); (0x05C, 4); (0x050, 4);
    (0x022, 5); (0x05D, 5);
    (0x023, 6); (0x05E, 6); (0x04F, 6);
    (0x024, 7); (0x05F, 7);
    (0x025, 8); (0x060, 8); (0x052, 8);
    (0x026, 9); (0x061, 9);
    (0x004, 10);
    (0x005, 11);
    (0x006, 12);
    (0x007, 13);
    (0x008, 14);
    (0x009, 15) ].

(** [key_map.find(scancode)], [None] for [key_map.cend()]. *)
Fixpoint key_map_find (m : list (Z * Z)) (scancode : Z) : option Z :=
  match m with
  | [] => None
  | (k, v) :: rest => if k =? scancode then Some v else key_map_find rest scancode
  end.

(** The events [SDL_PollEvent] hands to [main], by [event.type]; the key
    events carry [event.key.keysym.scancode]. *)
Inductive event : Type :=
| SDL_KEYDOWN (scancode : Z)
| SDL_KEYUP (scancode : Z)
| SDL_QUIT
| SDL_OTHER.

(** [c8.keys[it->second] = value] when the scancode, converted to the
    [u16] key type of the map, is found. *)
Definition key_event (value scancode : Z) (c : Chip8) : outcome Chip8 :=
  match key_map_find key_map (u16 scancode) with
  | Some k =>
      ks <- arr_write NUM_KEYS (keys c) k value ;;
      Done (set_keys ks c)
  | None => Done c
  end.

(** The body of [while (SDL_PollEvent(&event))]: the machine and the new
    value of [quit]. *)
Definition handle_event (e : event) (c : Chip8) : outcome (Chip8 * bool) :=
  c1 <- match e with
        | SDL_KEYDOWN scancode => key_event 1 scancode c
        | SDL_KEYUP scancode => key_event 0 scancode c
        | _ => Done c
        end ;;
  Done (c1, match e with SDL_QUIT => true | _ => false end).

(** [while (SDL_PollEvent(&event)) ...] over the events that are queued. *)
Fixpoint poll_events (events : list event) (c : Chip8) (quit : bool)
  : outcome (Chip8 * bool) :=
  match events with
  | [] => Done (c, quit)
  | e :: rest =>
      r <- handle_event e c ;;
      poll_events rest (fst r) (snd r)
  end.

(** [n] calls of [update_timers]. *)
Fixpoint tick (n : nat) (c : Chip8) : Chip8 :=
  match n with
  | O => c
  | S n' => tick n' (update_timers c)
  end.

(** [n] calls of [execute_cycle] with the values [rand()] returns, one for
    each call. *)
Fixpoint run_with (dbg : bool) (rnds : list Z) (c : Chip8) : outcome Chip8 :=
  match rnds with
  | [] => Done c
  | rnd :: rest =>
      r <- execute_cycle dbg rnd c ;;
      run_with dbg rest (fst r)
  end.

(** ** Machines as the types of [struct Chip8] allow them *)

Definition is_u16 (z : Z) : Prop := 0 <= z < 65536.
Definition is_u64 (z : Z) : Prop := 0 <= z < 18446744073709551616.

(** Every array has its declared size and every field fits its type. *)
Record wf (c : Chip8) : Prop := mkWf {
  wf_mem_len : length (mem c) = 4096%nat;
  wf_mem : Forall is_u8 (mem c);
  wf_pixels_len : length (pixels c) = 2048%nat;
  wf_pixels : Forall is_u8 (pixels c);
  wf_v_reg_len : length (v_reg c) = 16%nat;
  wf_v_reg : Forall is_u8 (v_reg c);
  wf_keys_len : length (keys c) = 16%nat;
  wf_keys : Forall is_u8 (keys c);
  wf_stack_len : length (stack c) = 16%nat;
  wf_stack : Forall is_u16 (stack c);
  wf_delay_timer : is_u8 (delay_timer c);
  wf_sound_timer : is_u8 (sound_timer c);
  wf_sp : is_u8 (sp c);
  wf_pc : is_u16 (pc c);
  wf_i_addr_reg : is_u16 (i_addr_reg c);
  wf_program_size : is_u16 (program_size c);
  wf_cycle_count : is_u64 (cycle_count c)
}.

(** The same as a test. *)
Definition below (bound z : Z) : bool := (0 <=? z) && (z <? bound).

Definition wfb (c : Chip8) : bool :=
  Nat.eqb (length (mem c)) 4096 && forallb (below 256) (mem c) &&
  Nat.eqb (length (pixels c)) 2048 && forallb (below 256) (pixels c) &&
  Nat.eqb (length (v_reg c)) 16 && forallb (below 256) (v_reg c) &&
  Nat.eqb (length (keys c)) 16 && forallb (below 256) (keys c) &&
  Nat.eqb (length (stack c)) 16 && forallb (below 65536) (stack c) &&
  below 256 (delay_timer c) && below 256 (sound_timer c) &&
  below 256 (sp c) && below 65536 (pc c) && below 65536 (i_addr_reg c) &&
  below 65536 (program_size c) && below 18446744073709551616 (cycle_count c).
(** Projections of updated machines. *)
Ltac fields :=
  cbn [mem pixels v_reg delay_timer sound_timer keys sp stack pc i_addr_reg
       program_size cycle_count
       set_mem set_pixels set_v_reg set_delay_timer set_sound_timer set_keys
       set_sp set_stack set_pc set_i_addr_reg set_program_size set_cycle_count
       set_reg set_pixel advance_pc fst snd] in *.

(** ** Array lemmas *)

Lemma arr_get_set_eq (l : list Z) (i v : Z) :
  (Z.to_nat i < length l)%nat -> arr_get (arr_set l i v) i = v.
Proof.
  intros Hi. unfold arr_get, arr_set.
  by rewrite list_lookup_total_insert_eq.
Qed.

Lemma arr_get_set_ne (l : list Z) (i j v : Z) :
  0 <= i -> 0 <= j -> i <> j -> arr_get (arr_set l i v) j = arr_get l j.
Proof.
  intros Hi Hj Hne. unfold arr_get, arr_set.
  rewrite list_lookup_total_insert_ne; [done | lia].
Qed.

Lemma arr_set_length (l : list Z) (i v : Z) : length (arr_set l i v) = length l.
Proof. apply length_insert. Qed.

Lemma arr_read_in (size : Z) (l : list Z) (i : Z) :
  0 <= i < size -> arr_read size l i = Done (arr_get l i).
Proof.
  intros [Hlo Hhi]. unfold arr_read.
  destruct (Z.leb_spec 0 i), (Z.ltb_spec i size); simpl; try lia. done.
Qed.

Lemma arr_read_out (size : Z) (l : list Z) (i : Z) :
  size <= i -> arr_read size l i = Undefined.
Proof.
  intros Hhi. unfold arr_read.
  destruct (Z.ltb_spec i size); [lia | by rewrite andb_false_r].
Qed.

Lemma arr_write_in (size : Z) (l : list Z) (i v : Z) :
  0 <= i < size -> arr_write size l i v = Done (arr_set l i v).
Proof.
  intros [Hlo Hhi]. unfold arr_write.
  destruct (Z.leb_spec 0 i), (Z.ltb_spec i size); simpl; try lia. done.
Qed.

Lemma arr_write_out (size : Z) (l : list Z) (i v : Z) :
  size <= i -> arr_write size l i v = Undefined.
Proof.
  intros Hhi. unfold arr_write.
  destruct (Z.ltb_spec i size); [lia | by rewrite andb_false_r].
Qed.

Lemma fetch_Done (c : Chip8) (opcode1 opcode2 : Z) :
  fetch c = Done (opcode1, opcode2) ->
  0 <= pc c /\ pc c + 1 < MEM_SIZE /\
  opcode1 = arr_get (mem c) (pc c) /\ opcode2 = arr_get (mem c) (pc c + 1).
Proof.
  unfold fetch, arr_read, MEM_SIZE.
  destruct (Z.leb_spec 0 (pc c)), (Z.ltb_spec (pc c) 4096); simpl; try done.
  destruct (Z.leb_spec 0 (pc c + 1)), (Z.ltb_spec (pc c + 1) 4096); simpl; try done.
  intros [= <- <-]. repeat split; lia.
Qed.

Lemma u16_small (z : Z) : 0 <= z < 65536 -> u16 z = z.
Proof. intros H. unfold u16. by apply Z.mod_small. Qed.

Lemma u8_small (z : Z) : 0 <= z < 256 -> u8 z = z.
Proof. intros H. unfold u8. by apply Z.mod_small. Qed.

(** ** The loader: what a read changes and what it keeps *)

Lemma memcpy_length (dst src : list Z) (off : Z) :
  (Z.to_nat off + length src <= length dst)%nat ->
  length (memcpy dst off src) = length dst.
Proof.
  intros H. unfold memcpy.
  rewrite !length_app, length_take, length_drop. lia.
Qed.

Lemma memcpy_inside (dst src : list Z) (off k : Z) :
  0 <= off -> (Z.to_nat off <= length dst)%nat ->
  0 <= k < Z.of_nat (length src) ->
  arr_get (memcpy dst off src) (off + k) = arr_get src k.
Proof.
  intros Hoff Hlen Hk. unfold memcpy, arr_get.
  rewrite !list_lookup_total_alt.
  rewrite lookup_app_r; rewrite length_take; [| lia].
  rewrite lookup_app_l; [| lia].
  do 2 f_equal. lia.
Qed.

Lemma memcpy_below (dst src : list Z) (off k : Z) :
  0 <= k < off -> (Z.to_nat off <= length dst)%nat ->
  arr_get (memcpy dst off src) k = arr_get dst k.
Proof.
  intros Hk Hlen. unfold memcpy, arr_get.
  rewrite !list_lookup_total_alt.
  rewrite lookup_app_l; [| rewrite length_take; lia].
  rewrite lookup_take_lt; [done | lia].
Qed.

Lemma read_program_unopened (c : Chip8) :
  read_program_to_mem None c = Done (c, false).
Proof. reflexivity. Qed.

Lemma read_program_result (bytes : list Z) (c : Chip8) :
  let n := u16 (Z.of_nat (length bytes)) in
  read_program_to_mem (Some bytes) c =
  if n <=? MEM_SIZE - 0x200
  then Done (set_mem (memcpy (memcpy (mem c) 0 fonts) 0x200
                        (take (Z.to_nat n) bytes))
               (set_pc 0x200 (set_program_size n c)), true)
  else Undefined.
Proof.
  intros n. unfold read_program_to_mem. simpl. fold n.
  assert (Hn : 0 <= n <= Z.of_nat (length bytes)).
  { unfold n, u16.
    pose proof (Z.mod_pos_bound (Z.of_nat (length bytes)) 65536 eq_refl).
    pose proof (Z.mod_le (Z.of_nat (length bytes)) 65536). lia. }
  rewrite length_take. replace (Z.of_nat (Z.to_nat n `min` length bytes)) with n by lia.
  unfold MEM_SIZE.
  destruct (Z.leb_spec (512 + n) 4096), (Z.leb_spec n (4096 - 512)); try lia; done.
Qed.




(** C8, as the claim states it, fails: a machine that has executed one
    instruction has cycle count 1, and a successful read into it leaves the
    cycle count at 1. *)
Lemma load_keeps_cycle_count :
  exists c1 c2,
    run false 1 (loaded [0x00; 0xE0]) = Done c1 /\
    read_program_to_mem (Some [0x00; 0xE0]) c1 = Done (c2, true) /\
    cycle_count c1 = 1 /\ cycle_count c2 = 1 /\ cycle_count c2 <> 0.
Proof.
  do 2 eexists. split; [vm_compute; reflexivity |].
  split; [vm_compute; reflexivity |]. by vm_compute.
Qed.

(** C8, amended: a read of an image of at most 4096 - 0x200 bytes returns
    [true], puts the font table at 0..79 and the image at 0x200, sets
    PC = 0x200 and records the size; the cycle count is kept as it was (it is
    0 in a freshly constructed machine), and so are the registers, I, the
    timers, the stack and its pointer, the framebuffer and the keys. *)
Theorem load_effect (bytes : list Z) (c : Chip8) :
  length (mem c) = 4096%nat ->
  Z.of_nat (length bytes) <= 4096 - 0x200 ->
  exists c',
    read_program_to_mem (Some bytes) c = Done (c', true) /\
    (forall k, 0 <= k < Z.of_nat (length bytes) ->
               arr_get (mem c') (0x200 + k) = arr_get bytes k) /\
    (forall k, 0 <= k < 80 -> arr_get (mem c') k = arr_get fonts k) /\
    length (mem c') = 4096%nat /\
    pc c' = 0x200 /\
    program_size c' = Z.of_nat (length bytes) /\
    cycle_count c' = cycle_count c /\
    v_reg c' = v_reg c /\ i_addr_reg c' = i_addr_reg c /\
    delay_timer c' = delay_timer c /\ sound_timer c' = sound_timer c /\
    stack c' = stack c /\ sp c' = sp c /\
    pixels c' = pixels c /\ keys c' = keys c.
Proof.
  intros Hmem Hlen.
  rewrite read_program_result.
  rewrite (u16_small (Z.of_nat (length bytes))) by lia.
  unfold MEM_SIZE.
  destruct (Z.leb_spec (Z.of_nat (length bytes)) (4096 - 512)); [| lia].
  rewrite Nat2Z.id, firstn_all.
  assert (Hfonts : length fonts = 80%nat) by reflexivity.
  assert (Hm1 : length (memcpy (mem c) 0 fonts) = 4096%nat).
  { rewrite memcpy_length; [done | rewrite Hfonts, Hmem; simpl; lia]. }
  eexists. split; [reflexivity |]. fields.
  repeat split; try reflexivity.
  - intros k Hk. apply memcpy_inside; [lia | rewrite Hm1; lia | lia].
  - intros k Hk. rewrite memcpy_below; [| lia | rewrite Hm1; lia].
    apply (memcpy_inside (mem c) fonts 0 k); [lia | simpl; lia | rewrite Hfonts; lia].
  - rewrite memcpy_length; [done | rewrite Hm1; lia].
Qed.

Lemma load_effect_witness :
  exists c',
    read_program_to_mem (Some [0x12; 0x00]) (set_cycle_count 9 fresh) = Done (c', true) /\
    pc c' = 0x200 /\ program_size c' = 2 /\ cycle_count c' = 9.
Proof.
  destruct (load_effect [0x12; 0x00] (set_cycle_count 9 fresh))
    as (c' & Hr & _ & _ & _ & Hpc & Hsz & Hcc & _).
  - reflexivity.
  - simpl. lia.
  - exists c'. repeat split; assumption.
Defined.

(** ** Control flow: jumps, calls, unmatched opcodes *)

Lemma execute_cycle_fetched (dbg : bool) (rnd : Z) (c : Chip8) (opcode1 opcode2 : Z) :
  fetch c = Done (opcode1, opcode2) ->
  execute_cycle dbg rnd c =
  (c1 <- decode_instruction dbg rnd opcode1 opcode2 c ;; Done (counted c1)).
Proof. intros H. unfold execute_cycle. rewrite H. reflexivity. Qed.

Lemma decode_bnnn (dbg : bool) (rnd : Z) (c : Chip8) (opcode1 opcode2 : Z) :
  Z.shiftr opcode1 4 = 0x0B ->
  decode_instruction dbg rnd opcode1 opcode2 c =
  Done (set_pc (u16 (u16 (reg c 0 + nnn opcode1 opcode2) + 2)) c).
Proof. intros H. unfold decode_instruction. rewrite H. reflexivity. Qed.

(** C3: the claim is right about BNNN and the code is not.  With V0 = 0 and
    the image B3 00 at 0x200, one [execute_cycle] leaves PC = 0x302, which
    is V0 + NNN + 2; the sibling jump 1NNN in the same switch sets PC = NNN
    with no increment. *)
Theorem bnnn_failing_input :
  exists c',
    execute_cycle false 0 (loaded [0xB3; 0x00]) = Done (c', 1) /\
    reg (loaded [0xB3; 0x00]) 0 = 0 /\ nnn 0xB3 0x00 = 0x300 /\
    pc c' = 0x302 /\
    pc c' <> reg (loaded [0xB3; 0x00]) 0 + nnn 0xB3 0x00.
Proof.
  eexists. split; [vm_compute; reflexivity |].
  repeat split; by vm_compute.
Qed.

(** C9, as the claim states it, fails: from one and the same machine state
    the instruction C0FF gives different registers when [rand()] returns
    different values. *)
Lemma cxnn_depends_on_rand :
  execute_cycle false 0 (loaded [0xC0; 0xFF]) <>
  execute_cycle false 1 (loaded [0xC0; 0xFF]).
Proof.
  intros H.
  assert (H0 : (c <- execute_cycle false 0 (loaded [0xC0; 0xFF]) ;; Done (reg (fst c) 0))
               = (c <- execute_cycle false 1 (loaded [0xC0; 0xFF]) ;; Done (reg (fst c) 0)))
    by (by rewrite H).
  vm_compute in H0. discriminate.
Qed.

(** Where determinism ends: a step that indexes outside an array.  A
    return on a freshly loaded machine reads [stack[255]]; what the C++
    program finds there is not part of the machine, and the embedding gives
    [Undefined] with no resulting state. *)
Lemma return_on_fresh_machine_undefined :
  fetch (loaded [0x00; 0xEE]) = Done (0x00, 0xEE) /\
  execute_cycle false 0 (loaded [0x00; 0xEE]) = Undefined.
Proof. split; by vm_compute. Qed.

(** C9, amended: a step is a function of the machine state and of the value
    [rand()] returns, which is not part of the machine.  Whenever the opcode
    at PC is not CXNN and the step stays inside the bounds of every array it
    indexes (its outcome is not [Undefined]: it returns, or stops on
    [assert(0)] in a DEBUG_MODE build), a second execution from the same
    machine state stays inside the bounds too and gives the same resulting
    state and the same returned value, whatever [rand()] returns.  Nothing
    is stated for a step that indexes outside an array. *)
Theorem step_deterministic_except_cxnn (dbg : bool) (rnd1 rnd2 : Z) (c : Chip8) :
  Z.shiftr (arr_get (mem c) (pc c)) 4 <> 0x0C ->
  execute_cycle dbg rnd1 c <> Undefined ->
  execute_cycle dbg rnd2 c <> Undefined /\
  execute_cycle dbg rnd2 c = execute_cycle dbg rnd1 c.
Proof.
  intros Hop Hdef.
  assert (Heq : execute_cycle dbg rnd2 c = execute_cycle dbg rnd1 c);
    [| by rewrite Heq].
  clear Hdef. unfold execute_cycle.
  destruct (fetch c) as [[opcode1 opcode2]| |] eqn:Hf; try reflexivity.
  apply fetch_Done in Hf as (_ & _ & -> & _). cbn [fst snd obind].
  assert (Hd : decode_instruction dbg rnd2 (arr_get (mem c) (pc c)) opcode2 c =
               decode_instruction dbg rnd1 (arr_get (mem c) (pc c)) opcode2 c);
    [| by rewrite Hd].
  unfold decode_instruction.
  destruct (Z.shiftr (arr_get (mem c) (pc c)) 4) as [|p|p]; try reflexivity.
  repeat (destruct p as [p|p|]; try reflexivity).
  by destruct Hop.
Qed.

Lemma step_deterministic_except_cxnn_witness :
  execute_cycle false 1 (loaded [0x60; 0x05]) <> Undefined /\
  execute_cycle false 1 (loaded [0x60; 0x05]) =
  execute_cycle false 0 (loaded [0x60; 0x05]).
Proof.
  apply (step_deterministic_except_cxnn false 0 1 (loaded [0x60; 0x05])).
  - vm_compute. discriminate.
  - vm_compute. discriminate.
Defined.

Lemma decode_call (dbg : bool) (rnd : Z) (c : Chip8) (opcode1 opcode2 : Z) :
  Z.shiftr opcode1 4 = 0x02 ->
  0 <= sp c < STACK_SIZE ->
  decode_instruction dbg rnd opcode1 opcode2 c =
  Done (set_pc (nnn opcode1 opcode2)
          (set_sp (sp c + 1)
             (set_stack (arr_set (stack c) (sp c) (u16 (pc c + 2))) c))).
Proof.
  intros Hop Hsp. unfold decode_instruction. rewrite Hop.
  rewrite arr_write_in by done. cbn [obind].
  rewrite u8_small; [done | unfold STACK_SIZE in Hsp; lia].
Qed.

Lemma decode_call_full (dbg : bool) (rnd : Z) (c : Chip8) (opcode1 opcode2 : Z) :
  Z.shiftr opcode1 4 = 0x02 ->
  STACK_SIZE <= sp c ->
  decode_instruction dbg rnd opcode1 opcode2 c = Undefined.
Proof.
  intros Hop Hsp. unfold decode_instruction. rewrite Hop.
  by rewrite arr_write_out.
Qed.

Lemma calls_within_stack (dbg : bool) (rnd : Z) (ops : list (Z * Z)) :
  Forall is_call ops ->
  forall c, 0 <= sp c -> sp c + Z.of_nat (length ops) <= STACK_SIZE ->
  exists c', exec_seq dbg rnd ops c = Done c' /\
             sp c' = sp c + Z.of_nat (length ops).
Proof.
  induction 1 as [|op ops Hop Hops IH]; intros c Hlo Hhi.
  - exists c. split; [reflexivity | simpl; lia].
  - simpl in Hhi. cbn [exec_seq].
    rewrite decode_call by (done || lia). cbn [obind].
    edestruct IH as (c' & Hrun & Hsp); [| | exists c'; split; [exact Hrun |]].
    + fields. lia.
    + fields. lia.
    + rewrite Hsp. fields. simpl length. lia.
Qed.

Lemma calls_beyond_stack (dbg : bool) (rnd : Z) (ops : list (Z * Z)) :
  Forall is_call ops ->
  forall c, 0 <= sp c <= STACK_SIZE -> STACK_SIZE < sp c + Z.of_nat (length ops) ->
  exec_seq dbg rnd ops c = Undefined.
Proof.
  induction 1 as [|op ops Hop Hops IH]; intros c Hsp Hlen.
  - simpl in Hlen. lia.
  - cbn [exec_seq].
    destruct (Z.eq_dec (sp c) STACK_SIZE) as [Hfull|Hroom].
    + rewrite decode_call_full by (done || lia). reflexivity.
    + rewrite decode_call by (done || lia). cbn [obind].
      apply IH; fields; simpl length in Hlen; lia.
Qed.

(** C4, as the claim states it, fails: after 16 calls from a freshly loaded
    machine whose image is the call 2200, the stack pointer is 16 and the
    17th [execute_cycle] is the write to [stack[16]], outside the array; no
    error value comes back. *)
Lemma seventeenth_call_out_of_bounds :
  exists c16,
    run false 16 (loaded [0x22; 0x00]) = Done c16 /\
    sp c16 = 16 /\
    fetch c16 = Done (0x22, 0x00) /\
    execute_cycle false 0 c16 = Undefined /\
    run false 17 (loaded [0x22; 0x00]) = Undefined.
Proof.
  eexists. split; [vm_compute; reflexivity |].
  repeat split; by vm_compute.
Qed.

(** C4, amended: starting from a fresh machine, up to 16 consecutive 2NNN
    calls with no return in between all succeed and leave the stack pointer
    at the number of calls made; the code has no check of the stack depth
    and no error value: the 17th call indexes [stack[16]], outside the
    16-entry array. *)
Theorem call_stack_unchecked (dbg : bool) (rnd : Z) (ops : list (Z * Z)) :
  Forall is_call ops ->
  (Z.of_nat (length ops) <= 16 ->
   exists c', exec_seq dbg rnd ops fresh = Done c' /\
              sp c' = Z.of_nat (length ops)) /\
  (length ops = 17%nat -> exec_seq dbg rnd ops fresh = Undefined).
Proof.
  intros Hops. split.
  - intros Hlen.
    destruct (calls_within_stack dbg rnd ops Hops fresh) as (c' & Hrun & Hsp).
    + simpl. lia.
    + unfold STACK_SIZE. simpl. lia.
    + exists c'. split; [exact Hrun | rewrite Hsp; simpl; lia].
  - intros Hlen. apply calls_beyond_stack; [exact Hops | |].
    + unfold STACK_SIZE. simpl. lia.
    + unfold STACK_SIZE. rewrite Hlen. simpl. lia.
Qed.

Lemma call_stack_unchecked_witness :
  exec_seq false 0 (replicate 17 (0x22, 0x00)) fresh = Undefined.
Proof.
  apply (call_stack_unchecked false 0 (replicate 17 (0x22, 0x00))).
  - repeat constructor.
  - reflexivity.
Defined.

(** ** Opcodes that match no documented pattern *)

Lemma decode_arith_unmatched (dbg : bool) (opcode1 opcode2 : Z) (c : Chip8) :
  match Z.land opcode2 0x0F with
  | 0x0 | 0x1 | 0x2 | 0x3 | 0x4 | 0x5 | 0x6 | 0x7 | 0xE => true
  | _ => false
  end = false ->
  decode_arith dbg opcode1 opcode2 c = NOT_REACHED dbg c.
Proof.
  unfold decode_arith.
  destruct (Z.land opcode2 15) as [|p|p]; try (intros; (discriminate || reflexivity)).
  repeat (destruct p as [p|p|]; try (intros; (discriminate || reflexivity))).
Qed.

Lemma decode_key_unmatched (dbg : bool) (opcode1 opcode2 : Z) (c : Chip8) :
  (opcode2 =? 0x9E) || (opcode2 =? 0xA1) = false ->
  decode_key dbg opcode1 opcode2 c = NOT_REACHED dbg c.
Proof.
  unfold decode_key.
  destruct opcode2 as [|p|p]; try (intros; (discriminate || reflexivity)).
  repeat (destruct p as [p|p|]; try (intros; (discriminate || reflexivity))).
Qed.

Lemma decode_misc_unmatched (dbg : bool) (opcode1 opcode2 : Z) (c : Chip8) :
  existsb (Z.eqb opcode2)
          [0x07; 0x0A; 0x15; 0x18; 0x1E; 0x29; 0x33; 0x55; 0x65] = false ->
  decode_misc dbg opcode1 opcode2 c = NOT_REACHED dbg c.
Proof.
  unfold decode_misc.
  destruct opcode2 as [|p|p]; try (intros; (discriminate || reflexivity)).
  repeat (destruct p as [p|p|]; try (intros; (discriminate || reflexivity))).
Qed.

Lemma high_nibble_range (opcode1 : Z) :
  is_u8 opcode1 -> 0 <= Z.shiftr opcode1 4 < 16.
Proof.
  unfold is_u8. intros H. rewrite Z.shiftr_div_pow2 by lia.
  change (2 ^ 4) with 16. split.
  - apply Z.div_pos; lia.
  - apply Z.div_lt_upper_bound; lia.
Qed.

Lemma decode_undocumented (dbg : bool) (rnd : Z) (opcode1 opcode2 : Z) (c : Chip8) :
  is_u8 opcode1 ->
  documented_pattern opcode1 opcode2 = false ->
  decode_instruction dbg rnd opcode1 opcode2 c =
  if Z.shiftr opcode1 4 =? 0x5
  then Done (skip_if (reg c (Z.land opcode1 0x0F) =? reg c (Z.shiftr opcode2 4)) c)
  else if Z.shiftr opcode1 4 =? 0x9
  then Done (skip_if (negb (reg c (Z.land opcode1 0x0F) =? reg c (Z.shiftr opcode2 4))) c)
  else NOT_REACHED dbg c.
Proof.
  intros Hop. apply high_nibble_range in Hop.
  unfold documented_pattern, decode_instruction.
  destruct (Z.shiftr opcode1 4) as [|p|p]; [| | lia].
  - intros Hdoc. cbn [Z.eqb].
    destruct (opcode1 =? 0); [| reflexivity]. cbn [andb] in *.
    destruct (opcode2 =? 224); [discriminate |].
    destruct (opcode2 =? 238); [discriminate | reflexivity].
  - repeat (destruct p as [p|p|]; try (intros; (discriminate || reflexivity || lia))).
    + apply decode_misc_unmatched.
    + apply decode_key_unmatched.
    + apply decode_arith_unmatched.
Qed.

(** C1, as the claim states it, fails: 0x5001 matches no documented
    pattern, and executing it from a freshly loaded machine returns
    normally, as the skip 5XY0 would. *)
Lemma opcode_5001_executes :
  documented_pattern 0x50 0x01 = false /\
  exists c',
    execute_cycle false 0 (loaded [0x50; 0x01]) = Done (c', 1) /\
    pc c' = 0x204.
Proof.
  split; [reflexivity |].
  eexists. split; [vm_compute; reflexivity | reflexivity].
Qed.

(** C1, amended: for every opcode that matches no documented pattern, one
    step never yields an error value.  5XYN and 9XYN with N nonzero execute
    as 5XY0 and 9XY0.  Every other such opcode, in a build without
    DEBUG_MODE, leaves the whole machine as it was apart from the cycle
    count, which is incremented and returned; in a DEBUG_MODE build it stops
    on [assert(0)]. *)
Theorem unknown_opcode_step (dbg : bool) (rnd : Z) (c : Chip8) (opcode1 opcode2 : Z) :
  fetch c = Done (opcode1, opcode2) ->
  is_u8 opcode1 ->
  documented_pattern opcode1 opcode2 = false ->
  let x := Z.land opcode1 0x0F in
  let y := Z.shiftr opcode2 4 in
  execute_cycle dbg rnd c =
  if Z.shiftr opcode1 4 =? 0x5
  then Done (counted (set_pc (pc c + (if reg c x =? reg c y then 4 else 2)) c))
  else if Z.shiftr opcode1 4 =? 0x9
  then Done (counted (set_pc (pc c + (if reg c x =? reg c y then 2 else 4)) c))
  else if dbg then Aborted else Done (counted c).
Proof.
  intros Hf Hop Hdoc x y.
  rewrite (execute_cycle_fetched _ _ _ _ _ Hf).
  rewrite decode_undocumented by assumption.
  apply fetch_Done in Hf as (Hlo & Hhi & _). unfold MEM_SIZE in Hhi.
  fold x y.
  assert (Hskip : forall b, skip_if b c = set_pc (pc c + (if b then 4 else 2)) c).
  { intros [|]; unfold skip_if, advance_pc, set_pc; fields.
    - rewrite (u16_small (pc c + 2)) by lia.
      rewrite u16_small by lia. f_equal. lia.
    - rewrite u16_small by lia. reflexivity. }
  destruct (Z.shiftr opcode1 4 =? 5).
  - cbn [obind]. by rewrite Hskip.
  - destruct (Z.shiftr opcode1 4 =? 9).
    + cbn [obind]. rewrite Hskip. by destruct (reg c x =? reg c y).
    + unfold NOT_REACHED. by destruct dbg.
Qed.

Lemma unknown_opcode_step_witness :
  execute_cycle false 0 (loaded [0x80; 0x08]) = Done (counted (loaded [0x80; 0x08])).
Proof.
  apply (unknown_opcode_step false 0 (loaded [0x80; 0x08]) 0x80 0x08).
  - by vm_compute.
  - unfold is_u8. lia.
  - reflexivity.
Defined.

(** ** FX0A: polling the key buffer *)

Lemma wait_key_none (x : Z) (c : Chip8) (n : nat) :
  forall i,
    (forall k, i <= k < i + Z.of_nat n -> arr_get (keys c) k = 0) ->
    wait_key n i x c = c.
Proof.
  induction n as [|n IH]; intros i Hup; [reflexivity |].
  cbn [wait_key]. rewrite Hup by lia. cbn [Z.eqb negb].
  apply IH. intros k Hk. apply Hup. lia.
Qed.

Lemma wait_key_some (x : Z) (c : Chip8) (n : nat) :
  forall i,
    (exists k, i <= k < i + Z.of_nat n /\ arr_get (keys c) k <> 0) ->
    wait_key n i x c = advance_pc (set_reg x 1 c).
Proof.
  induction n as [|n IH]; intros i (k & Hk & Hdown); [simpl in Hk; lia |].
  cbn [wait_key].
  destruct (Z.eqb_spec (arr_get (keys c) i) 0) as [Hi|Hi]; [| reflexivity].
  cbn [negb]. apply IH. exists k. split; [| exact Hdown].
  assert (k <> i) by congruence. lia.
Qed.

Lemma decode_fx0a (dbg : bool) (rnd : Z) (c : Chip8) (opcode1 : Z) :
  Z.shiftr opcode1 4 = 0x0F ->
  decode_instruction dbg rnd opcode1 0x0A c =
  Done (wait_key 16 0 (Z.land opcode1 0x0F) c).
Proof. intros Hop. unfold decode_instruction. rewrite Hop. reflexivity. Qed.

(** C5: FX0A does not block.  With no key of the 16-entry buffer down,
    executing it leaves the machine exactly as it was, PC included, so the
    next step polls the same instruction again ([execute_cycle] counts the
    step, as it does every step); with some key down, Vx becomes the
    literal 1, whichever key it is, PC advances by 2 and nothing else
    changes. *)
Theorem fx0a_polls (dbg : bool) (rnd : Z) (c : Chip8) (opcode1 : Z) :
  fetch c = Done (opcode1, 0x0A) ->
  Z.shiftr opcode1 4 = 0x0F ->
  length (v_reg c) = 16%nat ->
  let x := Z.land opcode1 0x0F in
  ((forall k, 0 <= k < 16 -> arr_get (keys c) k = 0) ->
   decode_instruction dbg rnd opcode1 0x0A c = Done c /\
   execute_cycle dbg rnd c = Done (counted c) /\
   fetch (fst (counted c)) = Done (opcode1, 0x0A)) /\
  ((exists k, 0 <= k < 16 /\ arr_get (keys c) k <> 0) ->
   let c' := set_pc (pc c + 2) (set_reg x 1 c) in
   decode_instruction dbg rnd opcode1 0x0A c = Done c' /\
   execute_cycle dbg rnd c = Done (counted c') /\
   reg c' x = 1 /\ pc c' = pc c + 2 /\
   (forall r, 0 <= r < 16 -> r <> x -> reg c' r = reg c r)).
Proof.
  intros Hf Hop Hlen x.
  rewrite (execute_cycle_fetched _ _ _ _ _ Hf), decode_fx0a by exact Hop.
  fold x. split.
  - intros Hup. rewrite wait_key_none by (intros; apply Hup; lia).
    repeat split. exact Hf.
  - intros Hdown c'. rewrite wait_key_some by (simpl; exact Hdown).
    apply fetch_Done in Hf as (Hlo & Hhi & _). unfold MEM_SIZE in Hhi.
    assert (Hx : 0 <= x < 16).
    { unfold x. change 15 with (Z.ones 4). rewrite Z.land_ones by lia.
      apply Z.mod_pos_bound. lia. }
    assert (Hc' : advance_pc (set_reg x 1 c) = c').
    { unfold c', advance_pc. fields. by rewrite u16_small by lia. }
    rewrite Hc'. repeat split.
    + unfold c', reg. fields. apply arr_get_set_eq. lia.
    + intros r Hr Hne. unfold c', reg. fields.
      apply arr_get_set_ne; lia.
Qed.

Lemma fx0a_polls_witness :
  execute_cycle false 0 (loaded [0xF3; 0x0A]) = Done (counted (loaded [0xF3; 0x0A])).
Proof.
  apply (fx0a_polls false 0 (loaded [0xF3; 0x0A]) 0xF3); try reflexivity.
  intros k Hk.
  assert (Hcases : k = 0 \/ k = 1 \/ k = 2 \/ k = 3 \/ k = 4 \/ k = 5 \/ k = 6 \/ k = 7 \/
          k = 8 \/ k = 9 \/ k = 10 \/ k = 11 \/ k = 12 \/ k = 13 \/ k = 14 \/ k = 15) by lia.
  repeat (destruct Hcases as [->|Hcases]; [reflexivity |]).
  subst k. reflexivity.
Defined.

(** ** DXYN: the sprite draw *)

(** *** Sprite bits as the shift register of the inner loop sees them *)

Lemma shiftr7_bit (a : Z) : is_u8 a -> Z.shiftr a 7 = Z.b2z (Z.testbit a 7).
Proof.
  unfold is_u8. intros Ha.
  apply Z.bits_inj'. intros k Hk.
  rewrite Z.shiftr_spec by lia.
  destruct (Z.eq_dec k 0) as [->|Hne].
  - change (0 + 7) with 7. destruct (Z.testbit a 7); reflexivity.
  - rewrite (Z.bits_above_log2 a (k + 7)).
    + destruct (Z.testbit a 7); cbn [Z.b2z]; [| by rewrite Z.testbit_0_l].
      change 1 with (Z.ones 1). rewrite Z.ones_spec_high; [done | lia].
    + lia.
    + destruct (Z.eq_dec a 0) as [->|Hnz]; [cbn; lia |].
      apply Z.log2_lt_pow2; [lia |].
      apply Z.lt_le_trans with (2 ^ 8); [change (2 ^ 8) with 256; lia |].
      apply Z.pow_le_mono_r; lia.
Qed.

Lemma u8_range (z : Z) : is_u8 (u8 z).
Proof. unfold is_u8, u8. apply Z.mod_pos_bound. lia. Qed.

Lemma shifted_bit (b j : Z) :
  0 <= j < 8 ->
  Z.shiftr (u8 (Z.shiftl b j)) 7 = Z.b2z (Z.testbit b (7 - j)).
Proof.
  intros Hj. rewrite shiftr7_bit by apply u8_range.
  unfold u8. change 256 with (2 ^ 8).
  rewrite Z.mod_pow2_bits_low by lia.
  rewrite Z.shiftl_spec by lia. reflexivity.
Qed.

Lemma shifted_next (b j : Z) :
  0 <= j -> u8 (Z.shiftl (u8 (Z.shiftl b j)) 1) = u8 (Z.shiftl b (j + 1)).
Proof.
  intros Hj. unfold u8.
  rewrite <- (Z.shiftl_shiftl b j 1) by lia.
  rewrite !(Z.shiftl_mul_pow2 _ 1) by lia.
  rewrite Z.mul_mod_idemp_l by lia. reflexivity.
Qed.

Lemma shifted_start (b : Z) : is_u8 b -> b = u8 (Z.shiftl b 0).
Proof. intros Hb. rewrite Z.shiftl_0_r. symmetry. by apply u8_small. Qed.

(** *** One pixel *)

Lemma same_rest_refl (c : Chip8) : same_rest c c.
Proof. by repeat split. Qed.

Lemma same_rest_trans (c1 c2 c3 : Chip8) :
  same_rest c1 c2 -> same_rest c2 c3 -> same_rest c1 c3.
Proof.
  unfold same_rest. intros H1 H2.
  destruct H1 as (?&?&?&?&?&?&?&?&?&?), H2 as (?&?&?&?&?&?&?&?&?&?).
  repeat split; congruence.
Qed.

Lemma plot_same_rest (px py bit : Z) (c : Chip8) : same_rest c (plot px py bit c).
Proof. unfold plot. destruct (_ && _); by repeat split. Qed.

Lemma plot_pixels (px py bit : Z) (c : Chip8) :
  pixels (plot px py bit c) =
  arr_set (pixels c) (pixel_index px py) (Z.lxor bit (pixel c px py)).
Proof. unfold plot. destruct (_ && _); reflexivity. Qed.

Lemma plot_v_reg (px py bit : Z) (c : Chip8) :
  v_reg (plot px py bit c) =
  if (pixel c px py =? 1) && (Z.lxor bit (pixel c px py) =? 0)
  then arr_set (v_reg c) 0x0F 1 else v_reg c.
Proof. unfold plot. destruct (_ && _); reflexivity. Qed.

Lemma pixel_index_range (px py : Z) :
  0 <= px < WIDTH -> 0 <= py < HEIGHT -> 0 <= pixel_index px py < 2048.
Proof. unfold pixel_index, WIDTH, HEIGHT. lia. Qed.

Lemma pixel_index_inj (px py qx qy : Z) :
  0 <= px < WIDTH -> 0 <= py < HEIGHT -> 0 <= qx < WIDTH -> 0 <= qy < HEIGHT ->
  pixel_index px py = pixel_index qx qy -> px = qx /\ py = qy.
Proof. unfold pixel_index, WIDTH, HEIGHT. lia. Qed.

Lemma plot_pixel (px py bit : Z) (c : Chip8) (qx qy : Z) :
  length (pixels c) = 2048%nat ->
  0 <= px < WIDTH -> 0 <= py < HEIGHT -> 0 <= qx < WIDTH -> 0 <= qy < HEIGHT ->
  pixel (plot px py bit c) qx qy =
  if (qx =? px) && (qy =? py) then Z.lxor bit (pixel c px py) else pixel c qx qy.
Proof.
  intros Hlen Hpx Hpy Hqx Hqy. unfold pixel at 1. rewrite plot_pixels.
  pose proof (pixel_index_range px py Hpx Hpy).
  pose proof (pixel_index_range qx qy Hqx Hqy).
  destruct (Z.eqb_spec qx px) as [->|Hx]; [destruct (Z.eqb_spec qy py) as [->|Hy] |]; simpl.
  - apply arr_get_set_eq. lia.
  - apply arr_get_set_ne; [lia | lia |].
    intros Heq. apply pixel_index_inj in Heq; [| done..]. lia.
  - apply arr_get_set_ne; [lia | lia |].
    intros Heq. apply pixel_index_inj in Heq; [| done..]. lia.
Qed.

Lemma plot_pixels_length (px py bit : Z) (c : Chip8) :
  length (pixels (plot px py bit c)) = length (pixels c).
Proof. rewrite plot_pixels. apply arr_set_length. Qed.

(** *** The inner loop: one sprite row *)

Lemma any_from_ext (f g : Z -> bool) (n : nat) :
  forall j, (forall k, j <= k < j + Z.of_nat n -> f k = g k) ->
            any_from n j f = any_from n j g.
Proof.
  induction n as [|n IH]; intros j Hfg; [reflexivity |].
  cbn [any_from]. rewrite (Hfg j) by lia. f_equal.
  apply IH. intros k Hk. apply Hfg. lia.
Qed.

Lemma any_from_S (f : Z -> bool) (n : nat) (j : Z) :
  any_from (S n) j f = f j || any_from n (j + 1) f.
Proof. reflexivity. Qed.

Lemma any_from_true (f : Z -> bool) (n : nat) :
  forall j, any_from n j f = true <->
            exists k, j <= k < j + Z.of_nat n /\ f k = true.
Proof.
  induction n as [|n IH]; intros j; cbn [any_from].
  - split; [discriminate | intros (k & Hk & _); lia].
  - rewrite orb_true_iff, IH. split.
    + intros [Hj | (k & Hk & Hf)]; [exists j | exists k]; split; (done || lia).
    + intros (k & Hk & Hf).
      destruct (Z.eq_dec k j) as [->|Hne]; [by left | right].
      exists k. split; [lia | done].
Qed.

Lemma arr_set_twice (l : list Z) (i v : Z) :
  arr_set (arr_set l i v) i v = arr_set l i v.
Proof. unfold arr_set. apply list_insert_insert_eq. Qed.

Lemma footprint_col_eq (x qx j : Z) :
  0 <= qx < WIDTH -> 0 <= j < WIDTH ->
  (qx =? (j + x) mod WIDTH) = (footprint_col x qx =? j).
Proof.
  unfold footprint_col, WIDTH. intros Hqx Hj.
  destruct (Z.eqb_spec qx ((j + x) mod 64)), (Z.eqb_spec ((qx - x) mod 64) j);
    try reflexivity; exfalso; Z.div_mod_to_equations; lia.
Qed.

Section Row.

Variables (x y i b : Z).

Lemma draw_columns_spec (n : nat) :
  forall (j : Z) (c : Chip8),
    0 <= j -> j + Z.of_nat n <= 8 ->
    length (pixels c) = 2048%nat ->
    let c' := draw_columns n j x y i (u8 (Z.shiftl b j)) c in
    same_rest c c' /\
    length (pixels c') = 2048%nat /\
    (forall qx qy, 0 <= qx < WIDTH -> 0 <= qy < HEIGHT ->
       pixel c' qx qy =
       if (qy =? (i + y) mod HEIGHT) && (j <=? footprint_col x qx)
          && (footprint_col x qx <? j + Z.of_nat n)
       then Z.lxor (Z.b2z (Z.testbit b (7 - footprint_col x qx))) (pixel c qx qy)
       else pixel c qx qy) /\
    v_reg c' = if any_from n j (row_turns_off x y i b c)
               then arr_set (v_reg c) 0x0F 1 else v_reg c.
Proof.
  induction n as [|n IH]; intros j c Hj Hn Hlen.
  - cbn [draw_columns any_from]. repeat split; try done.
    intros qx qy _ _.
    replace (footprint_col x qx <? j + Z.of_nat 0) with (footprint_col x qx <? j)
      by (f_equal; lia).
    destruct (Z.leb_spec j (footprint_col x qx)), (Z.ltb_spec (footprint_col x qx) j);
      try lia; by rewrite ?andb_false_r.
  - cbn [draw_columns].
    fold (plot ((j + x) mod WIDTH) ((i + y) mod HEIGHT)
               (Z.shiftr (u8 (Z.shiftl b j)) 7) c).
    rewrite shifted_bit, shifted_next by lia.
    set (c1 := plot ((j + x) mod WIDTH) ((i + y) mod HEIGHT)
                    (Z.b2z (Z.testbit b (7 - j))) c).
    assert (HX : 0 <= (j + x) mod WIDTH < WIDTH) by (apply Z.mod_pos_bound; done).
    assert (HY : 0 <= (i + y) mod HEIGHT < HEIGHT) by (apply Z.mod_pos_bound; done).
    assert (Hlen1 : length (pixels c1) = 2048%nat)
      by (unfold c1; by rewrite plot_pixels_length).
    destruct (IH (j + 1) c1) as (Hrest & Hlen' & Hpix & Hreg); [lia | lia | done |].
    assert (Hpix1 : forall qx qy, 0 <= qx < WIDTH -> 0 <= qy < HEIGHT ->
              pixel c1 qx qy =
              if (qy =? (i + y) mod HEIGHT) && (footprint_col x qx =? j)
              then Z.lxor (Z.b2z (Z.testbit b (7 - j))) (pixel c qx qy)
              else pixel c qx qy).
    { intros qx qy Hqx Hqy. unfold c1. rewrite plot_pixel by done.
      rewrite (footprint_col_eq x qx j) by (unfold WIDTH in *; lia).
      rewrite andb_comm.
      destruct (Z.eqb_spec qy ((i + y) mod HEIGHT)) as [->|]; [| done].
      destruct (Z.eqb_spec (footprint_col x qx) j) as [Hc|]; [| done].
      cbn [andb]. rewrite <- Z.eqb_eq, <- footprint_col_eq in Hc
        by (unfold WIDTH in *; lia).
      apply Z.eqb_eq in Hc. by rewrite Hc. }
    split; [| split; [| split]].
    + eapply same_rest_trans; [apply plot_same_rest | exact Hrest].
    + exact Hlen'.
    + intros qx qy Hqx Hqy. rewrite Hpix, (Hpix1 qx qy) by done.
      destruct (Z.eqb_spec qy ((i + y) mod HEIGHT)); cbn [andb]; [| done].
      destruct (Z.eqb_spec (footprint_col x qx) j) as [Hc|Hc];
        destruct (Z.leb_spec (j + 1) (footprint_col x qx)),
                 (Z.leb_spec j (footprint_col x qx)),
                 (Z.ltb_spec (footprint_col x qx) (j + 1 + Z.of_nat n)),
                 (Z.ltb_spec (footprint_col x qx) (j + Z.of_nat (S n)));
        cbn [andb]; try lia; try reflexivity.
      by rewrite Hc.
    + rewrite Hreg. cbn [any_from].
      rewrite (any_from_ext (row_turns_off x y i b c1) (row_turns_off x y i b c)).
      * unfold c1 at 1 2. rewrite plot_v_reg.
        fold (row_turns_off x y i b c j).
        destruct (row_turns_off x y i b c j); cbn [orb]; [| done].
        rewrite arr_set_twice.
        destruct (any_from n (j + 1) (row_turns_off x y i b c)); reflexivity.
      * intros k Hk. unfold row_turns_off.
        rewrite (Hpix1 ((k + x) mod WIDTH) ((i + y) mod HEIGHT))
          by (apply Z.mod_pos_bound; done).
        replace (footprint_col x ((k + x) mod WIDTH) =? j) with false; [by rewrite andb_false_r |].
        symmetry. apply Z.eqb_neq. unfold footprint_col, WIDTH.
        Z.div_mod_to_equations. lia.
Qed.

End Row.

(** *** The outer loop: the whole sprite *)

Lemma footprint_row_eq (y qy i : Z) :
  0 <= qy < HEIGHT -> 0 <= i < HEIGHT ->
  (qy =? (i + y) mod HEIGHT) = (footprint_row y qy =? i).
Proof.
  unfold footprint_row, HEIGHT. intros Hqy Hi.
  destruct (Z.eqb_spec qy ((i + y) mod 32)), (Z.eqb_spec ((qy - y) mod 32) i);
    try reflexivity; exfalso; Z.div_mod_to_equations; lia.
Qed.

Lemma footprint_col_range (x qx : Z) : 0 <= footprint_col x qx < WIDTH.
Proof. unfold footprint_col. apply Z.mod_pos_bound. done. Qed.

Lemma footprint_row_range (y qy : Z) : 0 <= footprint_row y qy < HEIGHT.
Proof. unfold footprint_row. apply Z.mod_pos_bound. done. Qed.

Lemma same_rest_sprite_row (c c' : Chip8) (row : Z) :
  same_rest c c' -> sprite_row c' row = sprite_row c row.
Proof.
  intros (Hmem & _ & _ & _ & _ & Hi & _). unfold sprite_row. by rewrite Hmem, Hi.
Qed.

Lemma draw_rows_spec (x y : Z) (n : nat) :
  forall (i : Z) (c : Chip8),
    0 <= i -> i + Z.of_nat n <= HEIGHT ->
    length (pixels c) = 2048%nat ->
    0 <= i_addr_reg c -> i_addr_reg c + i + Z.of_nat n <= MEM_SIZE ->
    (forall row, i <= row < i + Z.of_nat n -> is_u8 (sprite_row c row)) ->
    exists c',
      draw_rows n i x y c = Done c' /\
      same_rest c c' /\
      length (pixels c') = 2048%nat /\
      (forall qx qy, 0 <= qx < WIDTH -> 0 <= qy < HEIGHT ->
         pixel c' qx qy =
         if (footprint_col x qx <? 8) && (i <=? footprint_row y qy)
            && (footprint_row y qy <? i + Z.of_nat n)
         then Z.lxor (sprite_bit c (footprint_row y qy) (footprint_col x qx))
                     (pixel c qx qy)
         else pixel c qx qy) /\
      v_reg c' = if any_from n i (fun row => any_from 8 0 (turns_off c x y row))
                 then arr_set (v_reg c) 0x0F 1 else v_reg c.
Proof.
  induction n as [|n IH]; intros i c Hi Hn Hlen HI Hmem Hbytes.
  - exists c. cbn [draw_rows any_from]. repeat split; try done.
    intros qx qy _ _.
    replace (footprint_row y qy <? i + Z.of_nat 0) with (footprint_row y qy <? i)
      by (f_equal; lia).
    destruct (Z.leb_spec i (footprint_row y qy)), (Z.ltb_spec (footprint_row y qy) i);
      try lia; by rewrite ?andb_false_r.
  - cbn [draw_rows]. rewrite arr_read_in by lia. cbn [obind].
    fold (sprite_row c i).
    assert (Hb : is_u8 (sprite_row c i)) by (apply Hbytes; lia).
    replace (draw_columns 8 0 x y i (sprite_row c i) c)
      with (draw_columns 8 0 x y i (u8 (Z.shiftl (sprite_row c i) 0)) c)
      by (by rewrite <- shifted_start).
    destruct (draw_columns_spec x y i (sprite_row c i) 8 0 c)
      as (Hrest1 & Hlen1 & Hpix1 & Hreg1); [lia | simpl; lia | done |].
    set (c1 := draw_columns 8 0 x y i (u8 (Z.shiftl (sprite_row c i) 0)) c) in *.
    destruct Hrest1 as (Hm1 & Hrest1'). pose proof Hrest1' as (_ & _ & _ & _ & Hi1 & _).
    assert (Hrest1 : same_rest c c1) by (split; assumption).
    destruct (IH (i + 1) c1) as (c' & Hrun & Hrest & Hlen' & Hpix & Hreg);
      [lia | lia | done | rewrite Hi1; lia | rewrite Hi1; lia | |].
    { intros row Hrow. rewrite (same_rest_sprite_row c c1) by done.
      apply Hbytes. lia. }
    assert (Hpix1' : forall qx qy, 0 <= qx < WIDTH -> 0 <= qy < HEIGHT ->
              pixel c1 qx qy =
              if (footprint_col x qx <? 8) && (footprint_row y qy =? i)
              then Z.lxor (sprite_bit c i (footprint_col x qx)) (pixel c qx qy)
              else pixel c qx qy).
    { intros qx qy Hqx Hqy. rewrite Hpix1 by done.
      rewrite (footprint_row_eq y qy i) by (unfold HEIGHT in *; lia).
      pose proof (footprint_col_range x qx).
      destruct (Z.leb_spec 0 (footprint_col x qx)); [| lia].
      rewrite andb_true_r, andb_comm. reflexivity. }
    exists c'. split; [exact Hrun |]. split; [| split; [| split]].
    + eapply same_rest_trans; [exact Hrest1 | exact Hrest].
    + exact Hlen'.
    + intros qx qy Hqx Hqy. rewrite Hpix, (Hpix1' qx qy) by done.
      unfold sprite_bit. rewrite (same_rest_sprite_row c c1) by done.
      destruct (Z.ltb_spec (footprint_col x qx) 8); cbn [andb]; [| done].
      destruct (Z.eqb_spec (footprint_row y qy) i) as [Hr|Hr];
        destruct (Z.leb_spec (i + 1) (footprint_row y qy)),
                 (Z.leb_spec i (footprint_row y qy)),
                 (Z.ltb_spec (footprint_row y qy) (i + 1 + Z.of_nat n)),
                 (Z.ltb_spec (footprint_row y qy) (i + Z.of_nat (S n)));
        cbn [andb]; try lia; try reflexivity.
      by rewrite Hr.
    + rewrite Hreg, any_from_S.
      rewrite (any_from_ext (fun row => any_from 8 0 (turns_off c1 x y row))
                            (fun row => any_from 8 0 (turns_off c x y row))).
      * rewrite Hreg1.
        change (row_turns_off x y i (sprite_row c i) c) with (turns_off c x y i).
        destruct (any_from 8 0 (turns_off c x y i)); cbn [orb]; [| done].
        rewrite arr_set_twice.
        destruct (any_from n (i + 1) (fun row => any_from 8 0 (turns_off c x y row)));
          reflexivity.
      * intros row Hrow. apply any_from_ext. intros col Hcol.
        unfold turns_off, sprite_bit.
        rewrite (same_rest_sprite_row c c1) by done.
        rewrite (Hpix1' ((col + x) mod WIDTH) ((row + y) mod HEIGHT))
          by (apply Z.mod_pos_bound; done).
        replace (footprint_row y ((row + y) mod HEIGHT) =? i) with false;
          [by rewrite andb_false_r |].
        symmetry. apply Z.eqb_neq. unfold footprint_row, HEIGHT in *.
        Z.div_mod_to_equations. lia.
Qed.

(** *** The instruction *)

Lemma nibble_range (z : Z) : 0 <= Z.land z 0x0F < 16.
Proof.
  change 15 with (Z.ones 4). rewrite Z.land_ones by lia.
  apply Z.mod_pos_bound. lia.
Qed.

Lemma decode_draw (dbg : bool) (rnd : Z) (c : Chip8) (opcode1 opcode2 : Z) :
  Z.shiftr opcode1 4 = 0x0D ->
  decode_instruction dbg rnd opcode1 opcode2 c =
  (c1 <- draw_rows (Z.to_nat (Z.land opcode2 0x0F)) 0
                   (reg c (Z.land opcode1 0x0F)) (reg c (Z.shiftr opcode2 4))
                   (set_reg 0x0F 0 c) ;;
   Done (advance_pc c1)).
Proof. intros Hop. unfold decode_instruction. rewrite Hop. reflexivity. Qed.

Lemma decode_draw_spec (dbg : bool) (rnd : Z) (c : Chip8) (opcode1 opcode2 : Z) :
  Z.shiftr opcode1 4 = 0x0D ->
  length (pixels c) = 2048%nat ->
  let x := reg c (Z.land opcode1 0x0F) in
  let y := reg c (Z.shiftr opcode2 4) in
  let n := Z.land opcode2 0x0F in
  0 <= i_addr_reg c -> i_addr_reg c + n <= MEM_SIZE ->
  (forall row, 0 <= row < n -> is_u8 (sprite_row c row)) ->
  exists c',
    decode_instruction dbg rnd opcode1 opcode2 c = Done c' /\
    same_rest (advance_pc c) c' /\
    length (pixels c') = 2048%nat /\
    (forall qx qy, 0 <= qx < WIDTH -> 0 <= qy < HEIGHT ->
       pixel c' qx qy =
       if in_footprint x y n qx qy
       then Z.lxor (sprite_bit c (footprint_row y qy) (footprint_col x qx))
                   (pixel c qx qy)
       else pixel c qx qy) /\
    v_reg c' = arr_set (v_reg c) 0x0F (Z.b2z (collision c x y n)).
Proof.
  intros Hop Hlen x y n HI Hmem Hbytes.
  pose proof (nibble_range opcode2) as Hn. fold n in Hn.
  rewrite decode_draw by exact Hop. fold x y n.
  destruct (draw_rows_spec x y (Z.to_nat n) 0 (set_reg 0x0F 0 c))
    as (c1 & Hrun & Hrest & Hlen1 & Hpix & Hreg).
  - lia.
  - unfold HEIGHT. lia.
  - exact Hlen.
  - exact HI.
  - fields. lia.
  - intros row Hrow. apply (Hbytes row). lia.
  - rewrite Hrun. cbn [obind]. exists (advance_pc c1).
    split; [reflexivity |].
    destruct Hrest as (?&?&?&?&?&?&?&?&?&?). fields.
    split; [| split; [| split]].
    + unfold same_rest, advance_pc. fields. repeat split; congruence.
    + exact Hlen1.
    + intros qx qy Hqx Hqy. unfold advance_pc, pixel. fields.
      fold (pixel c1 qx qy). rewrite Hpix by done.
      unfold in_footprint.
      pose proof (footprint_row_range y qy).
      destruct (Z.leb_spec 0 (footprint_row y qy)); [| lia].
      rewrite andb_true_r.
      replace (0 + Z.of_nat (Z.to_nat n)) with n by lia. reflexivity.
    + unfold advance_pc. fields. rewrite Hreg. unfold collision.
      change (fun row => any_from 8 0 (turns_off (set_reg 15 0 c) x y row))
        with (fun row => any_from 8 0 (turns_off c x y row)).
      destruct (any_from (Z.to_nat n) 0 _); cbn [Z.b2z]; [| reflexivity].
      unfold arr_set. apply list_insert_insert_eq.
Qed.

Lemma footprint_col_at (x col : Z) :
  0 <= col < WIDTH -> footprint_col x ((x + col) mod WIDTH) = col.
Proof.
  unfold footprint_col, WIDTH. intros H. Z.div_mod_to_equations. lia.
Qed.

Lemma footprint_row_at (y row : Z) :
  0 <= row < HEIGHT -> footprint_row y ((y + row) mod HEIGHT) = row.
Proof.
  unfold footprint_row, HEIGHT. intros H. Z.div_mod_to_equations. lia.
Qed.

Lemma in_footprint_at (x y n row col : Z) :
  0 <= row < n -> n <= HEIGHT -> 0 <= col < 8 ->
  in_footprint x y n ((x + col) mod WIDTH) ((y + row) mod HEIGHT) = true.
Proof.
  intros Hrow Hn Hcol. unfold in_footprint.
  rewrite footprint_col_at, footprint_row_at by (unfold WIDTH, HEIGHT in *; lia).
  apply andb_true_iff. split; apply Z.ltb_lt; lia.
Qed.

Lemma in_footprint_true (x y n qx qy : Z) :
  0 <= qx < WIDTH -> 0 <= qy < HEIGHT ->
  in_footprint x y n qx qy = true ->
  exists row col, 0 <= row < n /\ 0 <= col < 8 /\
                  qx = (x + col) mod WIDTH /\ qy = (y + row) mod HEIGHT.
Proof.
  intros Hqx Hqy Hin. unfold in_footprint in Hin.
  apply andb_true_iff in Hin as [Hc%Z.ltb_lt Hr%Z.ltb_lt].
  pose proof (footprint_col_range x qx). pose proof (footprint_row_range y qy).
  exists (footprint_row y qy), (footprint_col x qx).
  repeat split; try lia.
  - unfold footprint_col, WIDTH in *. Z.div_mod_to_equations. lia.
  - unfold footprint_row, HEIGHT in *. Z.div_mod_to_equations. lia.
Qed.

Lemma collision_true (c : Chip8) (x y n : Z) :
  0 <= n ->
  collision c x y n = true <->
  exists row col, 0 <= row < n /\ 0 <= col < 8 /\ turns_off c x y row col = true.
Proof.
  intros Hn. unfold collision. rewrite any_from_true. split.
  - intros (row & Hrow & Hany). apply any_from_true in Hany as (col & Hcol & Hoff).
    exists row, col. repeat split; (lia || done).
  - intros (row & col & Hrow & Hcol & Hoff).
    exists row. split; [lia |]. apply any_from_true. exists col. split; [simpl; lia | done].
Qed.

Lemma lxor_bit_zero (bit old : Z) : Z.lxor bit old = 0 -> old = bit.
Proof. intros H. apply Z.lxor_eq in H. congruence. Qed.

Lemma sprite_bit_cases (c : Chip8) (row col : Z) :
  sprite_bit c row col = 0 \/ sprite_bit c row col = 1.
Proof. unfold sprite_bit. destruct (Z.testbit _ _); [by right | by left]. Qed.

Lemma turns_off_true (c : Chip8) (x y row col : Z) :
  turns_off c x y row col = true <->
  pixel c ((x + col) mod WIDTH) ((y + row) mod HEIGHT) <> 0 /\
  Z.lxor (sprite_bit c row col)
         (pixel c ((x + col) mod WIDTH) ((y + row) mod HEIGHT)) = 0.
Proof.
  unfold turns_off. rewrite (Z.add_comm col x), (Z.add_comm row y).
  rewrite andb_true_iff, !Z.eqb_eq. split.
  - intros [H1 H0]. split; [lia | done].
  - intros [Hon H0]. split; [| done].
    apply lxor_bit_zero in H0.
    destruct (sprite_bit_cases c row col); congruence.
Qed.

(** C2: DXYN reads the N rows of the sprite from mem[I .. I+N) and, for
    every row and each of its 8 bits from the most significant one, leaves
    the pixel at ((x + col) mod 64, (y + row) mod 32) at the exclusive or of
    its old value and that bit; VF ends as 1 if some pixel of the sprite
    went from on to off and as 0 if none did.  The machine has arrays of
    their declared sizes and the sprite lies inside memory. *)
Theorem dxyn_draws (dbg : bool) (rnd : Z) (c : Chip8) (opcode1 opcode2 : Z) :
  Z.shiftr opcode1 4 = 0x0D ->
  length (pixels c) = 2048%nat ->
  length (v_reg c) = 16%nat ->
  let x := reg c (Z.land opcode1 0x0F) in
  let y := reg c (Z.shiftr opcode2 4) in
  let n := Z.land opcode2 0x0F in
  0 <= i_addr_reg c -> i_addr_reg c + n <= MEM_SIZE ->
  (forall row, 0 <= row < n -> is_u8 (arr_get (mem c) (i_addr_reg c + row))) ->
  exists c',
    decode_instruction dbg rnd opcode1 opcode2 c = Done c' /\
    (forall row col, 0 <= row < n -> 0 <= col < 8 ->
       pixel c' ((x + col) mod WIDTH) ((y + row) mod HEIGHT) =
       Z.lxor (Z.b2z (Z.testbit (arr_get (mem c) (i_addr_reg c + row)) (7 - col)))
              (pixel c ((x + col) mod WIDTH) ((y + row) mod HEIGHT))) /\
    ((exists row col, 0 <= row < n /\ 0 <= col < 8 /\
        turned_off c c' ((x + col) mod WIDTH) ((y + row) mod HEIGHT)) ->
     reg c' 0x0F = 1) /\
    (~ (exists row col, 0 <= row < n /\ 0 <= col < 8 /\
          turned_off c c' ((x + col) mod WIDTH) ((y + row) mod HEIGHT)) ->
     reg c' 0x0F = 0).
Proof.
  intros Hop Hlenp Hlenv x y n HI Hmem Hbytes.
  pose proof (nibble_range opcode2) as Hn. fold n in Hn.
  destruct (decode_draw_spec dbg rnd c opcode1 opcode2 Hop Hlenp HI Hmem Hbytes)
    as (c' & Hrun & _ & _ & Hpix & Hreg).
  fold x y n in Hpix, Hreg.
  assert (Hat : forall row col, 0 <= row < n -> 0 <= col < 8 ->
            pixel c' ((x + col) mod WIDTH) ((y + row) mod HEIGHT) =
            Z.lxor (sprite_bit c row col)
                   (pixel c ((x + col) mod WIDTH) ((y + row) mod HEIGHT))).
  { intros row col Hrow Hcol.
    rewrite Hpix by (apply Z.mod_pos_bound; done).
    rewrite in_footprint_at by (unfold HEIGHT; lia).
    by rewrite footprint_col_at, footprint_row_at by (unfold WIDTH, HEIGHT; lia). }
  assert (Hvf : reg c' 0x0F = Z.b2z (collision c x y n)).
  { unfold reg. rewrite Hreg. apply arr_get_set_eq. rewrite Hlenv. simpl. lia. }
  assert (Hcol : collision c x y n = true <->
                 exists row col, 0 <= row < n /\ 0 <= col < 8 /\
                   turned_off c c' ((x + col) mod WIDTH) ((y + row) mod HEIGHT)).
  { rewrite collision_true by lia. unfold turned_off.
    split; intros (row & col & Hrow & Hc & H); exists row, col;
      (split; [done |]); (split; [done |]).
    - apply turns_off_true in H. by rewrite Hat.
    - apply turns_off_true. by rewrite <- Hat. }
  exists c'. split; [exact Hrun |]. split; [exact Hat |]. split.
  - intros Hex. apply Hcol in Hex. by rewrite Hvf, Hex.
  - intros Hno. rewrite Hvf.
    destruct (collision c x y n); [| reflexivity].
    exfalso. apply Hno. by apply Hcol.
Qed.

Lemma dxyn_draws_witness :
  exists c',
    decode_instruction false 0 0xD0 0x11 (loaded [0xD0; 0x11]) = Done c' /\
    pixel c' 0 0 = 1.
Proof.
  destruct (dxyn_draws false 0 (loaded [0xD0; 0x11]) 0xD0 0x11)
    as (c' & Hrun & Hat & _).
  - reflexivity.
  - reflexivity.
  - reflexivity.
  - vm_compute. discriminate.
  - vm_compute. discriminate.
  - intros row Hrow. assert (row = 0) as -> by (change (0 <= row < 1) in Hrow; lia).
    vm_compute. split; [discriminate | reflexivity].
  - exists c'. split; [exact Hrun |].
    exact (Hat 0 0 ltac:(vm_compute; split; [discriminate | reflexivity])
               ltac:(lia)).
Defined.

(** C10: DXYN changes the pixels of the sprite's wrapped N-row by 8-column
    footprint, VF and PC, which advances by exactly 2, and nothing else:
    memory, I, V0..VE, both timers, the stack and its pointer, the key
    buffer, the program size, the cycle count and every pixel outside the
    footprint are as before. *)
Theorem dxyn_frame (dbg : bool) (rnd : Z) (c : Chip8) (opcode1 opcode2 : Z) :
  fetch c = Done (opcode1, opcode2) ->
  Z.shiftr opcode1 4 = 0x0D ->
  length (pixels c) = 2048%nat ->
  length (v_reg c) = 16%nat ->
  let x := reg c (Z.land opcode1 0x0F) in
  let y := reg c (Z.shiftr opcode2 4) in
  let n := Z.land opcode2 0x0F in
  0 <= i_addr_reg c -> i_addr_reg c + n <= MEM_SIZE ->
  (forall row, 0 <= row < n -> is_u8 (arr_get (mem c) (i_addr_reg c + row))) ->
  exists c',
    decode_instruction dbg rnd opcode1 opcode2 c = Done c' /\
    pc c' = pc c + 2 /\
    mem c' = mem c /\ i_addr_reg c' = i_addr_reg c /\
    (forall r, 0 <= r < 15 -> reg c' r = reg c r) /\
    delay_timer c' = delay_timer c /\ sound_timer c' = sound_timer c /\
    stack c' = stack c /\ sp c' = sp c /\ keys c' = keys c /\
    program_size c' = program_size c /\ cycle_count c' = cycle_count c /\
    length (pixels c') = length (pixels c) /\
    (forall qx qy, 0 <= qx < WIDTH -> 0 <= qy < HEIGHT ->
       (forall row col, 0 <= row < n -> 0 <= col < 8 ->
          ~ (qx = (x + col) mod WIDTH /\ qy = (y + row) mod HEIGHT)) ->
       pixel c' qx qy = pixel c qx qy).
Proof.
  intros Hf Hop Hlenp Hlenv x y n HI Hmem Hbytes.
  destruct (decode_draw_spec dbg rnd c opcode1 opcode2 Hop Hlenp HI Hmem Hbytes)
    as (c' & Hrun & Hrest & Hlen' & Hpix & Hreg).
  fold x y n in Hpix, Hreg.
  apply fetch_Done in Hf as (Hlo & Hhi & _). unfold MEM_SIZE in Hhi.
  destruct Hrest as (?&?&?&?&Hpc&?&?&?&?&?). unfold advance_pc in *. fields.
  exists c'. split; [exact Hrun |].
  repeat match goal with |- _ /\ _ => split end; try congruence.
  - rewrite Hpc. apply u16_small. lia.
  - intros r Hr. unfold reg. rewrite Hreg. apply arr_get_set_ne; lia.
  - intros qx qy Hqx Hqy Hout. rewrite Hpix by done.
    destruct (in_footprint x y n qx qy) eqn:Hin; [| reflexivity].
    apply in_footprint_true in Hin as (row & col & Hrow & Hcol & Hx & Hy); [| done..].
    destruct (Hout row col Hrow Hcol). by split.
Qed.

Lemma dxyn_frame_witness :
  exists c',
    decode_instruction false 0 0xD0 0x11 (loaded [0xD0; 0x11]) = Done c' /\
    pc c' = 0x202 /\ mem c' = mem (loaded [0xD0; 0x11]).
Proof.
  destruct (dxyn_frame false 0 (loaded [0xD0; 0x11]) 0xD0 0x11)
    as (c' & Hrun & Hpc & Hmem & _).
  - reflexivity.
  - reflexivity.
  - reflexivity.
  - reflexivity.
  - vm_compute. discriminate.
  - vm_compute. discriminate.
  - intros row Hrow. assert (row = 0) as -> by (change (0 <= row < 1) in Hrow; lia).
    vm_compute. split; [discriminate | reflexivity].
  - exists c'. repeat split; assumption.
Defined.

(** *** Drawing the same sprite twice *)

Lemma pixels_ext (l1 l2 : list Z) :
  length l1 = 2048%nat -> length l2 = 2048%nat ->
  (forall qx qy, 0 <= qx < WIDTH -> 0 <= qy < HEIGHT ->
     arr_get l1 (pixel_index qx qy) = arr_get l2 (pixel_index qx qy)) ->
  l1 = l2.
Proof.
  intros H1 H2 Hget. apply list_eq. intros k.
  destruct (Nat.lt_ge_cases k 2048) as [Hk|Hk].
  - destruct (lookup_lt_is_Some_2 l1 k) as [a Ha]; [lia |].
    destruct (lookup_lt_is_Some_2 l2 k) as [b Hb]; [lia |].
    rewrite Ha, Hb. f_equal.
    apply list_lookup_total_correct in Ha, Hb.
    specialize (Hget (Z.of_nat k / 32) (Z.of_nat k mod 32)).
    unfold arr_get, pixel_index, WIDTH, HEIGHT in Hget.
    replace (Z.to_nat (Z.of_nat k / 32 * 32 + Z.of_nat k mod 32)) with k in Hget
      by (Z.div_mod_to_equations; lia).
    rewrite <- Ha, <- Hb. apply Hget; Z.div_mod_to_equations; lia.
  - rewrite !lookup_ge_None_2; [done | lia | lia].
Qed.

Lemma lxor_twice (bit old : Z) : Z.lxor bit (Z.lxor bit old) = old.
Proof. by rewrite <- Z.lxor_assoc, Z.lxor_nilpotent, Z.lxor_0_l. Qed.

(** C6, as the claim states it, fails: after one draw of the font glyph row
    at (0, 0) its pixels are on; drawing the same sprite at the same place
    twice more restores that framebuffer, yet the second of the two draws
    only turns pixels on and ends with VF = 0. *)
Lemma second_draw_without_collision :
  exists c c1 c2,
    run false 1 (loaded [0xD0; 0x11; 0xD0; 0x11; 0xD0; 0x11]) = Done c /\
    decode_instruction false 0 0xD0 0x11 c = Done c1 /\
    decode_instruction false 0 0xD0 0x11 c1 = Done c2 /\
    mem c1 = mem c /\ i_addr_reg c1 = i_addr_reg c /\
    reg c1 0 = reg c 0 /\ reg c1 1 = reg c 1 /\
    pixels c2 = pixels c /\ pixel c 0 0 = 1 /\
    reg c1 0x0F = 1 /\ reg c2 0x0F = 0.
Proof.
  do 3 eexists.
  split; [vm_compute; reflexivity |].
  split; [vm_compute; reflexivity |].
  split; [vm_compute; reflexivity |].
  repeat split; by vm_compute.
Qed.

(** C6, amended: with memory, I, Vx and Vy the same for both draws, two
    identical DXYN draws in succession restore the framebuffer to its state
    before the first; the second draw ends with VF = 1 exactly when some set
    bit of the sprite lies on a pixel that was off before the first draw,
    and with VF = 0 otherwise. *)
Theorem dxyn_twice_restores (dbg : bool) (rnd : Z) (c : Chip8) (opcode1 opcode2 : Z) :
  Z.shiftr opcode1 4 = 0x0D ->
  length (pixels c) = 2048%nat ->
  length (v_reg c) = 16%nat ->
  let x := reg c (Z.land opcode1 0x0F) in
  let y := reg c (Z.shiftr opcode2 4) in
  let n := Z.land opcode2 0x0F in
  0 <= i_addr_reg c -> i_addr_reg c + n <= MEM_SIZE ->
  (forall row, 0 <= row < n -> is_u8 (arr_get (mem c) (i_addr_reg c + row))) ->
  (exists c1, decode_instruction dbg rnd opcode1 opcode2 c = Done c1) /\
  (forall c1,
     decode_instruction dbg rnd opcode1 opcode2 c = Done c1 ->
     reg c1 (Z.land opcode1 0x0F) = x ->
     reg c1 (Z.shiftr opcode2 4) = y ->
     exists c2,
       decode_instruction dbg rnd opcode1 opcode2 c1 = Done c2 /\
       pixels c2 = pixels c /\
       ((exists row col, 0 <= row < n /\ 0 <= col < 8 /\
           sprite_bit c row col = 1 /\
           pixel c ((x + col) mod WIDTH) ((y + row) mod HEIGHT) = 0) ->
        reg c2 0x0F = 1) /\
       (~ (exists row col, 0 <= row < n /\ 0 <= col < 8 /\
             sprite_bit c row col = 1 /\
             pixel c ((x + col) mod WIDTH) ((y + row) mod HEIGHT) = 0) ->
        reg c2 0x0F = 0)).
Proof.
  intros Hop Hlenp Hlenv x y n HI Hmem Hbytes.
  pose proof (nibble_range opcode2) as Hn. fold n in Hn.
  destruct (decode_draw_spec dbg rnd c opcode1 opcode2 Hop Hlenp HI Hmem Hbytes)
    as (c1 & Hrun1 & Hrest1 & Hlen1 & Hpix1 & Hreg1).
  fold x y n in Hpix1, Hreg1.
  split; [by exists c1 |].
  intros c1' Hrun1' Hx Hy. rewrite Hrun1 in Hrun1'. injection Hrun1' as <-.
  assert (Hrow : forall row, sprite_row c1 row = sprite_row c row).
  { intros row. destruct Hrest1 as (Hm & _ & _ & _ & _ & Hi & _).
    unfold sprite_row, advance_pc in *. fields. by rewrite Hm, Hi. }
  assert (HI1 : i_addr_reg c1 = i_addr_reg c).
  { destruct Hrest1 as (_ & _ & _ & _ & _ & Hi & _). exact Hi. }
  destruct (decode_draw_spec dbg rnd c1 opcode1 opcode2 Hop Hlen1)
    as (c2 & Hrun2 & _ & Hlen2 & Hpix2 & Hreg2).
  { rewrite HI1. exact HI. }
  { rewrite HI1. exact Hmem. }
  { intros row Hr. rewrite Hrow. by apply Hbytes. }
  rewrite Hx, Hy in Hpix2, Hreg2. fold n in Hpix2, Hreg2.
  assert (Hback : forall qx qy, 0 <= qx < WIDTH -> 0 <= qy < HEIGHT ->
                                pixel c2 qx qy = pixel c qx qy).
  { intros qx qy Hqx Hqy. rewrite Hpix2, Hpix1 by done.
    destruct (in_footprint x y n qx qy); [| reflexivity].
    unfold sprite_bit. rewrite Hrow. apply lxor_twice. }
  assert (Hvf : reg c2 0x0F = Z.b2z (collision c1 x y n)).
  { unfold reg. rewrite Hreg2. apply arr_get_set_eq.
    rewrite Hreg1, arr_set_length, Hlenv. simpl. lia. }
  assert (Hcol : collision c1 x y n = true <->
                 exists row col, 0 <= row < n /\ 0 <= col < 8 /\
                   sprite_bit c row col = 1 /\
                   pixel c ((x + col) mod WIDTH) ((y + row) mod HEIGHT) = 0).
  { rewrite collision_true by lia.
    split; intros (row & col & Hr & Hc & H); exists row, col;
      (split; [done |]); (split; [done |]).
    - apply turns_off_true in H as [Hon Hoff].
      rewrite Hpix1 in Hon, Hoff by (apply Z.mod_pos_bound; done).
      rewrite in_footprint_at in Hon, Hoff by (unfold HEIGHT; lia).
      rewrite footprint_col_at, footprint_row_at in Hon, Hoff
        by (unfold WIDTH, HEIGHT; lia).
      unfold sprite_bit in Hoff at 1. rewrite Hrow in Hoff.
      fold (sprite_bit c row col) in Hoff. rewrite lxor_twice in Hoff.
      rewrite Hoff, Z.lxor_0_r in Hon.
      destruct (sprite_bit_cases c row col); [congruence | done].
    - destruct H as [Hbit Hoff]. apply turns_off_true.
      rewrite Hpix1 by (apply Z.mod_pos_bound; done).
      rewrite in_footprint_at by (unfold HEIGHT; lia).
      rewrite footprint_col_at, footprint_row_at by (unfold WIDTH, HEIGHT; lia).
      unfold sprite_bit at 2. rewrite Hrow. fold (sprite_bit c row col).
      rewrite lxor_twice, Hoff, Hbit. split; [discriminate | reflexivity]. }
  exists c2. split; [exact Hrun2 |]. split; [| split].
  - apply pixels_ext; [done | done |]. exact Hback.
  - intros Hex. apply Hcol in Hex. by rewrite Hvf, Hex.
  - intros Hno. rewrite Hvf.
    destruct (collision c1 x y n); [| reflexivity].
    exfalso. apply Hno. by apply Hcol.
Qed.

Lemma dxyn_twice_restores_witness :
  exists c1 c2,
    decode_instruction false 0 0xD0 0x11 (loaded [0xD0; 0x11]) = Done c1 /\
    decode_instruction false 0 0xD0 0x11 c1 = Done c2 /\
    pixels c2 = pixels (loaded [0xD0; 0x11]).
Proof.
  destruct (dxyn_twice_restores false 0 (loaded [0xD0; 0x11]) 0xD0 0x11)
    as [[c1 Hrun1] Hboth].
  - reflexivity.
  - reflexivity.
  - reflexivity.
  - vm_compute. discriminate.
  - vm_compute. discriminate.
  - intros row Hrow. assert (row = 0) as -> by (change (0 <= row < 1) in Hrow; lia).
    vm_compute. split; [discriminate | reflexivity].
  - destruct (Hboth c1 Hrun1) as (c2 & Hrun2 & Hpix & _).
    + vm_compute in Hrun1. injection Hrun1 as <-. reflexivity.
    + vm_compute in Hrun1. injection Hrun1 as <-. reflexivity.
    + exists c1, c2. repeat split; assumption.
Defined.

(** Case analysis on a binary numeral as far as the goal looks at it. *)
Ltac split_pos :=
  repeat match goal with
         | q : positive |- _ => first [clear q | destruct q]
         end.

Lemma Done_inj {A : Type} (a b : A) : Done a = Done b -> a = b.
Proof. by intros [= ->]. Qed.

(** ** Values that fit their types *)

Lemma fits_iff (n z : Z) :
  0 <= n -> (0 <= z < 2 ^ n <-> Z.land z (Z.ones n) = z).
Proof.
  intros Hn. rewrite Z.land_ones by lia. split.
  - intros Hz. by apply Z.mod_small.
  - intros <-. apply Z.mod_pos_bound. by apply Z.pow_pos_nonneg.
Qed.

Lemma fits_land_r (n a b : Z) :
  0 <= n -> 0 <= b < 2 ^ n -> 0 <= Z.land a b < 2 ^ n.
Proof.
  intros Hn Hb. apply fits_iff; [done |]. apply fits_iff in Hb; [| done].
  by rewrite <- Z.land_assoc, Hb.
Qed.

Lemma fits_lor (n a b : Z) :
  0 <= n -> 0 <= a < 2 ^ n -> 0 <= b < 2 ^ n -> 0 <= Z.lor a b < 2 ^ n.
Proof.
  intros Hn Ha Hb. apply fits_iff; [done |].
  apply fits_iff in Ha, Hb; [| done..].
  by rewrite Z.land_lor_distr_l, Ha, Hb.
Qed.

Lemma fits_lxor (n a b : Z) :
  0 <= n -> 0 <= a < 2 ^ n -> 0 <= b < 2 ^ n -> 0 <= Z.lxor a b < 2 ^ n.
Proof.
  intros Hn Ha Hb. apply fits_iff; [done |].
  apply fits_iff in Ha, Hb; [| done..].
  apply Z.bits_inj'. intros k Hk.
  rewrite Z.land_spec, !Z.lxor_spec.
  rewrite <- Ha at 2. rewrite <- Hb at 2. rewrite !Z.land_spec.
  by destruct (Z.testbit a k), (Z.testbit b k), (Z.testbit (Z.ones n) k).
Qed.

Lemma u64_small (z : Z) : 0 <= z < 18446744073709551616 -> u64 z = z.
Proof. intros H. unfold u64. by apply Z.mod_small. Qed.

Lemma is_u8_0 : is_u8 0.
Proof. unfold is_u8. lia. Qed.

Lemma is_u8_1 : is_u8 1.
Proof. unfold is_u8. lia. Qed.

Lemma is_u8_b2z (b : bool) : is_u8 (Z.b2z b).
Proof. unfold is_u8. destruct b; simpl; lia. Qed.

Lemma is_u8_land_r (a b : Z) : is_u8 b -> is_u8 (Z.land a b).
Proof. apply (fits_land_r 8). lia. Qed.

Lemma is_u8_land_l (a b : Z) : is_u8 a -> is_u8 (Z.land a b).
Proof. rewrite Z.land_comm. apply is_u8_land_r. Qed.

Lemma is_u8_lor (a b : Z) : is_u8 a -> is_u8 b -> is_u8 (Z.lor a b).
Proof. apply (fits_lor 8). lia. Qed.

Lemma is_u8_lxor (a b : Z) : is_u8 a -> is_u8 b -> is_u8 (Z.lxor a b).
Proof. apply (fits_lxor 8). lia. Qed.

Lemma is_u8_shiftr (a k : Z) : is_u8 a -> 0 <= k -> is_u8 (Z.shiftr a k).
Proof.
  unfold is_u8. intros Ha Hk. rewrite Z.shiftr_div_pow2 by done.
  assert (0 < 2 ^ k) by (by apply Z.pow_pos_nonneg). split.
  - apply Z.div_pos; lia.
  - apply Z.le_lt_trans with a; [| lia]. apply Z.div_le_upper_bound; nia.
Qed.

Lemma is_u16_u16 (z : Z) : is_u16 (u16 z).
Proof. unfold is_u16, u16. apply Z.mod_pos_bound. lia. Qed.

Lemma is_u64_u64 (z : Z) : is_u64 (u64 z).
Proof. unfold is_u64, u64. apply Z.mod_pos_bound. lia. Qed.

Lemma nnn_range (opcode1 opcode2 : Z) :
  is_u8 opcode2 -> 0 <= nnn opcode1 opcode2 < 4096.
Proof.
  intros H2. unfold nnn. apply (fits_lor 12); [lia | | unfold is_u8 in H2; simpl; lia].
  pose proof (nibble_range opcode1) as Hx.
  rewrite Z.shiftl_mul_pow2 by lia. simpl. lia.
Qed.

Lemma is_u16_nnn (opcode1 opcode2 : Z) : is_u8 opcode2 -> is_u16 (nnn opcode1 opcode2).
Proof. intros H. pose proof (nnn_range opcode1 opcode2 H). unfold is_u16. lia. Qed.

Lemma bcd_digits (v : Z) :
  is_u8 v -> is_u8 (v / 100) /\ is_u8 (v mod 100 / 10) /\ is_u8 (v mod 10).
Proof. unfold is_u8. intros H. repeat split; Z.div_mod_to_equations; lia. Qed.

Lemma arr_get_Forall (P : Z -> Prop) (l : list Z) (i : Z) :
  P inhabitant -> Forall P l -> P (arr_get l i).
Proof.
  intros H0 Hall. unfold arr_get. rewrite list_lookup_total_alt.
  destruct (l !! Z.to_nat i) as [v|] eqn:Hv; [| exact H0].
  cbn [default from_option]. eapply Forall_lookup_1; eassumption.
Qed.

Lemma arr_set_Forall (P : Z -> Prop) (l : list Z) (i v : Z) :
  Forall P l -> P v -> Forall P (arr_set l i v).
Proof. intros Hall Hv. unfold arr_set. by apply Forall_insert. Qed.

Lemma below_spec (bound z : Z) : below bound z = true <-> 0 <= z < bound.
Proof. unfold below. rewrite andb_true_iff, Z.leb_le, Z.ltb_lt. done. Qed.

Lemma forallb_below (bound : Z) (l : list Z) :
  forallb (below bound) l = true -> Forall (fun z => 0 <= z < bound) l.
Proof.
  rewrite forallb_forall, Forall_forall. intros H z Hz.
  apply below_spec, H. by apply list_elem_of_In.
Qed.

Lemma wfb_wf (c : Chip8) : wfb c = true -> wf c.
Proof.
  unfold wfb. rewrite !andb_true_iff, !Nat.eqb_eq.
  intros ((((((((((((((((?&?)&?)&?)&?)&?)&?)&?)&?)&?)&?)&?)&?)&?)&?)&?)&?).
  split; try done; try (by apply forallb_below); by apply below_spec.
Qed.

(** ** Well-formed machines stay well-formed *)

Lemma wf_fresh : wf fresh.
Proof. apply wfb_wf. by vm_compute. Qed.

Lemma reg_u8 (c : Chip8) (x : Z) : wf c -> is_u8 (reg c x).
Proof. intros Hc. apply (arr_get_Forall is_u8); [apply is_u8_1 | apply Hc]. Qed.

Lemma mem_u8 (c : Chip8) (a : Z) : wf c -> is_u8 (arr_get (mem c) a).
Proof. intros Hc. apply (arr_get_Forall is_u8); [apply is_u8_1 | apply Hc]. Qed.

Lemma wf_set_reg (x v : Z) (c : Chip8) : wf c -> is_u8 v -> wf (set_reg x v c).
Proof.
  intros Hc Hv. destruct Hc. split; fields; try assumption.
  - by rewrite arr_set_length.
  - by apply arr_set_Forall.
Qed.

Lemma wf_set_pc (p : Z) (c : Chip8) : wf c -> is_u16 p -> wf (set_pc p c).
Proof. intros Hc Hp. destruct Hc. split; fields; assumption. Qed.

Lemma wf_advance_pc (c : Chip8) : wf c -> wf (advance_pc c).
Proof. intros Hc. apply wf_set_pc; [done | apply is_u16_u16]. Qed.

Lemma wf_skip_if (b : bool) (c : Chip8) : wf c -> wf (skip_if b c).
Proof. intros Hc. unfold skip_if. destruct b; by repeat apply wf_advance_pc. Qed.

Lemma wf_set_i_addr_reg (i : Z) (c : Chip8) : wf c -> is_u16 i -> wf (set_i_addr_reg i c).
Proof. intros Hc Hi. destruct Hc. split; fields; assumption. Qed.

Lemma wf_set_delay_timer (t : Z) (c : Chip8) : wf c -> is_u8 t -> wf (set_delay_timer t c).
Proof. intros Hc Ht. destruct Hc. split; fields; assumption. Qed.

Lemma wf_set_sound_timer (t : Z) (c : Chip8) : wf c -> is_u8 t -> wf (set_sound_timer t c).
Proof. intros Hc Ht. destruct Hc. split; fields; assumption. Qed.

Lemma wf_set_sp (s : Z) (c : Chip8) : wf c -> is_u8 s -> wf (set_sp s c).
Proof. intros Hc Hs. destruct Hc. split; fields; assumption. Qed.

Lemma wf_set_cycle_count (n : Z) (c : Chip8) : wf c -> is_u64 n -> wf (set_cycle_count n c).
Proof. intros Hc Hn. destruct Hc. split; fields; assumption. Qed.

Lemma wf_set_program_size (n : Z) (c : Chip8) : wf c -> is_u16 n -> wf (set_program_size n c).
Proof. intros Hc Hn. destruct Hc. split; fields; assumption. Qed.

Lemma wf_stack_write (c : Chip8) (i v : Z) :
  wf c -> is_u16 v -> wf (set_stack (arr_set (stack c) i v) c).
Proof.
  intros Hc Hv. destruct Hc. split; fields; try assumption.
  - by rewrite arr_set_length.
  - by apply arr_set_Forall.
Qed.

Lemma wf_mem_write (c : Chip8) (a v : Z) :
  wf c -> is_u8 v -> wf (set_mem (arr_set (mem c) a v) c).
Proof.
  intros Hc Hv. destruct Hc. split; fields; try assumption.
  - by rewrite arr_set_length.
  - by apply arr_set_Forall.
Qed.

Lemma wf_keys_write (c : Chip8) (k v : Z) :
  wf c -> is_u8 v -> wf (set_keys (arr_set (keys c) k v) c).
Proof.
  intros Hc Hv. destruct Hc. split; fields; try assumption.
  - by rewrite arr_set_length.
  - by apply arr_set_Forall.
Qed.

Lemma wf_set_pixel (px py v : Z) (c : Chip8) : wf c -> is_u8 v -> wf (set_pixel px py v c).
Proof.
  intros Hc Hv. destruct Hc. split; fields; try assumption.
  - by rewrite arr_set_length.
  - by apply arr_set_Forall.
Qed.

Lemma wf_clear (c : Chip8) : wf c -> wf (set_pixels (replicate 2048 0) c).
Proof.
  intros Hc. destruct Hc. split; fields; try assumption.
  - apply length_replicate.
  - apply Forall_replicate, is_u8_0.
Qed.

Lemma pixel_u8 (c : Chip8) (px py : Z) : wf c -> is_u8 (pixel c px py).
Proof. intros Hc. apply (arr_get_Forall is_u8); [apply is_u8_1 | apply Hc]. Qed.

Lemma wf_draw_columns (x y i : Z) (n : nat) :
  forall j sprite_bits c,
    wf c -> is_u8 sprite_bits -> wf (draw_columns n j x y i sprite_bits c).
Proof.
  induction n as [|n IH]; intros j sprite_bits c Hc Hs; [exact Hc |].
  cbn [draw_columns]. apply IH; [| apply u8_range].
  assert (Hd : is_u8 (Z.lxor (Z.shiftr sprite_bits 7)
                        (pixel c ((j + x) mod WIDTH) ((i + y) mod HEIGHT)))).
  { apply is_u8_lxor; [by apply is_u8_shiftr | by apply pixel_u8]. }
  destruct (_ && _).
  - apply wf_set_reg; [by apply wf_set_pixel | apply is_u8_1].
  - by apply wf_set_pixel.
Qed.

Lemma wf_draw_rows (x y : Z) (n : nat) :
  forall i c c', wf c -> draw_rows n i x y c = Done c' -> wf c'.
Proof.
  induction n as [|n IH]; intros i c c' Hc Hrun.
  - injection Hrun as <-. exact Hc.
  - cbn [draw_rows] in Hrun. unfold arr_read in Hrun.
    destruct (_ && _); [| discriminate]. cbn [obind] in Hrun.
    eapply IH; [| exact Hrun].
    apply wf_draw_columns; [exact Hc | by apply mem_u8].
Qed.

Lemma wf_wait_key (x : Z) (n : nat) :
  forall i c, wf c -> wf (wait_key n i x c).
Proof.
  induction n as [|n IH]; intros i c Hc; [exact Hc |].
  cbn [wait_key]. destruct (negb _); [| by apply IH].
  apply wf_advance_pc, wf_set_reg; [exact Hc | apply is_u8_1].
Qed.

Lemma wf_reg_dump (n : nat) :
  forall i c c', wf c -> reg_dump n i c = Done c' -> wf c'.
Proof.
  induction n as [|n IH]; intros i c c' Hc Hrun.
  - injection Hrun as <-. exact Hc.
  - cbn [reg_dump] in Hrun. unfold arr_write in Hrun.
    destruct (_ && _); [| discriminate]. cbn [obind] in Hrun.
    eapply IH; [| exact Hrun]. apply wf_mem_write; [exact Hc | by apply reg_u8].
Qed.

Lemma wf_reg_load (n : nat) :
  forall i c c', wf c -> reg_load n i c = Done c' -> wf c'.
Proof.
  induction n as [|n IH]; intros i c c' Hc Hrun.
  - injection Hrun as <-. exact Hc.
  - cbn [reg_load] in Hrun. unfold arr_read in Hrun.
    destruct (_ && _); [| discriminate]. cbn [obind] in Hrun.
    eapply IH; [| exact Hrun]. apply wf_set_reg; [exact Hc | by apply mem_u8].
Qed.

Lemma wf_set_mem (m : list Z) (c : Chip8) :
  wf c -> length m = 4096%nat -> Forall is_u8 m -> wf (set_mem m c).
Proof. intros Hc Hlen Hm. destruct Hc. split; fields; assumption. Qed.

Lemma is_u8_255 : is_u8 255.
Proof. unfold is_u8. lia. Qed.

Create HintDb wf discriminated.

#[local] Hint Resolve wf_set_reg wf_set_pc wf_advance_pc wf_skip_if
  wf_set_i_addr_reg wf_set_delay_timer wf_set_sound_timer wf_set_sp
  wf_stack_write wf_clear wf_wait_key reg_u8 mem_u8
  is_u8_0 is_u8_1 is_u8_255 is_u8_b2z is_u8_land_r is_u8_lor is_u8_lxor
  u8_range is_u16_u16 is_u16_nnn : wf.

(** Read the outcome of a decoder branch. *)
Ltac branch H :=
  unfold arr_read, arr_write, NOT_REACHED in H;
  repeat first
    [ progress cbn [obind] in H
    | match type of H with
      | context [if ?b then _ else _] => destruct b eqn:?
      end ];
  try discriminate H.

Lemma delay_timer_u8 (c : Chip8) : wf c -> is_u8 (delay_timer c).
Proof. intros Hc. apply Hc. Qed.

#[local] Hint Resolve delay_timer_u8 : wf.

Lemma stack_u16 (c : Chip8) (i : Z) : wf c -> is_u16 (arr_get (stack c) i).
Proof.
  intros Hc. apply (arr_get_Forall is_u16); [change (0 <= 1 < 65536); lia | apply Hc].
Qed.

#[local] Hint Resolve stack_u16 : wf.

Lemma wf_decode_arith (dbg : bool) (opcode1 opcode2 : Z) (c c' : Chip8) :
  wf c -> decode_arith dbg opcode1 opcode2 c = Done c' -> wf c'.
Proof.
  intros Hc. unfold decode_arith.
  destruct (Z.land opcode2 15) as [|p|p]; [| split_pos |];
    intros H; branch H; injection H as <-; auto 8 with wf.
  apply wf_advance_pc, wf_set_reg; auto with wf.
  apply is_u8_shiftr; [auto with wf | lia].
Qed.

Lemma wf_decode_key (dbg : bool) (opcode1 opcode2 : Z) (c c' : Chip8) :
  wf c -> decode_key dbg opcode1 opcode2 c = Done c' -> wf c'.
Proof.
  intros Hc. unfold decode_key.
  destruct opcode2 as [|p|p]; [| split_pos |];
    intros H; branch H; injection H as <-; auto with wf.
Qed.

Lemma wf_decode_misc (dbg : bool) (opcode1 opcode2 : Z) (c c' : Chip8) :
  wf c -> decode_misc dbg opcode1 opcode2 c = Done c' -> wf c'.
Proof.
  intros Hc. unfold decode_misc.
  destruct opcode2 as [|p|p]; [| split_pos |]; intros H;
    lazymatch type of H with
    | context [reg_load ?n ?i ?c0] =>
        destruct (reg_load n i c0) as [c1| |] eqn:Hloop; branch H;
        injection H as <-; apply wf_advance_pc; by eapply wf_reg_load
    | context [reg_dump ?n ?i ?c0] =>
        destruct (reg_dump n i c0) as [c1| |] eqn:Hloop; branch H;
        injection H as <-; apply wf_advance_pc; by eapply wf_reg_dump
    | context [wait_key] => apply Done_inj in H; subst c'; by apply wf_wait_key
    | _ => branch H; injection H as <-; auto with wf
    end.
  destruct (bcd_digits (reg c (Z.land opcode1 15))) as (H100 & H10 & H1);
    [auto with wf |].
  apply wf_advance_pc, wf_set_mem; [exact Hc | |].
  - rewrite !arr_set_length. apply Hc.
  - repeat apply arr_set_Forall; (apply Hc || assumption).
Qed.

Lemma wf_decode (dbg : bool) (rnd opcode1 opcode2 : Z) (c c' : Chip8) :
  wf c -> is_u8 opcode2 ->
  decode_instruction dbg rnd opcode1 opcode2 c = Done c' -> wf c'.
Proof.
  intros Hc Hop2. unfold decode_instruction.
  destruct (Z.shiftr opcode1 4) as [|p|p]; [| split_pos |]; intros H;
    lazymatch type of H with
    | decode_arith _ _ _ _ = _ => by eapply wf_decode_arith
    | decode_key _ _ _ _ = _ => by eapply wf_decode_key
    | decode_misc _ _ _ _ = _ => by eapply wf_decode_misc
    | context [draw_rows ?n ?i ?x ?y ?c0] =>
        destruct (draw_rows n i x y c0) as [c1| |] eqn:Hloop; branch H;
        injection H as <-; apply wf_advance_pc;
        eapply wf_draw_rows; [| exact Hloop]; auto with wf
    | _ => branch H; injection H as <-; auto 8 with wf
    end.
Qed.

(** ** What no instruction writes *)

Section Frame.

(** [f] reads a part of the machine that none of the fields an instruction
    assigns belongs to. *)
Context {A : Type} (f : Chip8 -> A).
Hypothesis f_mem : forall m c, f (set_mem m c) = f c.
Hypothesis f_pixels : forall p c, f (set_pixels p c) = f c.
Hypothesis f_v_reg : forall v c, f (set_v_reg v c) = f c.
Hypothesis f_delay_timer : forall t c, f (set_delay_timer t c) = f c.
Hypothesis f_sound_timer : forall t c, f (set_sound_timer t c) = f c.
Hypothesis f_sp : forall s c, f (set_sp s c) = f c.
Hypothesis f_stack : forall s c, f (set_stack s c) = f c.
Hypothesis f_pc : forall p c, f (set_pc p c) = f c.
Hypothesis f_i_addr_reg : forall i c, f (set_i_addr_reg i c) = f c.

Ltac frame :=
  unfold skip_if, advance_pc, set_reg, set_pixel;
  repeat match goal with
         | |- context [if ?b then _ else _] => destruct b
         end;
  repeat first [ rewrite f_pc | rewrite f_v_reg | rewrite f_pixels | rewrite f_mem
               | rewrite f_delay_timer | rewrite f_sound_timer | rewrite f_sp
               | rewrite f_stack | rewrite f_i_addr_reg ];
  try reflexivity.

Lemma frame_draw_columns (x y i : Z) (n : nat) :
  forall j sprite_bits c, f (draw_columns n j x y i sprite_bits c) = f c.
Proof.
  induction n as [|n IH]; intros j sprite_bits c; [reflexivity |].
  cbn [draw_columns]. rewrite IH. frame.
Qed.

Lemma frame_draw_rows (x y : Z) (n : nat) :
  forall i c c', draw_rows n i x y c = Done c' -> f c' = f c.
Proof.
  induction n as [|n IH]; intros i c c' H.
  - by injection H as <-.
  - cbn [draw_rows] in H. branch H.
    apply IH in H. rewrite H. apply frame_draw_columns.
Qed.

Lemma frame_wait_key (x : Z) (n : nat) :
  forall i c, f (wait_key n i x c) = f c.
Proof.
  induction n as [|n IH]; intros i c; [reflexivity |].
  cbn [wait_key]. destruct (negb _); [frame | apply IH].
Qed.

Lemma frame_reg_dump (n : nat) :
  forall i c c', reg_dump n i c = Done c' -> f c' = f c.
Proof.
  induction n as [|n IH]; intros i c c' H.
  - by injection H as <-.
  - cbn [reg_dump] in H. branch H. apply IH in H. rewrite H. frame.
Qed.

Lemma frame_reg_load (n : nat) :
  forall i c c', reg_load n i c = Done c' -> f c' = f c.
Proof.
  induction n as [|n IH]; intros i c c' H.
  - by injection H as <-.
  - cbn [reg_load] in H. branch H. apply IH in H. rewrite H. frame.
Qed.

Lemma frame_decode_arith (dbg : bool) (opcode1 opcode2 : Z) (c c' : Chip8) :
  decode_arith dbg opcode1 opcode2 c = Done c' -> f c' = f c.
Proof.
  unfold decode_arith.
  destruct (Z.land opcode2 15) as [|p|p]; [| split_pos |];
    intros H; branch H; injection H as <-; frame.
Qed.

Lemma frame_decode_key (dbg : bool) (opcode1 opcode2 : Z) (c c' : Chip8) :
  decode_key dbg opcode1 opcode2 c = Done c' -> f c' = f c.
Proof.
  unfold decode_key.
  destruct opcode2 as [|p|p]; [| split_pos |];
    intros H; branch H; injection H as <-; frame.
Qed.

Lemma frame_decode_misc (dbg : bool) (opcode1 opcode2 : Z) (c c' : Chip8) :
  decode_misc dbg opcode1 opcode2 c = Done c' -> f c' = f c.
Proof.
  unfold decode_misc.
  destruct opcode2 as [|p|p]; [| split_pos |]; intros H;
    lazymatch type of H with
    | context [reg_load ?n ?i ?c0] =>
        destruct (reg_load n i c0) as [c1| |] eqn:Hloop; branch H;
        injection H as <-; frame; by eapply frame_reg_load
    | context [reg_dump ?n ?i ?c0] =>
        destruct (reg_dump n i c0) as [c1| |] eqn:Hloop; branch H;
        injection H as <-; frame; by eapply frame_reg_dump
    | context [wait_key] => apply Done_inj in H; subst c'; apply frame_wait_key
    | _ => branch H; injection H as <-; frame
    end.
Qed.

Lemma frame_decode (dbg : bool) (rnd opcode1 opcode2 : Z) (c c' : Chip8) :
  decode_instruction dbg rnd opcode1 opcode2 c = Done c' -> f c' = f c.
Proof.
  unfold decode_instruction.
  destruct (Z.shiftr opcode1 4) as [|p|p]; [| split_pos |]; intros H;
    lazymatch type of H with
    | decode_arith _ _ _ _ = _ => by eapply frame_decode_arith
    | decode_key _ _ _ _ = _ => by eapply frame_decode_key
    | decode_misc _ _ _ _ = _ => by eapply frame_decode_misc
    | context [draw_rows ?n ?i ?x ?y ?c0] =>
        destruct (draw_rows n i x y c0) as [c1| |] eqn:Hloop; branch H;
        injection H as <-; frame;
        apply frame_draw_rows in Hloop; rewrite Hloop; frame
    | _ => branch H; injection H as <-; frame
    end.
Qed.

End Frame.

(** ** Properties of the whole machine *)

Lemma wf_execute_cycle (dbg : bool) (rnd : Z) (c c' : Chip8) (n : Z) :
  wf c -> execute_cycle dbg rnd c = Done (c', n) -> wf c'.
Proof.
  intros Hc. unfold execute_cycle.
  destruct (fetch c) as [[opcode1 opcode2]| |] eqn:Hf; try discriminate.
  cbn [obind fst snd].
  destruct (decode_instruction dbg rnd opcode1 opcode2 c) as [c1| |] eqn:Hd;
    try discriminate.
  cbn [obind]. intros [= <- <-].
  apply fetch_Done in Hf as (_ & _ & _ & ->).
  apply wf_set_cycle_count; [| apply is_u64_u64].
  eapply wf_decode; [exact Hc | | exact Hd]. by apply mem_u8.
Qed.

(** X1: every instruction keeps the machine inside its types.  From a
    machine whose arrays have their declared sizes and whose fields fit
    their widths, any number of steps that return, whatever [rand()]
    returns, leave such a machine. *)
Theorem run_keeps_wf (dbg : bool) (rnds : list Z) :
  forall c c', wf c -> run_with dbg rnds c = Done c' -> wf c'.
Proof.
  induction rnds as [|rnd rnds IH]; intros c c' Hc Hrun.
  - by injection Hrun as <-.
  - cbn [run_with] in Hrun.
    destruct (execute_cycle dbg rnd c) as [[c1 n]| |] eqn:Hstep; try discriminate.
    cbn [obind fst] in Hrun.
    eapply IH; [| exact Hrun]. eapply wf_execute_cycle; eassumption.
Qed.

Lemma run_keeps_wf_witness :
  exists c', run_with false [3; 4] (loaded [0xC0; 0xFF; 0x80; 0x04]) = Done c' /\ wf c'.
Proof.
  eexists. split; [vm_compute; reflexivity |].
  apply (run_keeps_wf false [3; 4] (loaded [0xC0; 0xFF; 0x80; 0x04])).
  - apply wfb_wf. by vm_compute.
  - vm_compute. reflexivity.
Defined.

Lemma execute_cycle_fields (dbg : bool) (rnd : Z) (c c' : Chip8) (n : Z) :
  execute_cycle dbg rnd c = Done (c', n) ->
  keys c' = keys c /\ program_size c' = program_size c /\
  cycle_count c' = u64 (cycle_count c + 1) /\ n = cycle_count c'.
Proof.
  unfold execute_cycle.
  destruct (fetch c) as [[opcode1 opcode2]| |] eqn:Hf; try discriminate.
  cbn [obind fst snd].
  destruct (decode_instruction dbg rnd opcode1 opcode2 c) as [c1| |] eqn:Hd;
    try discriminate.
  cbn [obind]. intros [= <- <-]. fields.
  assert (Hk : keys c1 = keys c)
    by (eapply (frame_decode keys); [.. | exact Hd]; intros; reflexivity).
  assert (Hp : program_size c1 = program_size c)
    by (eapply (frame_decode program_size); [.. | exact Hd]; intros; reflexivity).
  assert (Hn : cycle_count c1 = cycle_count c)
    by (eapply (frame_decode cycle_count); [.. | exact Hd]; intros; reflexivity).
  by rewrite Hk, Hp, Hn.
Qed.

(** X2: no instruction writes the key buffer or the recorded program size,
    and the cycle count goes up by exactly one for each step: after [n]
    steps that return it is [n] more than before, as long as that fits 64
    bits. *)
Theorem steps_count_cycles (dbg : bool) (rnds : list Z) :
  forall c c',
    0 <= cycle_count c ->
    cycle_count c + Z.of_nat (length rnds) < 18446744073709551616 ->
    run_with dbg rnds c = Done c' ->
    cycle_count c' = cycle_count c + Z.of_nat (length rnds) /\
    keys c' = keys c /\ program_size c' = program_size c.
Proof.
  induction rnds as [|rnd rnds IH]; intros c c' Hlo Hhi Hrun.
  - injection Hrun as <-. simpl. repeat split. lia.
  - cbn [run_with] in Hrun.
    destruct (execute_cycle dbg rnd c) as [[c1 n]| |] eqn:Hstep; try discriminate.
    cbn [obind fst] in Hrun.
    apply execute_cycle_fields in Hstep as (Hk & Hp & Hcc & _).
    simpl length in Hhi.
    assert (Hcc1 : cycle_count c1 = cycle_count c + 1).
    { rewrite Hcc. unfold u64. apply Z.mod_small. lia. }
    destruct (IH c1 c') as (Hn & Hk' & Hp'); [lia | lia | exact Hrun |].
    simpl length. repeat split; [lia | congruence | congruence].
Qed.

Lemma steps_count_cycles_witness :
  exists c', run_with false [0; 0] (loaded [0x60; 0x05; 0x70; 0x01]) = Done c' /\
             cycle_count c' = 2.
Proof.
  eexists. split; [vm_compute; reflexivity |].
  apply (steps_count_cycles false [0; 0] (loaded [0x60; 0x05; 0x70; 0x01]));
    [by vm_compute | by vm_compute | vm_compute; reflexivity].
Defined.

(** ** Timers *)

Lemma update_timers_eq (c : Chip8) :
  0 <= delay_timer c -> 0 <= sound_timer c ->
  update_timers c =
  set_sound_timer (Z.max 0 (sound_timer c - 1))
    (set_delay_timer (Z.max 0 (delay_timer c - 1)) c).
Proof.
  intros Hd Hs. unfold update_timers. destruct c as [m p v d s k sp0 st pc0 i ps cc].
  fields.
  destruct (Z.gtb_spec d 0); fields; destruct (Z.gtb_spec s 0);
    unfold set_sound_timer, set_delay_timer; fields; f_equal; lia.
Qed.

(** X3: the timers count down to zero and stay there.  After [n] calls of
    [update_timers] each timer is its old value less [n], or 0 if that would
    be negative; the two are independent and nothing else changes. *)
Theorem tick_floor (n : nat) :
  forall c,
    0 <= delay_timer c -> 0 <= sound_timer c ->
    tick n c =
    set_sound_timer (Z.max 0 (sound_timer c - Z.of_nat n))
      (set_delay_timer (Z.max 0 (delay_timer c - Z.of_nat n)) c).
Proof.
  induction n as [|n IH]; intros c Hd Hs.
  - destruct c. unfold set_sound_timer, set_delay_timer. fields. cbn [tick].
    f_equal; lia.
  - cbn [tick]. rewrite update_timers_eq by done.
    rewrite IH by (fields; lia).
    destruct c. unfold set_sound_timer, set_delay_timer. fields. f_equal; lia.
Qed.

Lemma tick_floor_witness :
  delay_timer (tick 5 (set_delay_timer 3 fresh)) = 0.
Proof.
  rewrite (tick_floor 5 (set_delay_timer 3 fresh)); [reflexivity | simpl; lia | simpl; lia].
Defined.

(** ** Subroutines *)

Lemma decode_return (dbg : bool) (rnd : Z) (c : Chip8) :
  decode_instruction dbg rnd 0x00 0xEE c =
  (ret <- arr_read STACK_SIZE (stack c) (u8 (sp c - 1)) ;;
   Done (set_pc ret (set_sp (u8 (sp c - 1)) c))).
Proof. reflexivity. Qed.

(** X4: a call and the return that matches it.  2NNN with room on the
    stack jumps to NNN; when a later 00EE finds the stack and its pointer as
    the call left them, it puts PC at the call site plus 2, sets the stack
    pointer back to its value before the call, and changes nothing else. *)
Theorem call_then_return (dbg : bool) (rnd : Z) (c : Chip8) (opcode1 opcode2 : Z) :
  Z.shiftr opcode1 4 = 0x02 ->
  0 <= sp c < STACK_SIZE ->
  length (stack c) = 16%nat ->
  exists c1,
    decode_instruction dbg rnd opcode1 opcode2 c = Done c1 /\
    pc c1 = nnn opcode1 opcode2 /\
    forall c2,
      stack c2 = stack c1 -> sp c2 = sp c1 ->
      decode_instruction dbg rnd 0x00 0xEE c2 =
      Done (set_pc (u16 (pc c + 2)) (set_sp (sp c) c2)).
Proof.
  intros Hop Hsp Hlen. unfold STACK_SIZE in Hsp.
  eexists. split; [by apply decode_call |]. split; [reflexivity |].
  intros c2 Hstack Hsp2. fields.
  rewrite decode_return, Hsp2, Hstack.
  replace (u8 (sp c + 1 - 1)) with (sp c) by (rewrite u8_small; lia).
  rewrite arr_read_in by (unfold STACK_SIZE; lia). cbn [obind].
  rewrite arr_get_set_eq by lia. reflexivity.
Qed.

Lemma call_then_return_witness :
  exists c1,
    decode_instruction false 0 0x23 0x45 fresh = Done c1 /\
    decode_instruction false 0 0x00 0xEE c1 = Done (set_pc 0x202 (set_sp 0 c1)).
Proof.
  destruct (call_then_return false 0 fresh 0x23 0x45) as (c1 & Hcall & _ & Hret).
  - reflexivity.
  - unfold STACK_SIZE. simpl. lia.
  - reflexivity.
  - exists c1. split; [exact Hcall |]. by apply Hret.
Defined.

(** X5: when a return is out of bounds.  00EE decrements the 8-bit stack
    pointer before it reads [stack[sp]], so with a stack pointer that fits 8
    bits the read is outside the 16-entry stack exactly when the pointer is
    0 (it wraps to 255) or above 16; a return with nothing on the stack is
    not caught. *)
Theorem return_out_of_bounds (dbg : bool) (rnd : Z) (c : Chip8) :
  is_u8 (sp c) ->
  (decode_instruction dbg rnd 0x00 0xEE c = Undefined <-> sp c = 0 \/ 16 < sp c).
Proof.
  unfold is_u8. intros Hsp. rewrite decode_return.
  destruct (Z.eq_dec (sp c) 0) as [H0|H0].
  - rewrite H0. split; [by left | intros _]. reflexivity.
  - rewrite u8_small by lia. unfold arr_read, STACK_SIZE.
    destruct (Z.leb_spec 0 (sp c - 1)); [| lia].
    destruct (Z.ltb_spec (sp c - 1) 16); cbn [andb obind]; split;
      (discriminate || lia || done || (intros; right; lia)).
Qed.

Lemma return_out_of_bounds_witness :
  decode_instruction false 0 0x00 0xEE fresh = Undefined.
Proof.
  apply (return_out_of_bounds false 0 fresh); [unfold is_u8; simpl; lia | by left].
Defined.

(** ** Instructions that write memory through I *)

Lemma arr_get_set (l : list Z) (i j v : Z) :
  0 <= i -> 0 <= j -> (Z.to_nat i < length l)%nat ->
  arr_get (arr_set l i v) j = if j =? i then v else arr_get l j.
Proof.
  intros Hi Hj Hlen. destruct (Z.eqb_spec j i) as [->|Hne].
  - by apply arr_get_set_eq.
  - apply arr_get_set_ne; lia.
Qed.

Lemma decode_fx33 (dbg : bool) (rnd : Z) (c : Chip8) (opcode1 : Z) :
  Z.shiftr opcode1 4 = 0x0F ->
  decode_instruction dbg rnd opcode1 0x33 c =
  (let value := reg c (Z.land opcode1 0x0F) in
   m1 <- arr_write MEM_SIZE (mem c) (i_addr_reg c) (value / 100) ;;
   m2 <- arr_write MEM_SIZE m1 (i_addr_reg c + 1) ((value mod 100) / 10) ;;
   m3 <- arr_write MEM_SIZE m2 (i_addr_reg c + 2) (value mod 10) ;;
   Done (advance_pc (set_mem m3 c))).
Proof. intros Hop. unfold decode_instruction. rewrite Hop. reflexivity. Qed.

(** X6: FX33 stores Vx in decimal.  With I, I+1, I+2 inside memory the three
    bytes written are digits 0..9 whose value as hundreds, tens and ones is
    Vx; the rest of memory, the registers and I stay as they were.  When
    I+2 is past the end of memory the write is out of bounds. *)
Theorem fx33_decimal_digits (dbg : bool) (rnd : Z) (c : Chip8) (opcode1 : Z) :
  Z.shiftr opcode1 4 = 0x0F ->
  length (mem c) = 4096%nat ->
  is_u8 (reg c (Z.land opcode1 0x0F)) ->
  0 <= i_addr_reg c ->
  (i_addr_reg c + 2 < MEM_SIZE ->
   exists c',
     decode_instruction dbg rnd opcode1 0x33 c = Done c' /\
     100 * arr_get (mem c') (i_addr_reg c)
       + 10 * arr_get (mem c') (i_addr_reg c + 1)
       + arr_get (mem c') (i_addr_reg c + 2) = reg c (Z.land opcode1 0x0F) /\
     (forall k, 0 <= k <= 2 -> 0 <= arr_get (mem c') (i_addr_reg c + k) <= 9) /\
     (forall a, 0 <= a -> a < i_addr_reg c \/ i_addr_reg c + 2 < a ->
                arr_get (mem c') a = arr_get (mem c) a) /\
     v_reg c' = v_reg c /\ i_addr_reg c' = i_addr_reg c) /\
  (MEM_SIZE <= i_addr_reg c + 2 ->
   decode_instruction dbg rnd opcode1 0x33 c = Undefined).
Proof.
  intros Hop Hlen Hv HI. rewrite decode_fx33 by exact Hop. cbv zeta.
  set (v := reg c (Z.land opcode1 15)) in *. set (I := i_addr_reg c) in *.
  unfold is_u8 in Hv. unfold MEM_SIZE. split.
  - intros Hin. repeat (rewrite arr_write_in by (unfold MEM_SIZE; lia); cbn [obind]).
    eexists. split; [reflexivity |]. unfold advance_pc. fields.
    assert (H0 : arr_get (arr_set (arr_set (arr_set (mem c) I (v / 100)) (I + 1)
                            (v mod 100 / 10)) (I + 2) (v mod 10)) I = v / 100).
    { rewrite !arr_get_set by (rewrite ?arr_set_length; lia).
      destruct (Z.eqb_spec I (I + 2)); [lia |].
      destruct (Z.eqb_spec I (I + 1)); [lia |]. by rewrite Z.eqb_refl. }
    assert (H1 : arr_get (arr_set (arr_set (arr_set (mem c) I (v / 100)) (I + 1)
                            (v mod 100 / 10)) (I + 2) (v mod 10)) (I + 1)
                 = v mod 100 / 10).
    { rewrite !arr_get_set by (rewrite ?arr_set_length; lia).
      destruct (Z.eqb_spec (I + 1) (I + 2)); [lia |]. by rewrite Z.eqb_refl. }
    assert (H2 : arr_get (arr_set (arr_set (arr_set (mem c) I (v / 100)) (I + 1)
                            (v mod 100 / 10)) (I + 2) (v mod 10)) (I + 2)
                 = v mod 10).
    { rewrite arr_get_set_eq; [done | rewrite !arr_set_length; lia]. }
    split; [| split; [| split; [| done]]].
    + rewrite H0, H1, H2. Z.div_mod_to_equations. lia.
    + intros k Hk.
      assert (Hcases : k = 0 \/ k = 1 \/ k = 2) by lia.
      destruct Hcases as [-> | [-> | ->]]; rewrite ?Z.add_0_r, ?H0, ?H1, ?H2;
        Z.div_mod_to_equations; lia.
    + intros a Ha Hout.
      rewrite !arr_get_set by (rewrite ?arr_set_length; lia).
      destruct (Z.eqb_spec a (I + 2)); [lia |].
      destruct (Z.eqb_spec a (I + 1)); [lia |].
      destruct (Z.eqb_spec a I); [lia | reflexivity].
  - intros Hout.
    destruct (Z.lt_ge_cases I 4096) as [HI0|HI0];
      [| by rewrite arr_write_out by (unfold MEM_SIZE; lia)].
    rewrite arr_write_in by (unfold MEM_SIZE; lia). cbn [obind].
    destruct (Z.lt_ge_cases (I + 1) 4096) as [HI1|HI1];
      [| by rewrite arr_write_out by (unfold MEM_SIZE; lia)].
    rewrite arr_write_in by (unfold MEM_SIZE; lia). cbn [obind].
    by rewrite arr_write_out by (unfold MEM_SIZE; lia).
Qed.

Lemma fx33_decimal_digits_witness :
  decode_instruction false 0 0xF0 0x33 (set_i_addr_reg 4094 fresh) = Undefined.
Proof.
  apply (fx33_decimal_digits false 0 (set_i_addr_reg 4094 fresh) 0xF0).
  - reflexivity.
  - reflexivity.
  - unfold is_u8. by vm_compute.
  - simpl. lia.
  - unfold MEM_SIZE. simpl. lia.
Defined.

Lemma reg_dump_spec (n : nat) :
  forall i c,
    0 <= i -> 0 <= i_addr_reg c ->
    i_addr_reg c + i + Z.of_nat n <= MEM_SIZE ->
    length (mem c) = 4096%nat ->
    exists m,
      reg_dump n i c = Done (set_mem m c) /\
      length m = 4096%nat /\
      forall a, 0 <= a ->
        arr_get m a =
        if (i_addr_reg c + i <=? a) && (a <? i_addr_reg c + i + Z.of_nat n)
        then reg c (a - i_addr_reg c) else arr_get (mem c) a.
Proof.
  induction n as [|n IH]; intros i c Hi HI Hin Hlen.
  - exists (mem c). split; [by destruct c |]. split; [done |].
    intros a Ha.
    destruct (Z.leb_spec (i_addr_reg c + i) a),
             (Z.ltb_spec a (i_addr_reg c + i + Z.of_nat 0)); cbn [andb]; (lia || done).
  - cbn [reg_dump]. unfold MEM_SIZE in Hin.
    rewrite arr_write_in by (unfold MEM_SIZE; lia). cbn [obind].
    destruct (IH (i + 1) (set_mem (arr_set (mem c) (i_addr_reg c + i) (reg c i)) c))
      as (m & Hrun & Hm & Hget).
    + lia.
    + exact HI.
    + fields. unfold MEM_SIZE. lia.
    + fields. by rewrite arr_set_length.
    + exists m. split; [exact Hrun |]. split; [exact Hm |].
      intros a Ha. rewrite Hget by done. unfold reg. fields.
      rewrite arr_get_set by lia.
      destruct (Z.eqb_spec a (i_addr_reg c + i)) as [Heq|Hne];
        destruct (Z.leb_spec (i_addr_reg c + (i + 1)) a),
                 (Z.ltb_spec a (i_addr_reg c + (i + 1) + Z.of_nat n)),
                 (Z.leb_spec (i_addr_reg c + i) a),
                 (Z.ltb_spec a (i_addr_reg c + i + Z.of_nat (S n)));
        cbn [andb]; try lia; try reflexivity.
      f_equal. lia.
Qed.

Lemma reg_load_spec (n : nat) :
  forall i c,
    0 <= i -> i + Z.of_nat n <= 16 -> 0 <= i_addr_reg c ->
    i_addr_reg c + i + Z.of_nat n <= MEM_SIZE ->
    length (v_reg c) = 16%nat ->
    exists v,
      reg_load n i c = Done (set_v_reg v c) /\
      length v = 16%nat /\
      forall r, 0 <= r ->
        arr_get v r =
        if (i <=? r) && (r <? i + Z.of_nat n)
        then arr_get (mem c) (i_addr_reg c + r) else reg c r.
Proof.
  induction n as [|n IH]; intros i c Hi Hn HI Hin Hlen.
  - exists (v_reg c). split; [by destruct c |]. split; [done |].
    intros r Hr.
    destruct (Z.leb_spec i r), (Z.ltb_spec r (i + Z.of_nat 0)); cbn [andb]; (lia || done).
  - cbn [reg_load]. unfold MEM_SIZE in Hin.
    rewrite arr_read_in by (unfold MEM_SIZE; lia). cbn [obind].
    destruct (IH (i + 1) (set_reg i (arr_get (mem c) (i_addr_reg c + i)) c))
      as (v & Hrun & Hv & Hget).
    + lia.
    + lia.
    + exact HI.
    + fields. unfold MEM_SIZE. lia.
    + fields. by rewrite arr_set_length.
    + exists v. split; [exact Hrun |]. split; [exact Hv |].
      intros r Hr. rewrite Hget by done. unfold reg. fields.
      rewrite arr_get_set by lia.
      destruct (Z.eqb_spec r i) as [Heq|Hne];
        destruct (Z.leb_spec (i + 1) r), (Z.ltb_spec r (i + 1 + Z.of_nat n)),
                 (Z.leb_spec i r), (Z.ltb_spec r (i + Z.of_nat (S n)));
        cbn [andb]; try lia; try reflexivity.
      by rewrite Heq.
Qed.

Lemma decode_fx55 (dbg : bool) (rnd : Z) (c : Chip8) (opcode1 : Z) :
  Z.shiftr opcode1 4 = 0x0F ->
  decode_instruction dbg rnd opcode1 0x55 c =
  (c1 <- reg_dump (S (Z.to_nat (Z.land opcode1 0x0F))) 0 c ;; Done (advance_pc c1)).
Proof. intros Hop. unfold decode_instruction. rewrite Hop. reflexivity. Qed.

Lemma decode_fx65 (dbg : bool) (rnd : Z) (c : Chip8) (opcode1 : Z) :
  Z.shiftr opcode1 4 = 0x0F ->
  decode_instruction dbg rnd opcode1 0x65 c =
  (c1 <- reg_load (S (Z.to_nat (Z.land opcode1 0x0F))) 0 c ;; Done (advance_pc c1)).
Proof. intros Hop. unfold decode_instruction. rewrite Hop. reflexivity. Qed.

(** X7: FX55 and FX65 are inverse on V0..Vx.  FX55 writes V0..Vx to
    mem[I .. I+x], touching no other byte, no register and not I; an FX65
    with the same X, run later on that memory with I where it was, gives
    V0..Vx the values they had at the FX55 and leaves the registers above
    Vx, memory and I alone. *)
Theorem dump_then_load (dbg : bool) (rnd : Z) (c : Chip8) (opcode1 : Z) :
  Z.shiftr opcode1 4 = 0x0F ->
  length (mem c) = 4096%nat ->
  let x := Z.land opcode1 0x0F in
  0 <= i_addr_reg c -> i_addr_reg c + x < MEM_SIZE ->
  exists c1,
    decode_instruction dbg rnd opcode1 0x55 c = Done c1 /\
    (forall r, 0 <= r <= x -> arr_get (mem c1) (i_addr_reg c + r) = reg c r) /\
    (forall a, 0 <= a -> a < i_addr_reg c \/ i_addr_reg c + x < a ->
               arr_get (mem c1) a = arr_get (mem c) a) /\
    v_reg c1 = v_reg c /\ i_addr_reg c1 = i_addr_reg c /\
    forall c2,
      mem c2 = mem c1 -> i_addr_reg c2 = i_addr_reg c ->
      length (v_reg c2) = 16%nat ->
      exists c3,
        decode_instruction dbg rnd opcode1 0x65 c2 = Done c3 /\
        (forall r, 0 <= r <= x -> reg c3 r = reg c r) /\
        (forall r, x < r < 16 -> reg c3 r = reg c2 r) /\
        mem c3 = mem c2 /\ i_addr_reg c3 = i_addr_reg c.
Proof.
  intros Hop Hlen x HI Hin.
  pose proof (nibble_range opcode1) as Hx. fold x in Hx. unfold MEM_SIZE in Hin.
  rewrite decode_fx55 by exact Hop. fold x.
  destruct (reg_dump_spec (S (Z.to_nat x)) 0 c) as (m & Hrun & Hm & Hget);
    [lia | exact HI | unfold MEM_SIZE; lia | exact Hlen |].
  rewrite Hrun. cbn [obind]. eexists. split; [reflexivity |].
  unfold advance_pc. fields.
  assert (Hdumped : forall r, 0 <= r <= x -> arr_get m (i_addr_reg c + r) = reg c r).
  { intros r Hr. rewrite Hget by lia.
    destruct (Z.leb_spec (i_addr_reg c + 0) (i_addr_reg c + r)),
             (Z.ltb_spec (i_addr_reg c + r)
                         (i_addr_reg c + 0 + Z.of_nat (S (Z.to_nat x))));
      cbn [andb]; try lia. f_equal. lia. }
  split; [exact Hdumped |]. split; [| split; [done | split; [done |]]].
  - intros a Ha Hout. rewrite Hget by done.
    destruct (Z.leb_spec (i_addr_reg c + 0) a),
             (Z.ltb_spec a (i_addr_reg c + 0 + Z.of_nat (S (Z.to_nat x))));
      cbn [andb]; (lia || done).
  - intros c2 Hmem2 HI2 Hlen2.
    rewrite decode_fx65 by exact Hop. fold x.
    destruct (reg_load_spec (S (Z.to_nat x)) 0 c2) as (v & Hload & Hv & Hgetv);
      [lia | lia | lia | rewrite HI2; unfold MEM_SIZE; lia | exact Hlen2 |].
    rewrite Hload. cbn [obind]. eexists. split; [reflexivity |].
    unfold advance_pc, reg. fields.
    split; [| split; [| split; [done | done]]].
    + intros r Hr. rewrite Hgetv by lia.
      destruct (Z.leb_spec 0 r), (Z.ltb_spec r (0 + Z.of_nat (S (Z.to_nat x))));
        cbn [andb]; try lia.
      rewrite Hmem2, HI2. fields. by apply Hdumped.
    + intros r Hr. rewrite Hgetv by lia.
      destruct (Z.leb_spec 0 r), (Z.ltb_spec r (0 + Z.of_nat (S (Z.to_nat x))));
        cbn [andb]; (lia || done).
Qed.

Lemma dump_then_load_witness :
  exists c1,
    decode_instruction false 0 0xF3 0x55 (set_i_addr_reg 0x300 fresh) = Done c1 /\
    i_addr_reg c1 = 0x300.
Proof.
  destruct (dump_then_load false 0 (set_i_addr_reg 0x300 fresh) 0xF3)
    as (c1 & Hrun & _ & _ & _ & HI & _).
  - reflexivity.
  - reflexivity.
  - by vm_compute.
  - by vm_compute.
  - exists c1. split; [exact Hrun | exact HI].
Defined.

(** ** Arithmetic and its flag *)

Lemma reg_set_reg (c : Chip8) (x v r : Z) :
  length (v_reg c) = 16%nat -> 0 <= x < 16 -> 0 <= r ->
  reg (set_reg x v c) r = if r =? x then v else reg c r.
Proof.
  intros Hlen Hx Hr. unfold reg. fields. apply arr_get_set; lia.
Qed.

Lemma land_255 (a : Z) : Z.land a 255 = a mod 256.
Proof. change 255 with (Z.ones 8). by rewrite Z.land_ones by lia. Qed.

Lemma reg_advance_pc (c : Chip8) (r : Z) : reg (advance_pc c) r = reg c r.
Proof. reflexivity. Qed.

Lemma set_reg_length (c : Chip8) (x v : Z) :
  length (v_reg (set_reg x v c)) = length (v_reg c).
Proof. fields. apply arr_set_length. Qed.

Lemma decode_8xyn (dbg : bool) (rnd : Z) (c : Chip8) (opcode1 opcode2 : Z) :
  Z.shiftr opcode1 4 = 0x08 ->
  decode_instruction dbg rnd opcode1 opcode2 c = decode_arith dbg opcode1 opcode2 c.
Proof. intros Hop. unfold decode_instruction. by rewrite Hop. Qed.

(** X8: 8XY4 adds with carry.  For X other than F the sum Vx + Vy is kept
    whole in the pair (VF, Vx): Vx holds its low 8 bits and VF is the carry,
    0 or 1.  For X = F the flag is written first and the low byte of the sum
    then replaces it, so the carry is lost.  No other register changes. *)
Theorem add_with_carry (dbg : bool) (rnd : Z) (c : Chip8) (opcode1 opcode2 : Z) :
  Z.shiftr opcode1 4 = 0x08 ->
  Z.land opcode2 0x0F = 0x04 ->
  length (v_reg c) = 16%nat ->
  let x := Z.land opcode1 0x0F in
  let y := Z.shiftr opcode2 4 in
  is_u8 (reg c x) -> is_u8 (reg c y) ->
  exists c',
    decode_instruction dbg rnd opcode1 opcode2 c = Done c' /\
    (x <> 15 ->
     reg c' x + 256 * reg c' 15 = reg c x + reg c y /\
     is_u8 (reg c' x) /\ (reg c' 15 = 0 \/ reg c' 15 = 1)) /\
    (x = 15 -> reg c' 15 = (reg c 15 + reg c y) mod 256) /\
    (forall r, 0 <= r < 15 -> r <> x -> reg c' r = reg c r).
Proof.
  intros Hop Hn Hlen x y Hx Hy.
  pose proof (nibble_range opcode1) as Hxr. fold x in Hxr.
  rewrite decode_8xyn by exact Hop. unfold decode_arith. rewrite Hn.
  fold x y. cbv zeta. eexists. split; [reflexivity |].
  unfold is_u8 in *.
  assert (Hres : u16 (reg c x + reg c y) = reg c x + reg c y)
    by (apply u16_small; lia).
  rewrite Hres, land_255.
  set (s := reg c x + reg c y) in *.
  rewrite !reg_advance_pc.
  assert (Hread : forall r, 0 <= r ->
            reg (set_reg x (s mod 256) (set_reg 15 (Z.b2z (s >? 255)) c)) r =
            if r =? x then s mod 256
            else if r =? 15 then Z.b2z (s >? 255) else reg c r).
  { intros r Hr. rewrite !reg_set_reg by (rewrite ?set_reg_length; lia). done. }
  split; [| split].
  - intros Hne. rewrite !Hread by lia. rewrite Z.eqb_refl.
    destruct (Z.eqb_spec 15 x) as [|_]; [lia |]. rewrite Z.eqb_refl.
    destruct (Z.gtb_spec s 255); cbn [Z.b2z];
      repeat split; try (Z.div_mod_to_equations; lia); auto.
  - intros Heq. rewrite Hread by lia. rewrite Heq, Z.eqb_refl.
    unfold s. by rewrite Heq.
  - intros r Hr Hne. rewrite reg_advance_pc, Hread by lia.
    destruct (Z.eqb_spec r x); [lia |]. destruct (Z.eqb_spec r 15); [lia | done].
Qed.

Lemma add_with_carry_witness :
  exists c',
    decode_instruction false 0 0x80 0x14 (set_reg 1 1 (set_reg 0 0xFF fresh)) = Done c' /\
    reg c' 0 = 0 /\ reg c' 15 = 1.
Proof.
  destruct (add_with_carry false 0 (set_reg 1 1 (set_reg 0 0xFF fresh)) 0x80 0x14)
    as (c' & Hrun & Hsum & _).
  - reflexivity.
  - reflexivity.
  - reflexivity.
  - unfold is_u8. by vm_compute.
  - unfold is_u8. by vm_compute.
  - exists c'. split; [exact Hrun |].
    destruct Hsum as (Hsum & Hlow & Hflag); [by vm_compute |].
    change (reg c' 0 + 256 * reg c' 15 = 256) in Hsum.
    change (is_u8 (reg c' 0)) in Hlow. unfold is_u8 in Hlow. lia.
Defined.

Lemma high_nibble_of_byte (opcode2 : Z) : is_u8 opcode2 -> 0 <= Z.shiftr opcode2 4 < 16.
Proof.
  unfold is_u8. intros H. rewrite Z.shiftr_div_pow2 by lia.
  change (2 ^ 4) with 16. Z.div_mod_to_equations. lia.
Qed.

(** X9: 8XY5 and 8XY7 subtract with a strict flag.  For X and Y other than
    F, 8XY5 leaves Vx - Vy modulo 256 in Vx and VF = 1 exactly when
    Vx > Vy, so equal operands give 0 with VF = 0; 8XY7 does the same for
    Vy - Vx.  VF is written before the operands are read again: with Y = F
    8XY5 subtracts the new flag, not the old VF. *)
Theorem subtract_with_flag (dbg : bool) (rnd : Z) (c : Chip8) (opcode1 opcode2 : Z) :
  Z.shiftr opcode1 4 = 0x08 ->
  is_u8 opcode2 ->
  length (v_reg c) = 16%nat ->
  let x := Z.land opcode1 0x0F in
  let y := Z.shiftr opcode2 4 in
  is_u8 (reg c x) -> is_u8 (reg c y) -> x <> 15 ->
  (Z.land opcode2 0x0F = 0x05 ->
   exists c',
     decode_instruction dbg rnd opcode1 opcode2 c = Done c' /\
     (y <> 15 ->
      reg c' x = (reg c x - reg c y) mod 256 /\
      reg c' 15 = (if reg c y <? reg c x then 1 else 0)) /\
     (y = 15 ->
      reg c' 15 = (if reg c 15 <? reg c x then 1 else 0) /\
      reg c' x = (reg c x - reg c' 15) mod 256)) /\
  (Z.land opcode2 0x0F = 0x07 ->
   exists c',
     decode_instruction dbg rnd opcode1 opcode2 c = Done c' /\
     (y <> 15 ->
      reg c' x = (reg c y - reg c x) mod 256 /\
      reg c' 15 = (if reg c x <? reg c y then 1 else 0))).
Proof.
  intros Hop Hop2 Hlen x y Hx Hy Hne.
  pose proof (nibble_range opcode1) as Hxr. fold x in Hxr.
  pose proof (high_nibble_of_byte opcode2 Hop2) as Hyr. fold y in Hyr.
  rewrite decode_8xyn by exact Hop. unfold decode_arith. fold x y.
  assert (Hread : forall f v r, 0 <= r ->
            reg (advance_pc (set_reg x v (set_reg 15 f c))) r =
            if r =? x then v else if r =? 15 then f else reg c r).
  { intros f v r Hr. rewrite reg_advance_pc.
    rewrite !reg_set_reg by (rewrite ?set_reg_length; lia). done. }
  assert (Hflag : forall f r, 0 <= r ->
            reg (set_reg 15 f c) r = if r =? 15 then f else reg c r).
  { intros f r Hr. apply reg_set_reg; lia. }
  assert (Hgt : forall a b, Z.b2z (a >? b) = if b <? a then 1 else 0).
  { intros a b. rewrite Z.gtb_ltb. by destruct (b <? a). }
  split; intros Hn; rewrite Hn; cbv zeta; (eexists; split; [reflexivity |]).
  - rewrite !Hread, !Hflag by lia. rewrite !Z.eqb_refl. unfold u8.
    destruct (Z.eqb_spec 15 x), (Z.eqb_spec x 15); try lia. rewrite Hgt.
    split.
    + intros Hy15. destruct (Z.eqb_spec y 15); [lia |]. done.
    + intros Hy15. destruct (Z.eqb_spec y 15); [| lia].
      rewrite <- Hy15. done.
  - rewrite !Hread, !Hflag by lia. rewrite !Z.eqb_refl. unfold u8.
    destruct (Z.eqb_spec 15 x), (Z.eqb_spec x 15); try lia. rewrite Hgt.
    intros Hy15. destruct (Z.eqb_spec y 15); [lia |]. done.
Qed.

Lemma subtract_with_flag_witness :
  exists c',
    decode_instruction false 0 0x80 0x15 (set_reg 1 7 (set_reg 0 7 fresh)) = Done c' /\
    reg c' 0 = 0 /\ reg c' 15 = 0.
Proof.
  destruct (subtract_with_flag false 0 (set_reg 1 7 (set_reg 0 7 fresh)) 0x80 0x15)
    as [Hsub _].
  - reflexivity.
  - unfold is_u8. lia.
  - reflexivity.
  - unfold is_u8. by vm_compute.
  - unfold is_u8. by vm_compute.
  - by vm_compute.
  - destruct Hsub as (c' & Hrun & Hres & _); [reflexivity |].
    exists c'. split; [exact Hrun |]. apply Hres. by vm_compute.
Defined.

(** *** Shifts *)

Lemma byte_cases (P : Z -> bool) :
  forallb P (seqZ 0 256) = true -> forall v, is_u8 v -> P v = true.
Proof.
  rewrite forallb_forall. intros Hall v Hv.
  apply Hall, list_elem_of_In, elem_of_seqZ. unfold is_u8 in Hv. lia.
Qed.

Lemma top_bit_flag (v : Z) : is_u8 v -> Z.b2z (Z.land v 0x80 >? 1) = v / 128.
Proof.
  intros Hv. apply Z.eqb_eq.
  apply (byte_cases (fun v => Z.b2z (Z.land v 0x80 >? 1) =? v / 128)); [| exact Hv].
  by vm_compute.
Qed.

Lemma low_bit_flag (v : Z) : Z.land v 1 = v mod 2.
Proof. change 1 with (Z.ones 1) at 1. by rewrite Z.land_ones by lia. Qed.

(** X10: the shifts act on Vx alone and lose no bit.  For X other than F,
    8XY6 halves Vx and puts the bit shifted out in VF, 8XYE doubles Vx
    modulo 256 and puts the old top bit in VF; Vy is never read.  For X = F
    the flag is written first and then shifted itself: 8FY6 always ends with
    VF = 0 and 8FYE with VF = 0 or 2. *)
Theorem shift_keeps_bits (dbg : bool) (rnd : Z) (c : Chip8) (opcode1 opcode2 : Z) :
  Z.shiftr opcode1 4 = 0x08 ->
  length (v_reg c) = 16%nat ->
  let x := Z.land opcode1 0x0F in
  is_u8 (reg c x) ->
  (Z.land opcode2 0x0F = 0x06 ->
   exists c',
     decode_instruction dbg rnd opcode1 opcode2 c = Done c' /\
     (x <> 15 -> 2 * reg c' x + reg c' 15 = reg c x /\
                 (reg c' 15 = 0 \/ reg c' 15 = 1)) /\
     (x = 15 -> reg c' 15 = 0)) /\
  (Z.land opcode2 0x0F = 0x0E ->
   exists c',
     decode_instruction dbg rnd opcode1 opcode2 c = Done c' /\
     (x <> 15 -> reg c' x + 256 * reg c' 15 = 2 * reg c x /\
                 is_u8 (reg c' x) /\ (reg c' 15 = 0 \/ reg c' 15 = 1)) /\
     (x = 15 -> reg c' 15 = 2 * (reg c 15 / 128))).
Proof.
  intros Hop Hlen x Hx.
  pose proof (nibble_range opcode1) as Hxr. fold x in Hxr.
  rewrite decode_8xyn by exact Hop. unfold decode_arith. fold x.
  assert (Hread : forall f v r, 0 <= r ->
            reg (advance_pc (set_reg x v (set_reg 15 f c))) r =
            if r =? x then v else if r =? 15 then f else reg c r).
  { intros f v r Hr. rewrite reg_advance_pc.
    rewrite !reg_set_reg by (rewrite ?set_reg_length; lia). done. }
  assert (Hflag : forall f r, 0 <= r ->
            reg (set_reg 15 f c) r = if r =? 15 then f else reg c r).
  { intros f r Hr. apply reg_set_reg; lia. }
  split; intros Hn; rewrite Hn; cbv zeta; (eexists; split; [reflexivity |]).
  - rewrite !Hread, !Hflag by lia. rewrite !Z.eqb_refl, low_bit_flag.
    rewrite !Z.shiftr_div_pow2 by lia. change (2 ^ 1) with 2.
    unfold is_u8 in Hx.
    destruct (Z.eqb_spec 15 x), (Z.eqb_spec x 15); try lia; split; try lia; intros _.
    + Z.div_mod_to_equations. lia.
    + split; Z.div_mod_to_equations; lia.
  - rewrite !Hread, !Hflag by lia. rewrite !Z.eqb_refl, top_bit_flag by exact Hx.
    rewrite !Z.shiftl_mul_pow2 by lia. change (2 ^ 1) with 2.
    unfold is_u8 in *. unfold u8.
    destruct (Z.eqb_spec 15 x) as [He|He], (Z.eqb_spec x 15); try lia;
      split; try lia; intros _.
    + rewrite <- He in *. Z.div_mod_to_equations. lia.
    + repeat split; Z.div_mod_to_equations; lia.
Qed.

Lemma shift_keeps_bits_witness :
  exists c',
    decode_instruction false 0 0x8F 0x0E (set_reg 15 0x80 fresh) = Done c' /\
    reg c' 15 = 2.
Proof.
  destruct (shift_keeps_bits false 0 (set_reg 15 0x80 fresh) 0x8F 0x0E) as [_ Hshl].
  - reflexivity.
  - reflexivity.
  - unfold is_u8. by vm_compute.
  - destruct Hshl as (c' & Hrun & _ & Hf); [reflexivity |].
    exists c'. split; [exact Hrun |]. apply Hf. reflexivity.
Defined.

(** ** Random numbers, keys, jumps *)

Lemma decode_cxnn (dbg : bool) (rnd : Z) (c : Chip8) (opcode1 opcode2 : Z) :
  Z.shiftr opcode1 4 = 0x0C ->
  decode_instruction dbg rnd opcode1 opcode2 c =
  Done (advance_pc
          (set_reg (Z.land opcode1 0x0F) (Z.land (Z.rem rnd 256) opcode2) c)).
Proof. intros Hop. unfold decode_instruction. by rewrite Hop. Qed.

(** X11: CXNN never sets a bit outside NN.  Whatever [rand()] returns, the
    new Vx has only bits that NN has and fits 8 bits; for a non-negative
    [rand()] it is the low byte of that value masked by NN.  No other
    register changes. *)
Theorem cxnn_masked (dbg : bool) (rnd : Z) (c : Chip8) (opcode1 opcode2 : Z) :
  Z.shiftr opcode1 4 = 0x0C ->
  length (v_reg c) = 16%nat ->
  is_u8 opcode2 ->
  let x := Z.land opcode1 0x0F in
  exists c',
    decode_instruction dbg rnd opcode1 opcode2 c = Done c' /\
    Z.land (reg c' x) opcode2 = reg c' x /\
    is_u8 (reg c' x) /\
    (0 <= rnd -> reg c' x = Z.land (rnd mod 256) opcode2) /\
    (forall r, 0 <= r -> r <> x -> reg c' r = reg c r).
Proof.
  intros Hop Hlen Hop2 x.
  pose proof (nibble_range opcode1) as Hxr. fold x in Hxr.
  rewrite decode_cxnn by exact Hop. fold x.
  eexists. split; [reflexivity |].
  assert (Hread : forall v r, 0 <= r ->
            reg (advance_pc (set_reg x v c)) r = if r =? x then v else reg c r).
  { intros v r Hr. rewrite reg_advance_pc. apply reg_set_reg; lia. }
  rewrite !Hread by lia. rewrite Z.eqb_refl.
  split; [| split; [| split]].
  - by rewrite <- Z.land_assoc, Z.land_diag.
  - by apply is_u8_land_r.
  - intros Hrnd. by rewrite Z.rem_mod_nonneg by lia.
  - intros r Hr Hne. rewrite Hread by lia.
    destruct (Z.eqb_spec r x); [lia | done].
Qed.

Lemma cxnn_masked_witness :
  exists c',
    decode_instruction false 0x1234 0xC2 0x0F fresh = Done c' /\
    reg c' 2 = 4.
Proof.
  destruct (cxnn_masked false 0x1234 fresh 0xC2 0x0F) as (c' & Hrun & _ & _ & Hv & _).
  - reflexivity.
  - reflexivity.
  - unfold is_u8. lia.
  - exists c'. split; [exact Hrun |]. apply Hv. lia.
Defined.

Lemma decode_ex (dbg : bool) (rnd : Z) (c : Chip8) (opcode1 opcode2 : Z) :
  Z.shiftr opcode1 4 = 0x0E ->
  decode_instruction dbg rnd opcode1 opcode2 c = decode_key dbg opcode1 opcode2 c.
Proof. intros Hop. unfold decode_instruction. by rewrite Hop. Qed.

Lemma skip_if_pc (b : bool) (c : Chip8) :
  0 <= pc c -> pc c + 4 < 65536 ->
  pc (skip_if b c) = pc c + (if b then 4 else 2).
Proof.
  intros Hlo Hhi. unfold skip_if, advance_pc. destruct b; fields.
  - rewrite (u16_small (pc c + 2)) by lia. rewrite u16_small by lia. lia.
  - apply u16_small. lia.
Qed.

(** X12: the key tests index the key buffer with Vx unmasked.  With
    Vx >= 16 both EX9E and EXA1 read outside [keys[16]].  With Vx < 16,
    EX9E skips exactly when the key's entry is 1 and EXA1 exactly when it is
    0, so for an entry that is 0 or 1 exactly one of the two skips. *)
Theorem key_tests (dbg : bool) (rnd : Z) (c : Chip8) (opcode1 : Z) :
  Z.shiftr opcode1 4 = 0x0E ->
  0 <= pc c -> pc c + 4 < 65536 ->
  let k := reg c (Z.land opcode1 0x0F) in
  0 <= k ->
  (NUM_KEYS <= k ->
   decode_instruction dbg rnd opcode1 0x9E c = Undefined /\
   decode_instruction dbg rnd opcode1 0xA1 c = Undefined) /\
  (k < NUM_KEYS ->
   exists c9 ca,
     decode_instruction dbg rnd opcode1 0x9E c = Done c9 /\
     decode_instruction dbg rnd opcode1 0xA1 c = Done ca /\
     pc c9 = pc c + (if arr_get (keys c) k =? 1 then 4 else 2) /\
     pc ca = pc c + (if arr_get (keys c) k =? 0 then 4 else 2) /\
     set_pc (pc c) c9 = c /\ set_pc (pc c) ca = c).
Proof.
  intros Hop Hlo Hhi k Hk. rewrite !decode_ex by exact Hop.
  unfold decode_key. fold k. split.
  - intros Hout. by rewrite arr_read_out.
  - intros Hin. rewrite arr_read_in by lia. cbn [obind].
    do 2 eexists. split; [reflexivity |]. split; [reflexivity |].
    rewrite !skip_if_pc by lia. split; [done |]. split; [done |].
    unfold skip_if, advance_pc.
    destruct c, (_ =? 1), (_ =? 0); split; reflexivity.
Qed.

Lemma key_tests_witness :
  decode_instruction false 0 0xE0 0x9E (set_reg 0 16 fresh) = Undefined.
Proof.
  apply (key_tests false 0 (set_reg 0 16 fresh) 0xE0);
    (reflexivity || by vm_compute).
Defined.

Lemma set_cycle_count_same (c : Chip8) (n : Z) :
  n = cycle_count c -> set_cycle_count n c = c.
Proof. intros ->. by destruct c. Qed.

(** X13: a jump to itself stops the program.  When the opcode at PC is
    1NNN with NNN = PC, any number of steps leaves the whole machine as it
    is except for the cycle count, which counts the steps. *)
Theorem jump_to_self_halts (dbg : bool) (rnds : list Z) :
  forall (c : Chip8) (opcode1 opcode2 : Z),
    fetch c = Done (opcode1, opcode2) ->
    Z.shiftr opcode1 4 = 0x01 ->
    nnn opcode1 opcode2 = pc c ->
    0 <= cycle_count c ->
    cycle_count c + Z.of_nat (length rnds) < 18446744073709551616 ->
    run_with dbg rnds c =
    Done (set_cycle_count (cycle_count c + Z.of_nat (length rnds)) c).
Proof.
  induction rnds as [|rnd rnds IH]; intros c opcode1 opcode2 Hf Hop Hself Hlo Hhi.
  - cbn [run_with]. rewrite set_cycle_count_same; [done | simpl; lia].
  - cbn [run_with]. rewrite (execute_cycle_fetched _ _ _ _ _ Hf).
    unfold decode_instruction. rewrite Hop, Hself. cbn [obind].
    assert (Hsame : set_pc (pc c) c = c) by (by destruct c). rewrite Hsame.
    unfold counted. cbn [fst]. simpl length in Hhi.
    rewrite (u64_small (cycle_count c + 1)) by lia.
    rewrite (IH _ opcode1 opcode2); fields; try done; try lia.
    unfold set_cycle_count. fields. do 2 f_equal. simpl length. lia.
Qed.

Lemma jump_to_self_halts_witness :
  run_with false [0; 0; 0] (loaded [0x12; 0x00]) =
  Done (set_cycle_count 3 (loaded [0x12; 0x00])).
Proof.
  apply (jump_to_self_halts false [0; 0; 0] (loaded [0x12; 0x00]) 0x12 0x00);
    (reflexivity || by vm_compute).
Defined.

(** ** Clearing and drawing *)

Lemma any_from_false (f : Z -> bool) (n : nat) :
  forall j, (forall k, j <= k < j + Z.of_nat n -> f k = false) ->
            any_from n j f = false.
Proof.
  induction n as [|n IH]; intros j Hf; [reflexivity |].
  cbn [any_from]. rewrite Hf by lia. apply IH. intros k Hk. apply Hf. lia.
Qed.

Lemma decode_cls (dbg : bool) (rnd : Z) (c : Chip8) :
  decode_instruction dbg rnd 0x00 0xE0 c =
  Done (advance_pc (set_pixels (replicate 2048 0) c)).
Proof. reflexivity. Qed.

Lemma cleared_pixel (c : Chip8) (qx qy : Z) :
  0 <= qx < WIDTH -> 0 <= qy < HEIGHT ->
  pixel (advance_pc (set_pixels (replicate 2048 0) c)) qx qy = 0.
Proof.
  intros Hqx Hqy. unfold pixel, advance_pc, arr_get. fields.
  pose proof (pixel_index_range qx qy Hqx Hqy).
  apply lookup_total_replicate_2. lia.
Qed.

(** X14: a sprite drawn on a cleared screen shows as it is stored.  After
    00E0 every pixel is off; a DXYN that follows ends with VF = 0, the
    pixels of the sprite's footprint equal to the sprite's bits, and every
    other pixel off. *)
Theorem clear_then_draw (dbg : bool) (rnd : Z) (c : Chip8) (opcode1 opcode2 : Z) :
  Z.shiftr opcode1 4 = 0x0D ->
  length (v_reg c) = 16%nat ->
  let x := reg c (Z.land opcode1 0x0F) in
  let y := reg c (Z.shiftr opcode2 4) in
  let n := Z.land opcode2 0x0F in
  0 <= i_addr_reg c -> i_addr_reg c + n <= MEM_SIZE ->
  (forall row, 0 <= row < n -> is_u8 (arr_get (mem c) (i_addr_reg c + row))) ->
  exists c0 c',
    decode_instruction dbg rnd 0x00 0xE0 c = Done c0 /\
    (forall qx qy, 0 <= qx < WIDTH -> 0 <= qy < HEIGHT -> pixel c0 qx qy = 0) /\
    decode_instruction dbg rnd opcode1 opcode2 c0 = Done c' /\
    reg c' 0x0F = 0 /\
    (forall row col, 0 <= row < n -> 0 <= col < 8 ->
       pixel c' ((x + col) mod WIDTH) ((y + row) mod HEIGHT) = sprite_bit c row col) /\
    (forall qx qy, 0 <= qx < WIDTH -> 0 <= qy < HEIGHT ->
       in_footprint x y n qx qy = false -> pixel c' qx qy = 0).
Proof.
  intros Hop Hlenv x y n HI Hmem Hbytes.
  pose proof (nibble_range opcode2) as Hn. fold n in Hn.
  set (c0 := advance_pc (set_pixels (replicate 2048 0) c)).
  destruct (decode_draw_spec dbg rnd c0 opcode1 opcode2 Hop)
    as (c' & Hrun & _ & _ & Hpix & Hreg).
  - unfold c0, advance_pc. fields. apply length_replicate.
  - exact HI.
  - exact Hmem.
  - exact Hbytes.
  - change (reg c0) with (reg c) in *. fold x y n in Hpix, Hreg.
    exists c0, c'. split; [apply decode_cls |].
    split; [apply cleared_pixel |]. split; [exact Hrun |].
    assert (Hno : collision c0 x y n = false).
    { unfold collision. apply any_from_false. intros row _.
      apply any_from_false. intros col _. unfold turns_off.
      unfold c0. rewrite cleared_pixel by (apply Z.mod_pos_bound; done).
      reflexivity. }
    split; [| split].
    + unfold reg. rewrite Hreg, Hno. apply arr_get_set_eq.
      unfold c0, advance_pc. fields. rewrite Hlenv. simpl. lia.
    + intros row col Hrow Hcol.
      rewrite Hpix by (apply Z.mod_pos_bound; done).
      rewrite in_footprint_at by (unfold HEIGHT; lia).
      rewrite footprint_col_at, footprint_row_at by (unfold WIDTH, HEIGHT; lia).
      unfold c0. rewrite cleared_pixel by (apply Z.mod_pos_bound; done).
      apply Z.lxor_0_r.
    + intros qx qy Hqx Hqy Hout. rewrite Hpix, Hout by done.
      by apply cleared_pixel.
Qed.

Lemma clear_then_draw_witness :
  exists c0 c',
    decode_instruction false 0 0x00 0xE0 (loaded [0xD0; 0x15]) = Done c0 /\
    decode_instruction false 0 0xD0 0x15 c0 = Done c' /\
    reg c' 0x0F = 0.
Proof.
  destruct (clear_then_draw false 0 (loaded [0xD0; 0x15]) 0xD0 0x15)
    as (c0 & c' & Hcls & _ & Hrun & Hvf & _).
  - reflexivity.
  - reflexivity.
  - by vm_compute.
  - by vm_compute.
  - intros row Hrow. change (0 <= row < 5) in Hrow.
    assert (Hcases : row = 0 \/ row = 1 \/ row = 2 \/ row = 3 \/ row = 4) by lia.
    unfold is_u8.
    destruct Hcases as [-> | [-> | [-> | [-> | ->]]]]; by vm_compute.
  - exists c0, c'. repeat split; assumption.
Defined.

(** ** More on the loader *)

Lemma memcpy_above (dst src : list Z) (off a : Z) :
  0 <= off -> Z.of_nat (length src) + off <= a ->
  (Z.to_nat off + length src <= length dst)%nat ->
  arr_get (memcpy dst off src) a = arr_get dst a.
Proof.
  intros Hoff Ha Hlen. unfold memcpy, arr_get.
  rewrite !list_lookup_total_alt.
  rewrite lookup_app_r; rewrite length_take; [| lia].
  rewrite lookup_app_r by lia.
  rewrite lookup_drop. do 2 f_equal. lia.
Qed.

Lemma memcpy_get (dst src : list Z) (off a : Z) :
  0 <= off -> 0 <= a ->
  (Z.to_nat off + length src <= length dst)%nat ->
  arr_get (memcpy dst off src) a =
  if (off <=? a) && (a <? off + Z.of_nat (length src))
  then arr_get src (a - off) else arr_get dst a.
Proof.
  intros Hoff Ha Hlen.
  destruct (Z.leb_spec off a), (Z.ltb_spec a (off + Z.of_nat (length src)));
    cbn [andb].
  - replace a with (off + (a - off)) at 1 by lia.
    apply memcpy_inside; lia.
  - apply memcpy_above; lia.
  - apply memcpy_below; lia.
  - apply memcpy_below; lia.
Qed.

Lemma arr_ext (l1 l2 : list Z) :
  length l1 = length l2 ->
  (forall a, 0 <= a < Z.of_nat (length l1) -> arr_get l1 a = arr_get l2 a) ->
  l1 = l2.
Proof.
  intros Hlen Hget. apply list_eq. intros k.
  destruct (Nat.lt_ge_cases k (length l1)) as [Hk|Hk].
  - destruct (lookup_lt_is_Some_2 l1 k) as [a Ha]; [lia |].
    destruct (lookup_lt_is_Some_2 l2 k) as [b Hb]; [lia |].
    rewrite Ha, Hb. f_equal.
    apply list_lookup_total_correct in Ha, Hb.
    specialize (Hget (Z.of_nat k)). unfold arr_get in Hget.
    rewrite Nat2Z.id in Hget. rewrite <- Ha, <- Hb. apply Hget. lia.
  - rewrite !lookup_ge_None_2; [done | lia | lia].
Qed.

Lemma loaded_memory (bytes : list Z) (c c' : Chip8) (ok : bool) :
  length (mem c) = 4096%nat ->
  read_program_to_mem (Some bytes) c = Done (c', ok) ->
  let data := take (Z.to_nat (u16 (Z.of_nat (length bytes)))) bytes in
  ok = true /\
  Z.of_nat (length data) <= 4096 - 0x200 /\
  c' = set_mem (memcpy (memcpy (mem c) 0 fonts) 0x200 data)
         (set_pc 0x200 (set_program_size (u16 (Z.of_nat (length bytes))) c)) /\
  length (mem c') = 4096%nat /\
  forall a, 0 <= a ->
    arr_get (mem c') a =
    if (0x200 <=? a) && (a <? 0x200 + Z.of_nat (length data))
    then arr_get data (a - 0x200)
    else if a <? 80 then arr_get fonts a else arr_get (mem c) a.
Proof.
  intros Hlen. rewrite read_program_result. unfold MEM_SIZE.
  set (n := u16 (Z.of_nat (length bytes))).
  destruct (Z.leb_spec n (4096 - 512)) as [Hn|]; [| discriminate].
  intros [= <- <-]. cbv zeta.
  assert (Hn0 : 0 <= n) by (unfold n, u16; apply Z.mod_pos_bound; lia).
  assert (Hdata : Z.of_nat (length (take (Z.to_nat n) bytes)) <= 4096 - 512)
    by (rewrite length_take; lia).
  assert (Hfonts : length fonts = 80%nat) by reflexivity.
  assert (Hm1 : length (memcpy (mem c) 0 fonts) = 4096%nat).
  { rewrite memcpy_length; [done | rewrite Hfonts, Hlen; simpl; lia]. }
  split; [done |]. split; [exact Hdata |]. split; [reflexivity |]. fields.
  split; [rewrite memcpy_length; [done | rewrite Hm1; lia] |].
  intros a Ha. rewrite memcpy_get by (rewrite ?Hm1; lia).
  destruct (_ && _); [reflexivity |].
  rewrite memcpy_get by (rewrite ?Hfonts, ?Hlen; simpl; lia).
  rewrite Hfonts. destruct (Z.leb_spec 0 a); [| lia]. cbn [andb].
  replace (a - 0) with a by lia. reflexivity.
Qed.

(** X15: the first instruction is the first two bytes of the image.  After
    a read of an image of 2 to 4096 - 0x200 bytes, the opcode fetched at PC
    is its first byte followed by its second. *)
Theorem load_then_fetch (bytes : list Z) (c : Chip8) :
  length (mem c) = 4096%nat ->
  2 <= Z.of_nat (length bytes) <= 4096 - 0x200 ->
  exists c',
    read_program_to_mem (Some bytes) c = Done (c', true) /\
    fetch c' = Done (arr_get bytes 0, arr_get bytes 1).
Proof.
  intros Hlen Hbytes.
  destruct (read_program_to_mem (Some bytes) c) as [[c' ok]| |] eqn:Hread.
  - destruct (loaded_memory bytes c c' ok Hlen Hread) as (-> & _ & Hc' & _ & Hget).
    exists c'. split; [reflexivity |].
    rewrite (u16_small (Z.of_nat (length bytes))), Nat2Z.id, firstn_all in Hget, Hc'
      by lia.
    assert (Hpc : pc c' = 512) by (by rewrite Hc').
    unfold fetch. rewrite Hpc.
    rewrite !arr_read_in by (unfold MEM_SIZE; lia). cbn [obind].
    rewrite !Hget by lia.
    destruct (Z.leb_spec 512 512), (Z.leb_spec 512 (512 + 1)),
             (Z.ltb_spec 512 (512 + Z.of_nat (length bytes))),
             (Z.ltb_spec (512 + 1) (512 + Z.of_nat (length bytes)));
      cbn [andb]; try lia.
    reflexivity.
  - rewrite read_program_result in Hread.
    rewrite (u16_small (Z.of_nat (length bytes))) in Hread by lia.
    unfold MEM_SIZE in Hread.
    destruct (Z.leb_spec (Z.of_nat (length bytes)) (4096 - 512)); [discriminate | lia].
  - rewrite read_program_result in Hread.
    rewrite (u16_small (Z.of_nat (length bytes))) in Hread by lia.
    unfold MEM_SIZE in Hread.
    destruct (Z.leb_spec (Z.of_nat (length bytes)) (4096 - 512)); [discriminate | lia].
Qed.

Lemma load_then_fetch_witness :
  exists c',
    read_program_to_mem (Some [0xA2; 0xF0; 0x12; 0x00]) fresh = Done (c', true) /\
    fetch c' = Done (0xA2, 0xF0).
Proof.
  apply (load_then_fetch [0xA2; 0xF0; 0x12; 0x00] fresh); [reflexivity | simpl; lia].
Defined.

(** X16: reading the same image again changes nothing.  If a read of an
    image into a machine returns, reading the same image into the result
    returns the same machine. *)
Theorem load_twice (bytes : list Z) (c c' : Chip8) (ok : bool) :
  length (mem c) = 4096%nat ->
  read_program_to_mem (Some bytes) c = Done (c', ok) ->
  read_program_to_mem (Some bytes) c' = Done (c', ok).
Proof.
  intros Hlen Hread.
  destruct (loaded_memory bytes c c' ok Hlen Hread) as (-> & Hdata & Hc' & Hlen' & Hget).
  destruct (read_program_to_mem (Some bytes) c') as [[c2 ok2]| |] eqn:Hread2.
  - destruct (loaded_memory bytes c' c2 ok2 Hlen' Hread2)
      as (-> & _ & Hc2 & Hlen2 & Hget2).
    do 2 f_equal.
    assert (Hmem : mem c2 = mem c').
    { apply arr_ext; [congruence |]. intros a Ha.
      rewrite Hget2, (Hget a) by lia.
      destruct (_ && _); [reflexivity |]. by destruct (a <? 80). }
    rewrite Hc2 in Hmem |- *. fields. rewrite Hmem.
    rewrite Hc'. reflexivity.
  - rewrite read_program_result in Hread2. unfold MEM_SIZE in Hread2.
    rewrite length_take in Hdata.
    destruct (Z.leb_spec (u16 (Z.of_nat (length bytes))) (4096 - 512)) as [|Hbig];
      [discriminate |].
    assert (0 <= u16 (Z.of_nat (length bytes)) <= Z.of_nat (length bytes)).
    { unfold u16. split; [apply Z.mod_pos_bound; lia | apply Z.mod_le; lia]. }
    lia.
  - rewrite read_program_result in Hread2. unfold MEM_SIZE in Hread2.
    rewrite length_take in Hdata.
    destruct (Z.leb_spec (u16 (Z.of_nat (length bytes))) (4096 - 512)) as [|Hbig];
      [discriminate |].
    assert (0 <= u16 (Z.of_nat (length bytes)) <= Z.of_nat (length bytes)).
    { unfold u16. split; [apply Z.mod_pos_bound; lia | apply Z.mod_le; lia]. }
    lia.
Qed.

Lemma load_twice_witness :
  read_program_to_mem (Some [0x12; 0x00]) (loaded [0x12; 0x00]) =
  Done (loaded [0x12; 0x00], true).
Proof.
  apply (load_twice [0x12; 0x00] fresh); reflexivity.
Defined.

Lemma decode_fx29 (dbg : bool) (rnd : Z) (c : Chip8) (opcode1 : Z) :
  Z.shiftr opcode1 4 = 0x0F ->
  decode_instruction dbg rnd opcode1 0x29 c =
  Done (advance_pc
          (set_i_addr_reg (u16 (reg c (Z.land opcode1 0x0F) * fonts_offset)) c)).
Proof. intros Hop. unfold decode_instruction. by rewrite Hop. Qed.

(** X17: FX29 finds the glyph the loader put in memory.  After a read that
    returns, on any later machine whose memory still has the loaded bytes
    below 80, FX29 with a digit 0..F in Vx sets I to 5 times the digit, and
    the five sprite rows at I are the rows of that digit's glyph in the font
    table; nothing but I and PC changes. *)
Theorem font_glyph_after_load (dbg : bool) (rnd : Z) (bytes : list Z)
        (c c1 c2 : Chip8) (ok : bool) (opcode1 : Z) :
  length (mem c) = 4096%nat ->
  read_program_to_mem (Some bytes) c = Done (c1, ok) ->
  (forall a, 0 <= a < 80 -> arr_get (mem c2) a = arr_get (mem c1) a) ->
  Z.shiftr opcode1 4 = 0x0F ->
  let d := reg c2 (Z.land opcode1 0x0F) in
  0 <= d < 16 ->
  exists c3,
    decode_instruction dbg rnd opcode1 0x29 c2 = Done c3 /\
    i_addr_reg c3 = 5 * d /\
    (forall row, 0 <= row < 5 -> sprite_row c3 row = arr_get fonts (5 * d + row)) /\
    set_pc (pc c2) (set_i_addr_reg (i_addr_reg c2) c3) = c2.
Proof.
  intros Hlen Hread Hkept Hop d Hd.
  destruct (loaded_memory bytes c c1 ok Hlen Hread) as (_ & _ & _ & _ & Hget).
  rewrite decode_fx29 by exact Hop. fold d.
  eexists. split; [reflexivity |].
  unfold sprite_row, advance_pc, fonts_offset. fields.
  rewrite u16_small by lia.
  split; [lia |]. split; [| by destruct c2].
  intros row Hrow. rewrite Hkept, Hget by lia.
  destruct (Z.leb_spec 512 (d * 5 + row)); [lia |]. cbn [andb].
  destruct (Z.ltb_spec (d * 5 + row) 80); [| lia].
  f_equal. lia.
Qed.

Lemma font_glyph_after_load_witness :
  exists c3,
    decode_instruction false 0 0xF1 0x29 (set_reg 1 0x0A (loaded [0x12; 0x00])) = Done c3 /\
    i_addr_reg c3 = 50 /\ sprite_row c3 0 = 0xF0.
Proof.
  destruct (font_glyph_after_load false 0 [0x12; 0x00] fresh (loaded [0x12; 0x00])
              (set_reg 1 0x0A (loaded [0x12; 0x00])) true 0xF1)
    as (c3 & Hrun & HI & Hrows & _).
  - reflexivity.
  - reflexivity.
  - intros a Ha. reflexivity.
  - reflexivity.
  - by vm_compute.
  - exists c3. split; [exact Hrun |]. split; [exact HI |].
    apply (Hrows 0). lia.
Defined.

Lemma fonts_u8 : Forall is_u8 fonts.
Proof. apply forallb_below. by vm_compute. Qed.

Lemma memcpy_Forall (P : Z -> Prop) (dst src : list Z) (off : Z) :
  Forall P dst -> Forall P src -> Forall P (memcpy dst off src).
Proof.
  intros Hdst Hsrc. unfold memcpy.
  repeat apply Forall_app_2; [by apply Forall_take | done | by apply Forall_drop].
Qed.

(** X18: the loader keeps the machine inside its types.  Reading an image
    of bytes into a machine whose arrays have their declared sizes and whose
    fields fit their widths leaves such a machine, whenever the read
    returns; the same holds when the file cannot be opened. *)
Theorem load_keeps_wf (file : option (list Z)) (c c' : Chip8) (ok : bool) :
  wf c ->
  (forall bytes, file = Some bytes -> Forall is_u8 bytes) ->
  read_program_to_mem file c = Done (c', ok) ->
  wf c'.
Proof.
  intros Hc Hbytes Hread. destruct file as [bytes|].
  - destruct (loaded_memory bytes c c' ok (wf_mem_len c Hc) Hread)
      as (_ & _ & -> & Hlen' & _).
    apply wf_set_mem; [| exact Hlen' |].
    + apply wf_set_pc; [| unfold is_u16; lia].
      apply wf_set_program_size; [exact Hc | apply is_u16_u16].
    + apply memcpy_Forall; [apply memcpy_Forall; [apply Hc | apply fonts_u8] |].
      apply Forall_take. by apply Hbytes.
  - simpl in Hread. by injection Hread as <- <-.
Qed.

Lemma load_keeps_wf_witness : wf (loaded [0x12; 0x00]).
Proof.
  apply (load_keeps_wf (Some [0x12; 0x00]) fresh (loaded [0x12; 0x00]) true).
  - apply wf_fresh.
  - intros bytes [= <-]. apply forallb_below. by vm_compute.
  - reflexivity.
Defined.

(** ** Key events *)

Lemma key_map_find_In (m : list (Z * Z)) (scancode k : Z) :
  key_map_find m scancode = Some k -> In k (map snd m).
Proof.
  induction m as [|[s v] m IH]; [discriminate |].
  cbn [key_map_find map snd]. destruct (s =? scancode).
  - intros [= ->]. by left.
  - intros H. right. by apply IH.
Qed.

Lemma key_map_find_range (scancode k : Z) :
  key_map_find key_map scancode = Some k -> 0 <= k < NUM_KEYS.
Proof.
  intros H. apply key_map_find_In in H.
  assert (Hall : Forall (fun z => 0 <= z < 16) (map snd key_map))
    by (apply forallb_below; by vm_compute).
  rewrite Forall_forall in Hall. apply Hall. by apply list_elem_of_In.
Qed.

Lemma key_event_Done (value scancode : Z) (c : Chip8) :
  key_event value scancode c =
  Done (match key_map_find key_map (u16 scancode) with
        | Some k => set_keys (arr_set (keys c) k value) c
        | None => c
        end).
Proof.
  unfold key_event.
  destruct (key_map_find key_map (u16 scancode)) as [k|] eqn:Hk; [| reflexivity].
  apply key_map_find_range in Hk. by rewrite arr_write_in.
Qed.

(** X19: a key event writes one entry of the key buffer, inside it.  For
    every scancode the handler returns; a scancode the table does not have
    leaves the machine as it is, and one it has sets the entry of its key,
    which is below 16, to the value and changes nothing else. *)
Theorem key_event_effect (value scancode : Z) (c : Chip8) :
  length (keys c) = 16%nat ->
  exists c',
    key_event value scancode c = Done c' /\
    match key_map_find key_map (u16 scancode) with
    | None => c' = c
    | Some k =>
        0 <= k < 16 /\
        arr_get (keys c') k = value /\
        (forall j, 0 <= j -> j <> k -> arr_get (keys c') j = arr_get (keys c) j) /\
        length (keys c') = 16%nat /\
        set_keys (keys c) c' = c
    end.
Proof.
  intros Hlen. rewrite key_event_Done. eexists. split; [reflexivity |].
  destruct (key_map_find key_map (u16 scancode)) as [k|] eqn:Hk; [| reflexivity].
  apply key_map_find_range in Hk. unfold NUM_KEYS in Hk. fields.
  split; [exact Hk |]. split; [apply arr_get_set_eq; lia |].
  split; [| split; [by rewrite arr_set_length | by destruct c]].
  intros j Hj Hne. apply arr_get_set_ne; lia.
Qed.

Lemma key_event_effect_witness :
  exists c', key_event 1 0x051 fresh = Done c' /\ arr_get (keys c') 2 = 1.
Proof.
  destruct (key_event_effect 1 0x051 fresh) as (c' & Hrun & Heff);
    [reflexivity |].
  exists c'. split; [exact Hrun |].
  change (key_map_find key_map (u16 0x051)) with (Some 2) in Heff.
  apply Heff.
Defined.

Lemma handle_event_Done (e : event) (c : Chip8) :
  exists c', handle_event e c =
             Done (c', match e with SDL_QUIT => true | _ => false end) /\
             length (keys c') = length (keys c).
Proof.
  unfold handle_event.
  destruct e as [scancode|scancode| |]; rewrite ?key_event_Done; cbn [obind];
    (eexists; split; [reflexivity |]); try reflexivity;
    destruct (key_map_find _ _); fields; by rewrite ?arr_set_length.
Qed.

(** X20: [quit] is what the last queued event says.  Draining the queue
    always returns; [quit] ends true exactly when the last event of the
    batch is SDL_QUIT, so a quit request followed by any other event in the
    same batch is forgotten, and with no event [quit] keeps its value. *)
Theorem quit_is_last_event (events : list event) :
  forall (c : Chip8) (quit : bool),
  exists c',
    poll_events events c quit =
    Done (c', match last events with
              | None => quit
              | Some SDL_QUIT => true
              | Some _ => false
              end).
Proof.
  induction events as [|e events IH]; intros c quit.
  - exists c. reflexivity.
  - cbn [poll_events].
    destruct (handle_event_Done e c) as (c1 & -> & _). cbn [obind fst snd].
    destruct (IH c1 (match e with SDL_QUIT => true | _ => false end)) as (c' & ->).
    exists c'. destruct events as [|e' events]; [reflexivity |].
    rewrite last_cons_cons.
    destruct (last (e' :: events)) as [e''|] eqn:Hlast; [reflexivity |].
    by apply last_None in Hlast.
Qed.

(** X21: the key buffer does not count presses.  When two scancodes are
    bound to the same key, pressing both and releasing one leaves the key's
    entry at 0 although the other is still held down. *)
Theorem shared_key_release (s1 s2 k : Z) (c : Chip8) (quit : bool) :
  key_map_find key_map (u16 s1) = Some k ->
  key_map_find key_map (u16 s2) = Some k ->
  length (keys c) = 16%nat ->
  exists c',
    poll_events [SDL_KEYDOWN s1; SDL_KEYDOWN s2; SDL_KEYUP s2] c quit
    = Done (c', false) /\
    arr_get (keys c') k = 0.
Proof.
  intros H1 H2 Hlen. pose proof (key_map_find_range _ _ H1) as Hk.
  unfold NUM_KEYS in Hk.
  cbn [poll_events]. unfold handle_event.
  rewrite key_event_Done, H1. cbn [obind fst snd].
  rewrite key_event_Done, H2. cbn [obind fst snd].
  rewrite key_event_Done, H2. cbn [obind fst snd].
  eexists. split; [reflexivity |]. fields.
  apply arr_get_set_eq. rewrite !arr_set_length. lia.
Qed.

Lemma shared_key_release_witness :
  exists c',
    poll_events [SDL_KEYDOWN 0x01F; SDL_KEYDOWN 0x051; SDL_KEYUP 0x051] fresh false
    = Done (c', false) /\
    arr_get (keys c') 2 = 0.
Proof.
  apply (shared_key_release 0x01F 0x051 2 fresh false); reflexivity.
Defined.
